(** * pyapollo: the synchronisation and fallback engine of [ApolloClient]

    A shallow embedding of [src/pyapollo/apollo_client.py] and
    [src/pyapollo/exceptions.py].

    Conventions of the embedding.
    - A method of [ApolloClient] is a computation in a state-and-exception
      monad: Python mutates [self] and the disk before it raises, so a raised
      exception carries the state reached so far.
    - The collaborators the client calls are not part of the repository:
      [requests.get] and [telnetlib.Telnet] are fields of a [world] record,
      [json.loads] is a variable of the section that holds the client. One
      [world] describes the environment during one call or one pass, in
      which every URL is requested once; the polling loop is given the
      environment of each of its rounds.
    - The cache directory is a store of named entries in listing order (the
      order [os.listdir] returns them); a file written for the first time is
      listed last. The host is POSIX (line separator LF, path separator
      [/], file names of at most 255 bytes), text is a string of bytes, and
      the disk does not fail on its own: [open] raises only for the reasons
      the name and the entries give (a name the directory cannot hold, a
      directory in the way, a missing file). The names of the entries are
      file names; what lies below a subdirectory is not part of the state,
      and the client is not let in there.
    - Namespaces are [str], as every method annotates them; the listing of
      the server may name one by another scalar, see [namespace_key].
    - Floating point numbers are outside the JSON values modelled here, and
      so are the asynchronous exceptions ([KeyboardInterrupt], [SystemExit]). *)

From Stdlib Require Import ZArith Lia Ascii String DecimalString.
From stdpp Require Import base option list strings gmap sorting.

Local Open Scope Z_scope.
Local Open Scope string_scope.

(** ** Python values produced by [json.loads] *)

(** A decoded JSON document. An object is a Python [dict]: its members in
    insertion order, with distinct keys. *)
#[local] Unset Elimination Schemes.
Inductive json : Type :=
| JNull
| JBool (b : bool)
| JNum (n : Z)
| JStr (s : string)
| JArr (items : list json)
| JObj (members : list (string * json)).
#[local] Set Elimination Schemes.

Module PyDict.
(** The part of Python's [dict] the client uses, for string keys. *)
Section Dict.
Context {V : Type}.

(** [d.get(k)] as an option ([None] when the key is absent). *)
Fixpoint get (k : string) (d : list (string * V)) : option V :=
  match d with
  | [] => None
  | (k', v) :: d' => if String.eqb k k' then Some v else get k d'
  end.

(** [d[k] = v]: an existing key keeps its position. *)
Fixpoint set (k : string) (v : V) (d : list (string * V)) : list (string * V) :=
  match d with
  | [] => [(k, v)]
  | (k', v') :: d' =>
      if String.eqb k k' then (k', v) :: d' else (k', v') :: set k v d'
  end.

(** [d.keys()], in iteration order. *)
Definition keys (d : list (string * V)) : list string := map fst d.
End Dict.
End PyDict.

(** The number a [bool] or an [int] compares as. *)
Definition as_number (j : json) : option Z :=
  match j with
  | JBool b => Some (Z.b2z b)
  | JNum n => Some n
  | _ => None
  end.

(** Every member of [xs] that no earlier member shadows has a value in
    [ys] that [eqv] accepts. *)
Fixpoint members_within (eqv : json -> json -> bool) (ys : list (string * json))
    (seen : list string) (xs : list (string * json)) : bool :=
  match xs with
  | [] => true
  | (k, x) :: xs' =>
      (bool_decide (k ∈ seen)
       || match PyDict.get k ys with
          | Some y => eqv x y
          | None => false
          end)
      && members_within eqv ys (k :: seen) xs'
  end.

(** Python's [==] on decoded values: [True == 1] and [False == 0] hold,
    lists compare item by item, and two dicts are equal when they have the
    same keys with equal values, in whatever order. *)
Fixpoint py_eq (a b : json) {struct a} : bool :=
  match a, b with
  | JNull, JNull => true
  | JBool x, (JBool _ | JNum _) =>
      match as_number b with Some y => Z.eqb (Z.b2z x) y | None => false end
  | JNum x, (JBool _ | JNum _) =>
      match as_number b with Some y => Z.eqb x y | None => false end
  | JStr x, JStr y => String.eqb x y
  | JArr xs, JArr ys =>
      (fix go (xs ys : list json) : bool :=
         match xs, ys with
         | [], [] => true
         | x :: xs', y :: ys' => py_eq x y && go xs' ys'
         | _, _ => false
         end) xs ys
  | JObj xs, JObj ys =>
      Nat.eqb (length (remove_dups (PyDict.keys xs)))
              (length (remove_dups (PyDict.keys ys)))
      && members_within (fun x y => py_eq x y) ys [] xs
  | _, _ => false
  end.

(** [a != b] *)
Definition py_ne (a b : json) : bool := negb (py_eq a b).

(** [str(n)] for an [int]. *)
Definition str_of_int (n : Z) : string := NilZero.string_of_int (Z.to_int n).

(** ** String operations of the standard library *)

Module PyStr.
Definition NUL : ascii := ascii_of_nat 0.
Definition LF : ascii := ascii_of_nat 10.
Definition CR : ascii := ascii_of_nat 13.

(** [c in s] for a one-character [c]. *)
Fixpoint contains (c : ascii) (s : string) : bool :=
  match s with
  | EmptyString => false
  | String a s' => Ascii.eqb a c || contains c s'
  end.

(** [s.partition(c)]: the text before and the text after the first
    occurrence of [c], when there is one. *)
Fixpoint partition (c : ascii) (s : string) : option (string * string) :=
  match s with
  | EmptyString => None
  | String a s' =>
      if Ascii.eqb a c then Some (EmptyString, s')
      else
        match partition c s' with
        | Some (before, after) => Some (String a before, after)
        | None => None
        end
  end.

(** [s.rpartition(c)]: the text before and the text after the last
    occurrence of [c], when there is one. *)
Fixpoint rpartition (c : ascii) (s : string) : option (string * string) :=
  match s with
  | EmptyString => None
  | String a s' =>
      match rpartition c s' with
      | Some (before, after) => Some (String a before, after)
      | None => if Ascii.eqb a c then Some (EmptyString, s') else None
      end
  end.

(** [s.split(c)[-1]] *)
Definition split_last (c : ascii) (s : string) : string :=
  match rpartition c s with
  | Some (_, after) => after
  | None => s
  end.

Fixpoint all_dots (s : string) : bool :=
  match s with
  | EmptyString => true
  | String a s' => Ascii.eqb a "."%char && all_dots s'
  end.

(** [os.path.splitext(p)] of [posixpath]: the extension starts at the last
    dot of the last path component, and leading dots of that component do
    not start an extension. *)
Definition splitext (p : string) : string * string :=
  let '(dir, base) :=
    match rpartition "/"%char p with
    | Some (d, b) => (d +:+ "/", b)
    | None => (EmptyString, p)
    end in
  match rpartition "."%char base with
  | Some (root, ext) =>
      if all_dots root then (p, EmptyString)
      else (dir +:+ root, String "."%char ext)
  | None => (p, EmptyString)
  end.

(** What a text-mode stream opened with the default [newline=None] hands
    to the reader: CR LF and a lone CR become LF. *)
Fixpoint universal_newlines (s : string) : string :=
  match s with
  | EmptyString => EmptyString
  | String a s' =>
      if Ascii.eqb a CR then
        match s' with
        | String b s'' =>
            if Ascii.eqb b LF then String LF (universal_newlines s'')
            else String LF (universal_newlines s')
        | EmptyString => String LF EmptyString
        end
      else String a (universal_newlines s')
  end.

(** The first line of a text, its LF included. *)
Fixpoint first_line (s : string) : string :=
  match s with
  | EmptyString => EmptyString
  | String a s' =>
      if Ascii.eqb a LF then String LF EmptyString else String a (first_line s')
  end.
End PyStr.

(** ** Exceptions ([exceptions.py] and the built-in ones the client meets) *)

Inductive exn : Type :=
| NameSpaceNotFoundException (msg : string)
| ServerNotResponseException (msg : string)
| ReadTimeout                 (* requests.exceptions.ReadTimeout *)
| ConnectionRefusedError
| PyError (cls : string).     (* any other subclass of Exception, by class name *)

(** [isinstance(e, BasicException)]: the two classes of [exceptions.py]. *)
Definition is_BasicException (e : exn) : bool :=
  match e with
  | NameSpaceNotFoundException _ | ServerNotResponseException _ => true
  | _ => false
  end.

(** [isinstance(e, Exception)]: [BasicException] derives from
    [BaseException], every other class here from [Exception]. *)
Definition is_Exception (e : exn) : bool := negb (is_BasicException e).

(** [isinstance(e, BaseException)] *)
Definition is_BaseException (e : exn) : bool := true.

Definition is_ReadTimeout (e : exn) : bool :=
  match e with ReadTimeout => true | _ => false end.

Definition is_ConnectionRefusedError (e : exn) : bool :=
  match e with ConnectionRefusedError => true | _ => false end.

Inductive result (A : Type) : Type :=
| Return (a : A)
| Raise (e : exn).
Arguments Return {A} a.
Arguments Raise {A} e.

(** ** The client's mutable state and its environment *)

(** An entry of the cache directory. *)
Inductive entry : Type :=
| File (content : string)
| Directory.

(** The attributes of [self] that change after construction, the cache
    directory [self._cache_file_path], and a ghost counter of the files
    opened for writing (the write-count instrumentation the specification
    speaks of). *)
Record state : Type := mkState {
  _cache : gmap string json;
  _hash : gmap string json;
  _notification_map : list (string * json);
  disk : list (string * entry);
  disk_writes : nat
}.

(** The attributes [__init__] fixes. *)
Record config : Type := mkConfig {
  config_server_url : string;
  app_id : string;
  cluster : string;
  host : string;
  port : Z;
  timeout : Z;
  _authorization : option string;
  _sync_time : Z
}.

Record Response : Type := mkResponse {
  status_code : Z;
  text : string
}.

(** The collaborators: [requests.get(url, headers, timeout)],
    [Telnet(host, port, timeout)] and [str(time.time())]. *)
Record world : Type := mkWorld {
  requests_get : string -> option string -> Z -> result Response;
  Telnet : string -> Z -> Z -> result unit;
  time_str : string
}.

(** ** The monad of methods *)

Definition M (A : Type) : Type := state -> result A * state.

Definition ret {A} (a : A) : M A := fun st => (Return a, st).

Definition raise {A} (e : exn) : M A := fun st => (Raise e, st).

Definition bind {A B} (m : M A) (f : A -> M B) : M B :=
  fun st =>
    match m st with
    | (Return a, st') => f a st'
    | (Raise e, st') => (Raise e, st')
    end.

(** [try: body  except <classes> as e: handler e] *)
Definition try_except {A} (body : M A) (classes : exn -> bool) (handler : exn -> M A) : M A :=
  fun st =>
    match body st with
    | (Return a, st') => (Return a, st')
    | (Raise e, st') => if classes e then handler e st' else (Raise e, st')
    end.

Definition lift {A} (r : result A) : M A := fun st => (r, st).

Notation "x <- m ;; k" := (bind m (fun x => k))
  (at level 100, m at next level, right associativity).
Notation "m ;; k" := (bind m (fun _ => k))
  (at level 100, right associativity).

(** [for x in l: body x] *)
Fixpoint for_each {A} (l : list A) (body : A -> M unit) : M unit :=
  match l with
  | [] => ret tt
  | x :: l' => body x ;; for_each l' body
  end.

(** A computation keeps a property of the state, whether it returns or
    raises. *)
Definition preserves {A} (I : state -> Prop) (m : M A) : Prop :=
  forall st, I st -> I (snd (m st)).

(** A computation that does not touch the state. *)
Definition pure {A} (m : M A) : Prop := forall st, snd (m st) = st.

(** *** Attribute access *)

Definition replace_cache (cache : gmap string json) (st : state) : state :=
  mkState cache (_hash st) (_notification_map st) (disk st) (disk_writes st).

Definition with_cache (namespace : string) (v : json) (st : state) : state :=
  replace_cache (<[namespace := v]> (_cache st)) st.

Definition with_hash (namespace : string) (v : json) (st : state) : state :=
  mkState (_cache st) (<[namespace := v]> (_hash st)) (_notification_map st)
          (disk st) (disk_writes st).

Definition with_notification_map (d : list (string * json)) (st : state) : state :=
  mkState (_cache st) (_hash st) d (disk st) (disk_writes st).

(** [self._cache[namespace] = v] *)
Definition cache_set (namespace : string) (v : json) : M unit :=
  fun st => (Return tt, with_cache namespace v st).

Definition cache_lookup (namespace : string) : M (option json) :=
  fun st => (Return (_cache st !! namespace), st).

(** [self._hash.get(namespace)] *)
Definition hash_get (namespace : string) : M json :=
  fun st => (Return (default JNull (_hash st !! namespace)), st).

(** [self._hash[namespace] = v] *)
Definition hash_set (namespace : string) (v : json) : M unit :=
  fun st => (Return tt, with_hash namespace v st).

Definition notification_map_set (d : list (string * json)) : M unit :=
  fun st => (Return tt, with_notification_map d st).

Definition notification_map_keys : M (list string) :=
  fun st => (Return (PyDict.keys (_notification_map st)), st).

(** *** The cache directory *)

(** [os.path.isfile(os.path.join(self._cache_file_path, name))] on a
    directory [d] *)
Definition is_regular_file (name : string) (d : list (string * entry)) : bool :=
  match PyDict.get name d with
  | Some (File _) => true
  | _ => false
  end.

Definition isfile (name : string) : M bool :=
  fun st => (Return (is_regular_file name (disk st)), st).

(** [os.listdir(self._cache_file_path)] *)
Definition listdir : M (list string) :=
  fun st => (Return (PyDict.keys (disk st)), st).

Definition disk_set (name : string) (content : string) (st : state) : state :=
  mkState (_cache st) (_hash st) (_notification_map st)
          (PyDict.set name (File content) (disk st)) (disk_writes st).

Definition count_write (st : state) : state :=
  mkState (_cache st) (_hash st) (_notification_map st) (disk st)
          (S (disk_writes st)).

(** [NAME_MAX], the longest file name of the host's file systems, in
    bytes. *)
Definition NAME_MAX : nat := 255.

(** Why a file of this name cannot be created in a directory: [open]
    refuses a name with a NUL; a name with a path separator leads below
    its first component, which is missing, a regular file, or a
    subdirectory closed to the client; a name longer than [NAME_MAX] is
    refused by the file system. *)
Definition create_refused (name : string) (d : list (string * entry)) : option exn :=
  if PyStr.contains PyStr.NUL name then Some (PyError "ValueError")
  else
    match PyStr.partition "/"%char name with
    | Some (first, _) =>
        if (NAME_MAX <? String.length first)%nat then Some (PyError "OSError")
        else
          match PyDict.get first d with
          | None => Some (PyError "FileNotFoundError")
          | Some (File _) => Some (PyError "NotADirectoryError")
          | Some Directory => Some (PyError "PermissionError")
          end
    | None =>
        if (NAME_MAX <? String.length name)%nat then Some (PyError "OSError")
        else None
    end.

(** The exception of [open(path, "w")], if it raises one: a directory has
    the name, or the file is not there and cannot be created. *)
Definition open_error (name : string) (d : list (string * entry)) : option exn :=
  match PyDict.get name d with
  | Some (File _) => None
  | Some Directory => Some (PyError "IsADirectoryError")
  | None => create_refused name d
  end.

(** [open(path, "w")] succeeds. *)
Definition writable (name : string) (d : list (string * entry)) : bool :=
  match open_error name d with
  | None => true
  | Some _ => false
  end.

(** [open(path, "w")]: the file is created, or emptied when it exists. *)
Definition open_w (name : string) : M unit :=
  fun st =>
    match open_error name (disk st) with
    | Some e => (Raise e, st)
    | None => (Return tt, count_write (disk_set name EmptyString st))
    end.

(** [f.write(data)] on the file just opened, then the close at the end of
    the [with] block; [write] takes a [str] only. *)
Definition f_write (name : string) (data : json) : M unit :=
  fun st =>
    match data with
    | JStr s => (Return tt, disk_set name s st)
    | _ => (Raise (PyError "TypeError"), st)
    end.

(** [open(path)] for reading in text mode: what the stream delivers. *)
Definition open_r (name : string) : M string :=
  fun st =>
    match PyDict.get name (disk st) with
    | Some (File content) => (Return (PyStr.universal_newlines content), st)
    | Some Directory => (Raise (PyError "IsADirectoryError"), st)
    | None => (Raise (PyError "FileNotFoundError"), st)
    end.

(** *** Operations on decoded values *)

(** [j.get(k, default)]: only a [dict] has the method. *)
Definition get_method (j : json) (k : string) (default_val : json) : M json :=
  match j with
  | JObj members => ret (default default_val (PyDict.get k members))
  | _ => raise (PyError "AttributeError")
  end.

(** [j[k]] for a [dict] [j] *)
Definition getitem (j : json) (k : string) : M json :=
  match j with
  | JObj members =>
      match PyDict.get k members with
      | Some v => ret v
      | None => raise (PyError "KeyError")
      end
  | _ => raise (PyError "TypeError")
  end.

(** The items [for _ in j] visits. *)
Definition iterate (j : json) : M (list json) :=
  match j with
  | JArr items => ret items
  | JObj members => ret (map (fun kv => JStr (fst kv)) members)
  | JStr s => ret (map (fun c => JStr (String c EmptyString)) (list_ascii_of_string s))
  | _ => raise (PyError "TypeError")
  end.

(** A decoded value used as a key of [self._notification_map]. Namespaces
    are [str] throughout the client, and on a [str] this is exact. A scalar
    of another type is given as its [str()] rendering, which is how the URL
    and the file name read it; as a key of a Python [dict] it stays apart
    from the [str] of the same text, so the properties of the discovered
    namespaces are stated for listings that name them by strings. Lists and
    dicts are unhashable. *)
Definition namespace_key (j : json) : M string :=
  match j with
  | JStr s => ret s
  | JNull => ret "None"
  | JBool true => ret "True"
  | JBool false => ret "False"
  | JNum n => ret (str_of_int n)
  | JArr _ | JObj _ => raise (PyError "TypeError")
  end.

(** [str(e)]: [BasicException.__str__] reads [self.__name__], an attribute
    instances do not have. *)
Definition exn_str (e : exn) : M string :=
  match e with
  | NameSpaceNotFoundException _ | ServerNotResponseException _ =>
      raise (PyError "AttributeError")
  | ReadTimeout => ret "ReadTimeout"
  | ConnectionRefusedError => ret "ConnectionRefusedError"
  | PyError cls => ret cls
  end.

(** ** The methods of [ApolloClient] *)

Section ApolloClient.
(** [json.loads] on a [str]: [None] when it raises [JSONDecodeError]. *)
Variable json_loads : string -> option json.
Variable self : config.
Variable w : world.

(** [json.loads(x)] on a decoded value *)
Definition loads (x : json) : M json :=
  match x with
  | JStr s =>
      match json_loads s with
      | Some j => ret j
      | None => raise (PyError "JSONDecodeError")
      end
  | _ => raise (PyError "TypeError")
  end.

(** [r.json()] *)
Definition Response_json (r : Response) : M json := loads (JStr (text r)).

(** ["%s_configuration_%s.txt" % (self.app_id, namespace)] *)
Definition cache_file_name (namespace : string) : string :=
  app_id self +:+ "_configuration_" +:+ namespace +:+ ".txt".

Definition namespaces_url : string :=
  host self +:+ ":" +:+ str_of_int (port self) +:+ "/apps/" +:+ app_id self
    +:+ "/clusters/" +:+ cluster self +:+ "/namespaces".

Definition release_url (namespace : string) : string :=
  namespaces_url +:+ "/" +:+ namespace +:+ "/releases/latest".

(** The header argument of [requests.get]: present when
    [self._authorization] is truthy. *)
Definition headers : option string :=
  match _authorization self with
  | Some a => if String.eqb a EmptyString then None else Some a
  | None => None
  end.

Definition _http_get (url : string) : M Response :=
  try_except
    (lift (requests_get w url headers (timeout self / 2)))
    is_ReadTimeout
    (fun _ =>
       try_except
         (lift (Telnet w (host self) (port self) (timeout self / 2)) ;;
          raise (NameSpaceNotFoundException "namespace not found"))
         is_ConnectionRefusedError
         (fun _ =>
            raise (ServerNotResponseException
                     ("server: " +:+ config_server_url self +:+ " not response")))).

(** [{_.get("namespaceName"): _.get("id") for _ in namespaces}] *)
Fixpoint namespaces_comprehension (items : list json) (acc : list (string * json))
  : M (list (string * json)) :=
  match items with
  | [] => ret acc
  | item :: rest =>
      name <- get_method item "namespaceName" JNull ;;
      id <- get_method item "id" JNull ;;
      key <- namespace_key name ;;
      namespaces_comprehension rest (PyDict.set key id acc)
  end.

Definition _get_namespaces : M (list (string * json)) :=
  r <- _http_get namespaces_url ;;
  if Z.eqb (status_code r) 200 then
    namespaces <- Response_json r ;;
    items <- iterate namespaces ;;
    namespaces_comprehension items []
  else ret [("application", JNum (-1))].

Definition _update_local_cache (release_key data : json) (namespace : string) : M unit :=
  last_key <- hash_get namespace ;;
  if py_ne last_key release_key then
    open_w (cache_file_name namespace) ;;
    f_write (cache_file_name namespace) data ;;
    hash_set namespace release_key
  else ret tt.

Definition _get_local_cache_by_namespace (namespace : string) : M json :=
  is_file <- isfile (cache_file_name namespace) ;;
  if is_file : bool then
    content <- open_r (cache_file_name namespace) ;;
    loads (JStr (PyStr.first_line content))
  else ret (JObj []).

Definition _get_config_by_namespace (namespace : string) : M unit :=
  try_except
    (r <- _http_get (release_url namespace) ;;
     if Z.eqb (status_code r) 200 then
       data <- Response_json r ;;
       configurations <- get_method data "configurations" (JStr "{}") ;;
       snapshot <- loads configurations ;;
       cache_set namespace snapshot ;;
       (* the arguments of the log call *)
       getitem data "releaseKey" ;;
       release_key <- get_method data "releaseKey" (JStr (time_str w)) ;;
       raw <- get_method data "configurations" (JObj []) ;;
       _update_local_cache release_key raw namespace
     else
       data <- _get_local_cache_by_namespace namespace ;;
       cache_set namespace data)
    is_BaseException
    (fun e =>
       exn_str e ;;
       data <- _get_local_cache_by_namespace namespace ;;
       cache_set namespace data).

Definition get_value (key : string) (default_val : json) (namespace : string) : M json :=
  try_except
    (entry <- cache_lookup namespace ;;
     match entry with
     | Some snapshot => get_method snapshot key default_val
     | None => ret default_val
     end)
    is_BasicException
    (fun _ => ret default_val).

(** The body of the loop of [_read_from_local_cache_file]. *)
Definition load_cache_file (file_name : string) : M unit :=
  is_file <- isfile file_name ;;
  if is_file : bool then
    let '(file_simple_name, file_ext_name) := PyStr.splitext file_name in
    if String.eqb file_ext_name ".swp" then ret tt
    else
      let namespace := PyStr.split_last "_"%char file_simple_name in
      content <- open_r file_name ;;
      snapshot <- loads (JStr content) ;;
      cache_set namespace snapshot
  else ret tt.

Definition _read_from_local_cache_file : M bool :=
  names <- listdir ;;
  for_each names load_cache_file ;;
  ret true.

(** The loop of [_read_from_server]. *)
Definition fetch_all (namespaces : list string) : M unit :=
  for_each namespaces _get_config_by_namespace.

Definition _read_from_server : M unit :=
  try_except
    (namespaces <- _get_namespaces ;;
     notification_map_set namespaces ;;
     keys <- notification_map_keys ;;
     fetch_all keys)
    is_Exception
    (fun e =>
       exn_str e ;;
       _read_from_local_cache_file ;;
       ret tt).

(** *** What the environment and the disk hold for a namespace *)

(** What [_http_get] gives for a URL; it neither reads nor changes the
    client's state. *)
Definition http_outcome (url : string) : result Response :=
  match requests_get w url headers (timeout self / 2) with
  | Return r => Return r
  | Raise ReadTimeout =>
      match Telnet w (host self) (port self) (timeout self / 2) with
      | Return _ => Raise (NameSpaceNotFoundException "namespace not found")
      | Raise ConnectionRefusedError =>
          Raise (ServerNotResponseException
                   ("server: " +:+ config_server_url self +:+ " not response"))
      | Raise e => Raise e
      end
  | Raise e => Raise e
  end.

(** The release request of a namespace fails: a response other than 200,
    or an exception that is not one of the timeout classifications. *)
Definition fetch_failed (namespace : string) : Prop :=
  match http_outcome (release_url namespace) with
  | Return r => status_code r <> 200
  | Raise e => is_BasicException e = false
  end.

(** The release request of a namespace succeeds with this release key,
    this configurations string and its decoding. *)
Definition fetch_succeeds (namespace : string) (release_key : json)
    (configurations : string) (snapshot : json) : Prop :=
  exists r members,
    http_outcome (release_url namespace) = Return r /\
    status_code r = 200 /\
    json_loads (text r) = Some (JObj members) /\
    PyDict.get "configurations" members = Some (JStr configurations) /\
    PyDict.get "releaseKey" members = Some release_key /\
    json_loads configurations = Some snapshot.

(** What [_get_local_cache_by_namespace] returns on a directory, when it
    returns. *)
Definition local_snapshot (d : list (string * entry)) (namespace : string)
  : option json :=
  match PyDict.get (cache_file_name namespace) d with
  | Some (File content) =>
      json_loads (PyStr.first_line (PyStr.universal_newlines content))
  | _ => Some (JObj [])
  end.

(** The namespace key and the text of a file that the cold-start scan
    loads; [None] for an entry it skips. *)
Definition record_of (d : list (string * entry)) (file_name : string)
  : option (string * string) :=
  match PyDict.get file_name d with
  | Some (File content) =>
      if String.eqb (snd (PyStr.splitext file_name)) ".swp" then None
      else Some (PyStr.split_last "_"%char (fst (PyStr.splitext file_name)),
                 PyStr.universal_newlines content)
  | _ => None
  end.

(** The records of a directory, in listing order. *)
Definition records (d : list (string * entry)) : list (string * string) :=
  omap (record_of d) (PyDict.keys d).

Definition decodable (record : string * string) : Prop :=
  is_Some (json_loads (snd record)).

(** The cache after loading decodable records in order. *)
Definition load_records (rs : list (string * string)) (cache : gmap string json)
  : gmap string json :=
  foldl (fun c r => match json_loads (snd r) with
                    | Some v => <[fst r := v]> c
                    | None => c
                    end) cache rs.
End ApolloClient.

(** [time.sleep(seconds)]: a negative interval is refused. *)
Definition sleep (seconds : Z) : M unit :=
  if Z.ltb seconds 0 then raise (PyError "ValueError") else ret tt.

(** [_long_polling], for as many rounds as environments are given: the
    loop itself has no end. Each round is one pass in the environment of
    that round, then the sleep. *)
Fixpoint _long_polling (json_loads : string -> option json) (self : config)
    (rounds : list world) : M unit :=
  match rounds with
  | [] => ret tt
  | w :: rest =>
      _read_from_server json_loads self w ;;
      sleep (_sync_time self) ;;
      _long_polling json_loads self rest
  end.

(** ** A JSON decoder for the examples

    The theorems below hold for every decoder [json_loads]. The examples
    run the client on concrete documents and need one: [JsonText.decode]
    reads the JSON grammar without fractions, exponents and [\u] escapes,
    and builds a [dict] the way Python does (a repeated key keeps its
    first position and its last value). *)

Module JsonText.
Inductive token : Type :=
| LBrace | RBrace | LBracket | RBracket | Colon | Comma
| Str (s : string)
| Int (n : Z)
| Lit (j : json).

Definition quote : ascii := ascii_of_nat 34.
Definition backslash : ascii := ascii_of_nat 92.

Definition is_ws (c : ascii) : bool :=
  Ascii.eqb c " " || Ascii.eqb c (ascii_of_nat 9)
  || Ascii.eqb c PyStr.LF || Ascii.eqb c PyStr.CR.

Definition digit (c : ascii) : option Z :=
  let n := Z.of_nat (nat_of_ascii c) in
  if (48 <=? n)%Z && (n <=? 57)%Z then Some (n - 48)%Z else None.

Definition unescape (c : ascii) : option ascii :=
  if Ascii.eqb c quote then Some quote
  else if Ascii.eqb c backslash then Some backslash
  else if Ascii.eqb c "/" then Some "/"%char
  else if Ascii.eqb c "n" then Some PyStr.LF
  else if Ascii.eqb c "r" then Some PyStr.CR
  else if Ascii.eqb c "t" then Some (ascii_of_nat 9)
  else if Ascii.eqb c "b" then Some (ascii_of_nat 8)
  else if Ascii.eqb c "f" then Some (ascii_of_nat 12)
  else None.

(** The text of a string literal after its opening quote, and what
    follows the closing quote. *)
Fixpoint lex_string (s : string) : option (string * string) :=
  match s with
  | EmptyString => None
  | String c s' =>
      if Ascii.eqb c quote then Some (EmptyString, s')
      else if Ascii.eqb c backslash then
        match s' with
        | String e s'' =>
            match unescape e, lex_string s'' with
            | Some ch, Some (lit, rest) => Some (String ch lit, rest)
            | _, _ => None
            end
        | EmptyString => None
        end
      else if (nat_of_ascii c <? 32)%nat then None
      else
        match lex_string s' with
        | Some (lit, rest) => Some (String c lit, rest)
        | None => None
        end
  end.

Fixpoint lex_digits (s : string) (acc : Z) : Z * string :=
  match s with
  | EmptyString => (acc, s)
  | String c s' =>
      match digit c with
      | Some d => lex_digits s' (10 * acc + d)%Z
      | None => (acc, s)
      end
  end.

(** An integer literal: no leading zero, no fraction, no exponent. *)
Definition lex_int (s : string) : option (Z * string) :=
  match s with
  | String c s' =>
      match digit c with
      | Some d =>
          let '(n, rest) := lex_digits s 0 in
          let leading_zero :=
            (d =? 0)%Z && match s' with
                          | String c' _ => bool_decide (is_Some (digit c'))
                          | EmptyString => false
                          end in
          let continues :=
            match rest with
            | String c' _ => Ascii.eqb c' "." || Ascii.eqb c' "e" || Ascii.eqb c' "E"
            | EmptyString => false
            end in
          if leading_zero || continues then None else Some (n, rest)
      | None => None
      end
  | EmptyString => None
  end.

Fixpoint strip_prefix (p s : string) : option string :=
  match p, s with
  | EmptyString, _ => Some s
  | String a p', String b s' => if Ascii.eqb a b then strip_prefix p' s' else None
  | _, EmptyString => None
  end.

Definition push (t : token) (r : option (list token)) : option (list token) :=
  match r with Some ts => Some (t :: ts) | None => None end.

Fixpoint lex (fuel : nat) (s : string) : option (list token) :=
  match fuel with
  | O => None
  | S fuel' =>
      match s with
      | EmptyString => Some []
      | String c s' =>
          if is_ws c then lex fuel' s'
          else if Ascii.eqb c "{" then push LBrace (lex fuel' s')
          else if Ascii.eqb c "}" then push RBrace (lex fuel' s')
          else if Ascii.eqb c "[" then push LBracket (lex fuel' s')
          else if Ascii.eqb c "]" then push RBracket (lex fuel' s')
          else if Ascii.eqb c ":" then push Colon (lex fuel' s')
          else if Ascii.eqb c "," then push Comma (lex fuel' s')
          else if Ascii.eqb c quote then
            match lex_string s' with
            | Some (lit, rest) => push (Str lit) (lex fuel' rest)
            | None => None
            end
          else if Ascii.eqb c "-" then
            match lex_int s' with
            | Some (n, rest) => push (Int (- n)) (lex fuel' rest)
            | None => None
            end
          else
            match lex_int s, strip_prefix "true" s, strip_prefix "false" s,
                  strip_prefix "null" s with
            | Some (n, rest), _, _, _ => push (Int n) (lex fuel' rest)
            | _, Some rest, _, _ => push (Lit (JBool true)) (lex fuel' rest)
            | _, _, Some rest, _ => push (Lit (JBool false)) (lex fuel' rest)
            | _, _, _, Some rest => push (Lit JNull) (lex fuel' rest)
            | _, _, _, _ => None
            end
      end
  end.

Fixpoint parse (fuel : nat) (ts : list token) : option (json * list token) :=
  match fuel with
  | O => None
  | S fuel' =>
      match ts with
      | Lit j :: r => Some (j, r)
      | Int n :: r => Some (JNum n, r)
      | Str s :: r => Some (JStr s, r)
      | LBracket :: RBracket :: r => Some (JArr [], r)
      | LBracket :: r =>
          match parse fuel' r with
          | Some (x, r1) => parse_items fuel' [x] r1
          | None => None
          end
      | LBrace :: RBrace :: r => Some (JObj [], r)
      | LBrace :: Str k :: Colon :: r =>
          match parse fuel' r with
          | Some (v, r1) => parse_members fuel' [(k, v)] r1
          | None => None
          end
      | _ => None
      end
  end
with parse_items (fuel : nat) (acc : list json) (ts : list token)
  : option (json * list token) :=
  match fuel with
  | O => None
  | S fuel' =>
      match ts with
      | RBracket :: r => Some (JArr (rev acc), r)
      | Comma :: r =>
          match parse fuel' r with
          | Some (x, r1) => parse_items fuel' (x :: acc) r1
          | None => None
          end
      | _ => None
      end
  end
with parse_members (fuel : nat) (acc : list (string * json)) (ts : list token)
  : option (json * list token) :=
  match fuel with
  | O => None
  | S fuel' =>
      match ts with
      | RBrace :: r => Some (JObj acc, r)
      | Comma :: Str k :: Colon :: r =>
          match parse fuel' r with
          | Some (v, r1) => parse_members fuel' (PyDict.set k v acc) r1
          | None => None
          end
      | _ => None
      end
  end.

Definition decode (s : string) : option json :=
  match lex (S (String.length s)) s with
  | Some ts =>
      match parse (S (2 * length ts)) ts with
      | Some (j, []) => Some j
      | _ => None
      end
  | None => None
  end.

(** A string literal of a document: [s] between quotes. *)
Definition q (s : string) : string :=
  String quote (s +:+ String quote EmptyString).

(** An end of line inside a document. *)
Definition nl : string := String PyStr.LF EmptyString.

Fixpoint escape (s : string) : string :=
  match s with
  | EmptyString => EmptyString
  | String c s' =>
      if Ascii.eqb c quote || Ascii.eqb c backslash
      then String backslash (String c (escape s'))
      else if Ascii.eqb c PyStr.LF then String backslash (String "n" (escape s'))
      else String c (escape s')
  end.

(** The string literal that encodes a text. *)
Definition lit (s : string) : string := q (escape s).
End JsonText.


(** ** The rest of the client, and relations between its states *)

(** Nothing is removed from one state to another: every namespace of the
    ConfigCache still has an entry, every regular file of the cache
    directory is still a regular file, every namespace with a recorded
    release key still has one, and the count of writes has not gone down.
    What an entry, a file or a record holds may have changed. *)
Definition grows (st st' : state) : Prop :=
  (forall namespace, is_Some (_cache st !! namespace) -> is_Some (_cache st' !! namespace)) /\
  (forall name, is_regular_file name (disk st) = true ->
                is_regular_file name (disk st') = true) /\
  (forall namespace, is_Some (_hash st !! namespace) -> is_Some (_hash st' !! namespace)) /\
  (disk_writes st <= disk_writes st')%nat.

(** Two states with the same disk, release keys and count of writes. *)
Definition same_storage (st st' : state) : Prop :=
  disk st' = disk st /\ _hash st' = _hash st /\ disk_writes st' = disk_writes st.


Section RestOfClient.
Variable json_loads : string -> option json.
Variable self : config.
Variable w : world.

(** Every namespace with a recorded release key has its cache file. *)
Definition keyed_files (st : state) : Prop :=
  forall namespace,
    is_Some (_hash st !! namespace) ->
    is_regular_file (cache_file_name self namespace) (disk st) = true.

(** The release request of a namespace is answered with status 200. *)
Definition answered (namespace : string) : Prop :=
  exists r, http_outcome self w (release_url self namespace) = Return r /\
            status_code r = 200.

Definition clusters_url : string :=
  host self +:+ ":" +:+ str_of_int (port self) +:+ "/apps/" +:+ app_id self
    +:+ "/clusters".

Definition _get_clusters : M json :=
  r <- _http_get self w clusters_url ;;
  if Z.eqb (status_code r) 200 then Response_json json_loads r
  else ret (JObj []).

(** The listing is answered with status 200 and a JSON array of objects
    that name these namespaces, each by a [str]. *)
Definition lists (names : list string) : Prop :=
  exists r items,
    http_outcome self w (namespaces_url self) = Return r /\
    status_code r = 200 /\
    json_loads (text r) = Some (JArr items) /\
    Forall2 (fun item n => exists members,
               item = JObj members /\
               PyDict.get "namespaceName" members = Some (JStr n)) items names.
End RestOfClient.

(** ** Construction: [__init__] and [_path_checker] *)

Module PyStrMore.
(** [s.split(c)] for a one-character separator: the pieces between the
    occurrences of [c], at least one. *)
Fixpoint split (c : ascii) (s : string) : list string :=
  match s with
  | EmptyString => [EmptyString]
  | String a s' =>
      if Ascii.eqb a c then EmptyString :: split c s'
      else
        match split c s' with
        | piece :: pieces => String a piece :: pieces
        | [] => [String a EmptyString]
        end
  end.

(** [s.count(c)] *)
Fixpoint count (c : ascii) (s : string) : nat :=
  match s with
  | EmptyString => O
  | String a s' => (if Ascii.eqb a c then 1 else 0) + count c s'
  end.
End PyStrMore.

(** What is found at [self._cache_file_path]. *)
Inductive path_state : Type :=
| NoParent                                    (* the directory above is missing *)
| Missing
| NotADirectory                               (* a regular file is in the way *)
| Dir (entries : list (string * entry)).

(** [_path_checker]: [os.path.isdir], then [os.mkdir] when it says no. It
    returns nothing; the result here is the content of the directory that is
    there afterwards. *)
Definition _path_checker (path : path_state) : result (list (string * entry)) :=
  match path with
  | Dir entries => Return entries
  | Missing => Return []
  | NotADirectory => Raise (PyError "FileExistsError")
  | NoParent => Raise (PyError "FileNotFoundError")
  end.

(** The arguments of [__init__], bound to its parameters. *)
Record init_args : Type := mkArgs {
  arg_app_id : string;
  arg_cluster : string;
  arg_config_server_url : string;
  arg_env : string;
  arg_timeout : Z;
  arg_sync_time : Z;
  arg_cache_file_path : option string;
  arg_authorization : option string
}.

(** [ApolloClient(app_id)] with every default. *)
Definition default_args (app : string) : init_args :=
  mkArgs app "default" "http://localhost:8090" "DEV" 30 60 None None.

Section Construction.
(** [int(s)] on a [str]: [None] when it raises [ValueError]. *)
Variable py_int : string -> option Z.
Variable json_loads : string -> option json.
Variable w : world.

(** [l[i]] on a list of strings *)
Definition index (l : list string) (i : nat) : result string :=
  match l !! i with
  | Some x => Return x
  | None => Raise (PyError "IndexError")
  end.

(** The attributes [__init__] computes from its arguments before it touches
    the disk or the network: the split of [config_server_url], [self.host]
    and [self.port]. The attributes no method reads afterwards ([_env],
    [stopped], the text of [_cache_file_path]) are left out. *)
Definition init_config (args : init_args) : result config :=
  let remote := PyStrMore.split ":" (arg_config_server_url args) in
  match index remote 0 with
  | Raise e => Raise e
  | Return remote0 =>
      match index remote 1 with
      | Raise e => Raise e
      | Return remote1 =>
          let host := remote0 +:+ ":" +:+ remote1 in
          let finish port :=
            Return (mkConfig (arg_config_server_url args) (arg_app_id args)
                             (arg_cluster args) host port (arg_timeout args)
                             (arg_authorization args) (arg_sync_time args)) in
          if Nat.eqb (length remote) 1 then finish 8090
          else
            match index remote 2 with
            | Raise e => Raise e
            | Return remote2 =>
                match py_int remote2 with
                | Some port => finish port
                | None => Raise (PyError "ValueError")
                end
            end
      end
  end.

(** [__init__]: the attributes, the empty ConfigCache, release keys and
    notification map, [_path_checker], and the first pass. The outcome is
    what the constructor returns or raises, with the client as far as it got
    when the attributes and the directory were in place. *)
Definition __init__ (args : init_args) (path : path_state)
  : result unit * option (config * state) :=
  match init_config args with
  | Raise e => (Raise e, None)
  | Return self =>
      match _path_checker path with
      | Raise e => (Raise e, None)
      | Return entries =>
          let '(r, st) := _read_from_server json_loads self w
                            (mkState ∅ ∅ [] entries 0) in
          (r, Some (self, st))
      end
  end.
End Construction.

(** A reader of decimal integers for the examples: [int] on ASCII text,
    with the blanks around, the sign and the single underscores between
    digits that Python accepts. *)
Module PyInt.
Definition is_space (c : ascii) : bool :=
  let n := nat_of_ascii c in
  ((9 <=? n) && (n <=? 13) || (28 <=? n) && (n <=? 32))%nat.

Fixpoint lstrip (s : string) : string :=
  match s with
  | String a s' => if is_space a then lstrip s' else s
  | EmptyString => EmptyString
  end.

Fixpoint rstrip (s : string) : string :=
  match s with
  | String a s' =>
      match rstrip s' with
      | EmptyString => if is_space a then EmptyString else String a EmptyString
      | rest => String a rest
      end
  | EmptyString => EmptyString
  end.

Fixpoint digits (s : string) (acc : Z) (after_digit : bool) : option Z :=
  match s with
  | EmptyString => if after_digit then Some acc else None
  | String c s' =>
      match JsonText.digit c with
      | Some d => digits s' (10 * acc + d)%Z true
      | None =>
          if Ascii.eqb c "_" && after_digit then digits s' acc false else None
      end
  end.

Definition parse (s : string) : option Z :=
  match rstrip (lstrip s) with
  | String c rest =>
      if Ascii.eqb c "-" then
        match digits rest 0 false with Some n => Some (- n)%Z | None => None end
      else if Ascii.eqb c "+" then digits rest 0 false
      else digits (String c rest) 0 false
  | EmptyString => None
  end.
End PyInt.

(** ** The registry of instances: [__new__] *)

(** The class attribute [_instance], absent before the first construction,
    and the objects allocated so far: [object.__new__] hands out the next
    one. *)
Record class_state : Type := mkClass {
  _instance : option (gmap string nat);
  allocated : nat
}.

Section Registry.
Context {A : Type}.
(** [repr((args, names))] of the tuple of positional arguments and a list of
    keyword names. *)
Variable repr : list A -> list string -> string.

(** [sorted(names)] *)
Definition sorted (names : list string) : list string :=
  merge_sort String.le names.

Definition __new__ (args : list A) (kwargs : list (string * A)) (cls : class_state)
  : nat * class_state :=
  let kwargs' :=
    omap (fun x => match PyDict.get x kwargs with
                   | Some v => Some (x, v)
                   | None => None
                   end) (sorted (PyDict.keys kwargs)) in
  let key := repr args (sorted (PyDict.keys kwargs')) in
  match _instance cls with
  | Some instances =>
      match instances !! key with
      | Some object => (object, cls)
      | None =>
          (allocated cls,
           mkClass (Some (<[key := allocated cls]> instances)) (S (allocated cls)))
      end
  | None =>
      (allocated cls, mkClass (Some {[key := allocated cls]}) (S (allocated cls)))
  end.

(** The registry names each object once, and only objects handed out. *)
Definition registry_ok (cls : class_state) : Prop :=
  forall instances, _instance cls = Some instances ->
    (forall k object, instances !! k = Some object -> (object < allocated cls)%nat) /\
    (forall k k' object, instances !! k = Some object ->
                         instances !! k' = Some object -> k = k').
End Registry.

(** ** Sample environments for the examples *)

Module Sample.
Import JsonText.

Definition cfg : config :=
  mkConfig "http://localhost:8090" "test" "default" "http://localhost" 8090 30 None 60.

(** What the probe of [_http_get] runs into: [Telnet] is given
    [self.host], which keeps the scheme of the URL ([http://localhost]), and
    the resolver knows no such host. *)
Definition unresolved : result unit := Raise (PyError "gaierror").

(** An environment that answers each URL as a table says, and a request for
    any other URL with a refused connection. *)
Definition serve (routes : list (string * result Response)) : world :=
  mkWorld
    (fun url _ _ => default (Raise (PyError "ConnectionError")) (PyDict.get url routes))
    (fun _ _ _ => unresolved)
    "1700000000.0".

(** The body of the namespace listing. *)
Definition listing (names : list string) : string :=
  "[" +:+ String.concat ","
            (map (fun n => "{" +:+ q "namespaceName" +:+ ":" +:+ q n +:+ ","
                            +:+ q "id" +:+ ":1}") names) +:+ "]".

(** The body of a release: a release key and a configurations string. *)
Definition release (release_key configurations : string) : string :=
  "{" +:+ q "releaseKey" +:+ ":" +:+ q release_key +:+ ","
      +:+ q "configurations" +:+ ":" +:+ lit configurations +:+ "}".

Definition timeout_is (seconds : string) : string :=
  "{" +:+ q "timeout" +:+ ": " +:+ q seconds +:+ "}".

Definition ok (body : string) : result Response := Return (mkResponse 200 body).
Definition server_error : result Response := Return (mkResponse 500 "Internal Server Error").

Definition empty : state := mkState ∅ ∅ [] [] 0.

(** A client that holds a snapshot of [application] and has no cache file. *)
Definition warm : state :=
  mkState {[ "application" := JObj [("timeout", JStr "60")] ]} ∅ [] [] 0.

Definition on_disk (files : list (string * entry)) (st : state) : state :=
  mkState (_cache st) (_hash st) (_notification_map st) files (disk_writes st).

(** Discovery answers, the release of [application] does not. *)
Definition release_down : world :=
  serve [(namespaces_url cfg, ok (listing ["application"]));
         (release_url cfg "application", server_error)].

(** Discovery is answered with an error status. *)
Definition discovery_down : world :=
  serve [(namespaces_url cfg, server_error)].

(** Every request runs into a read timeout. *)
Definition read_timeouts : world :=
  mkWorld (fun _ _ _ => Raise ReadTimeout) (fun _ _ _ => unresolved) "1700000000.0".

(** No request gets through. *)
Definition unreachable : world := serve [].

(** Two namespaces: the release of [application] fails, that of [db] is
    served. *)
Definition one_down_one_up : world :=
  serve [(namespaces_url cfg, ok (listing ["application"; "db"]));
         (release_url cfg "application", server_error);
         (release_url cfg "db", ok (release "r7" (timeout_is "15")))].

(** The release of [application] under key [r1], with a given content. *)
Definition serving (configurations : string) : world :=
  serve [(namespaces_url cfg, ok (listing ["application"]));
         (release_url cfg "application", ok (release "r1" configurations))].

(** A cache directory whose file for [application] does not decode, followed
    by a well-formed file for [db]. *)
Definition garbled_then_good : list (string * entry) :=
  [(cache_file_name cfg "application", File "oops");
   (cache_file_name cfg "db", File (timeout_is "15"))].

(** A cache directory whose only file, that of [application], does not
    decode. *)
Definition garbled : list (string * entry) :=
  [(cache_file_name cfg "application", File "oops")].

(** A configurations string on two lines. *)
Definition two_lines : string :=
  "{" +:+ nl +:+ q "timeout" +:+ ": " +:+ q "60" +:+ "}".

(** A cache directory with one record, an editor's swap file and a
    subdirectory. *)
Definition tidy : list (string * entry) :=
  [(cache_file_name cfg "application", File (timeout_is "60"));
   (".notes.txt.swp", File "scratch");
   ("archive", Directory)].
End Sample.

(** ** More sample environments *)

Module Sample2.
Import JsonText Sample.

(** The two namespaces of [one_down_one_up], as discovery returns them. *)
Definition two_namespaces : list (string * json) :=
  [("application", JNum 1); ("db", JNum 1)].

(** A listing that names [application] twice. *)
Definition listing_with_repeat : world :=
  serve [(namespaces_url cfg, ok (listing ["application"; "db"; "application"]))].

(** A release of [application] that holds a release key and nothing else. *)
Definition without_configurations : world :=
  serve [(release_url cfg "application",
          ok ("{" +:+ q "releaseKey" +:+ ":" +:+ q "r2" +:+ "}"))].


(** The clusters of the application are asked for and refused. *)
Definition clusters_down : world :=
  serve [(clusters_url cfg, server_error)].

(** A cache directory that holds the record of [application]. *)
Definition one_record : list (string * entry) :=
  [(cache_file_name cfg "application", File (timeout_is "60"))].

(** A rendering of the key of a construction, for the examples. *)
Definition show_key (args names : list string) : string :=
  "((" +:+ String.concat ", " args +:+ "), [" +:+ String.concat ", " names +:+ "])".

(** A URL without a port. *)
Definition args_without_port : init_args :=
  mkArgs "test" "default" "http://localhost" "DEV" 30 60 None None.
End Sample2.
(** * Properties *)

(** ** Decoded values *)

Lemma json_ind (P : json -> Prop) :
  P JNull ->
  (forall b, P (JBool b)) ->
  (forall n, P (JNum n)) ->
  (forall s, P (JStr s)) ->
  (forall items, Forall P items -> P (JArr items)) ->
  (forall members, Forall (fun kv => P (snd kv)) members -> P (JObj members)) ->
  forall j, P j.
Proof.
  intros HNull HBool HNum HStr HArr HObj.
  fix IH 1.
  intros [ | b | n | s | items | members].
  - exact HNull.
  - apply HBool.
  - apply HNum.
  - apply HStr.
  - apply HArr. induction items as [ | x items IHitems]; constructor.
    + apply IH.
    + exact IHitems.
  - apply HObj. induction members as [ | [k v] members IHmembers]; constructor.
    + apply IH.
    + exact IHmembers.
Qed.

(** The members of a dict are within the dict itself. *)
Lemma members_within_refl (eqv : json -> json -> bool) pre xs seen :
  (forall k, k ∈ PyDict.keys pre -> k ∈ seen) ->
  Forall (fun kv => eqv (snd kv) (snd kv) = true) xs ->
  members_within eqv (pre ++ xs)%list seen xs = true.
Proof.
  revert pre seen.
  induction xs as [ | [k x] xs IH]; intros pre seen Hseen Hall; [reflexivity | ].
  apply Forall_cons in Hall as [Hx Hall]. simpl in Hx. cbn [members_within].
  apply andb_true_iff. split.
  - destruct (decide (k ∈ seen)) as [Hin | Hnotin].
    + now rewrite bool_decide_eq_true_2.
    + rewrite bool_decide_eq_false_2 by exact Hnotin. simpl.
      assert (PyDict.get k (pre ++ (k, x) :: xs)%list = Some x) as ->; [ | exact Hx].
      clear - Hseen Hnotin. induction pre as [ | [k' v'] pre IHpre]; simpl.
      * now rewrite String.eqb_refl.
      * destruct (String.eqb_spec k k') as [-> | Hne].
        -- exfalso. apply Hnotin, Hseen. left.
        -- apply IHpre. intros k0 Hk0. apply Hseen. now right.
  - replace (pre ++ (k, x) :: xs)%list with ((pre ++ [(k, x)]) ++ xs)%list
      by now rewrite <- app_assoc.
    apply IH; [ | exact Hall].
    intros k0 Hk0. unfold PyDict.keys in Hk0. rewrite map_app in Hk0.
    apply elem_of_app in Hk0 as [Hk0 | Hk0].
    + right. now apply Hseen.
    + simpl in Hk0. apply list_elem_of_singleton in Hk0. subst. left.
Qed.

Lemma py_eq_refl (j : json) : py_eq j j = true.
Proof.
  induction j as [ | b | n | s | items IH | members IH] using json_ind; simpl.
  - reflexivity.
  - apply Z.eqb_refl.
  - apply Z.eqb_refl.
  - apply String.eqb_refl.
  - induction IH as [ | x items Hx _ IHitems]; [reflexivity | ].
    rewrite Hx. exact IHitems.
  - rewrite Nat.eqb_refl. simpl.
    apply (members_within_refl (fun x y => py_eq x y) [] members []); [ | exact IH].
    intros k Hk. now apply elem_of_nil in Hk.
Qed.

Lemma py_ne_refl (j : json) : py_ne j j = false.
Proof. unfold py_ne. now rewrite py_eq_refl. Qed.

(** ** Dictionaries *)

Section DictFacts.
Context {V : Type}.
Implicit Types (d : list (string * V)) (k : string) (v : V).

Lemma dict_get_set_eq d k v : PyDict.get k (PyDict.set k v d) = Some v.
Proof.
  induction d as [ | [k' v'] d IH]; simpl.
  - now rewrite String.eqb_refl.
  - destruct (String.eqb k k') eqn:E; simpl; rewrite E; [reflexivity | exact IH].
Qed.

Lemma dict_get_set_ne d k k' v :
  k <> k' -> PyDict.get k' (PyDict.set k v d) = PyDict.get k' d.
Proof.
  intros Hne. induction d as [ | [k0 v0] d IH]; simpl.
  - apply String.eqb_neq in Hne. rewrite String.eqb_sym in Hne. now rewrite Hne.
  - destruct (String.eqb k k0) eqn:E; simpl.
    + apply String.eqb_eq in E. subst k0.
      destruct (String.eqb k' k) eqn:E'; [ | reflexivity].
      apply String.eqb_eq in E'. congruence.
    + destruct (String.eqb k' k0); [reflexivity | exact IH].
Qed.

Lemma dict_get_elem_of d k v : PyDict.get k d = Some v -> k ∈ PyDict.keys d.
Proof.
  induction d as [ | [k0 v0] d IH]; simpl; [discriminate | ].
  destruct (String.eqb k k0) eqn:E.
  - apply String.eqb_eq in E. subst. intros _. left.
  - intros H. right. exact (IH H).
Qed.
End DictFacts.

(** ** Strings *)

Lemma string_app_nil (t : string) : EmptyString +:+ t = t.
Proof. reflexivity. Qed.

Lemma string_app_cons (a : ascii) (s t : string) :
  String a s +:+ t = String a (s +:+ t).
Proof. reflexivity. Qed.

(** [String.append] is kept folded by [simpl]; unfold it one step at a time. *)
Tactic Notation "ssimpl" :=
  rewrite ?string_app_cons, ?string_app_nil; simpl.
Tactic Notation "ssimpl" "in" hyp(H) :=
  rewrite ?string_app_cons, ?string_app_nil in H; simpl in H.

Lemma string_length_app (s t : string) :
  String.length (s +:+ t) = (String.length s + String.length t)%nat.
Proof. induction s as [ | a s IH]; ssimpl; [reflexivity | now rewrite IH]. Qed.

Lemma string_app_assoc (s t u : string) : (s +:+ t) +:+ u = s +:+ (t +:+ u).
Proof. induction s as [ | a s IH]; ssimpl; [reflexivity | now rewrite IH]. Qed.

Lemma string_app_inv_tail (s s' t : string) : s +:+ t = s' +:+ t -> s = s'.
Proof.
  revert s'. induction s as [ | a s IH]; intros [ | a' s'] H; ssimpl in H.
  - reflexivity.
  - apply (f_equal String.length) in H. ssimpl in H.
    rewrite string_length_app in H. lia.
  - apply (f_equal String.length) in H. ssimpl in H.
    rewrite string_length_app in H. lia.
  - injection H as -> H. f_equal. exact (IH _ H).
Qed.

Lemma string_app_inv_head (s t t' : string) : s +:+ t = s +:+ t' -> t = t'.
Proof. induction s as [ | a s IH]; ssimpl; intros H; [exact H | injection H; auto]. Qed.

Module PyStrFacts.
Import PyStr.

Lemma contains_app c s t : contains c (s +:+ t) = contains c s || contains c t.
Proof.
  induction s as [ | a s IH]; ssimpl; [reflexivity | ].
  rewrite IH. now rewrite orb_assoc.
Qed.

Lemma rpartition_None c s : contains c s = false -> rpartition c s = None.
Proof.
  induction s as [ | a s IH]; ssimpl; [reflexivity | ].
  intros H. apply orb_false_iff in H as [Ha Hs].
  now rewrite (IH Hs), Ha.
Qed.

(** Splitting at a separator that does not occur later. *)
Lemma rpartition_last c s t :
  contains c t = false -> rpartition c (s +:+ String c t) = Some (s, t).
Proof.
  intros Ht. induction s as [ | a s IH]; ssimpl.
  - now rewrite (rpartition_None _ _ Ht), Ascii.eqb_refl.
  - now rewrite IH.
Qed.





(** A text without line breaks reads back as written, in one line. *)
Lemma universal_newlines_id s :
  contains CR s = false -> universal_newlines s = s.
Proof.
  induction s as [ | a s IH]; ssimpl; [reflexivity | ].
  intros H. apply orb_false_iff in H as [Ha Hs].
  rewrite Ha. now rewrite (IH Hs).
Qed.

Lemma first_line_id s : contains LF s = false -> first_line s = s.
Proof.
  induction s as [ | a s IH]; ssimpl; [reflexivity | ].
  intros H. apply orb_false_iff in H as [Ha Hs].
  rewrite Ha. now rewrite (IH Hs).
Qed.
End PyStrFacts.

(** ** The monad *)

Lemma bind_Return {A B} (m : M A) (f : A -> M B) st a st' :
  m st = (Return a, st') -> bind m f st = f a st'.
Proof. intros H. unfold bind. now rewrite H. Qed.

Lemma bind_Raise {A B} (m : M A) (f : A -> M B) st e st' :
  m st = (Raise e, st') -> bind m f st = (Raise e, st').
Proof. intros H. unfold bind. now rewrite H. Qed.

Lemma for_each_app {A} (l1 l2 : list A) (body : A -> M unit) st :
  for_each (l1 ++ l2) body st =
  match for_each l1 body st with
  | (Return _, st') => for_each l2 body st'
  | (Raise e, st') => (Raise e, st')
  end.
Proof.
  revert st. induction l1 as [ | x l1 IH]; intros st; simpl; [reflexivity | ].
  unfold bind. destruct (body x st) as [[[] | e] st1]; [apply IH | reflexivity].
Qed.

(** Unfold the monad's operations and the attribute accessors. *)
Ltac munfold :=
  unfold bind, ret, raise, lift, try_except, cache_set, cache_lookup, hash_get,
    hash_set, notification_map_set, notification_map_keys, isfile, listdir,
    open_w, f_write, open_r, get_method, getitem in *.

(** ** [get_value] *)

(** C4, as the code has it. For every cache state whose entry for the
    namespace, when there is one, is a mapping, every key, default value and
    namespace,
    [get_value] returns without raising and leaves the state as it is: it
    returns the value stored for the key when the namespace and the key are
    both present, and the caller's default when the namespace is absent or
    the key is absent from the snapshot. *)
Theorem get_value_returns_stored_or_default
    (st : state) (key : string) (default_val : json) (namespace : string) :
  (forall v, _cache st !! namespace = Some v -> exists snapshot, v = JObj snapshot) ->
  get_value key default_val namespace st =
  (Return match _cache st !! namespace with
          | Some (JObj snapshot) =>
              match PyDict.get key snapshot with
              | Some v => v
              | None => default_val
              end
          | _ => default_val
          end, st).
Proof.
  intros Hsnapshot. unfold get_value. munfold.
  destruct (_cache st !! namespace) as [v | ] eqn:E; [ | reflexivity].
  destruct (Hsnapshot v eq_refl) as [snapshot ->].
  now destruct (PyDict.get key snapshot).
Qed.

(** ** [_update_local_cache] *)

Section UpdateLocalCache.
Variable self : config.

Lemma update_local_cache_same_key st release_key data namespace :
  py_eq (default JNull (_hash st !! namespace)) release_key = true ->
  _update_local_cache self release_key data namespace st = (Return tt, st).
Proof.
  intros Heq. unfold _update_local_cache, py_ne. munfold. now rewrite Heq.
Qed.

(** The state after a call that passes the gate and writes. *)
Lemma update_local_cache_new_key st release_key s namespace :
  py_ne (default JNull (_hash st !! namespace)) release_key = true ->
  writable (cache_file_name self namespace) (disk st) = true ->
  _update_local_cache self release_key (JStr s) namespace st =
  (Return tt,
   with_hash namespace release_key
     (disk_set (cache_file_name self namespace) s
        (count_write (disk_set (cache_file_name self namespace) EmptyString st)))).
Proof.
  intros Hne Hopen. unfold _update_local_cache. munfold. rewrite Hne.
  unfold writable in Hopen.
  destruct (open_error (cache_file_name self namespace) (disk st));
    [discriminate | reflexivity].
Qed.

(** A call that passes the gate and whose [open] is refused raises the
    exception of [open] and changes nothing. *)
Lemma update_local_cache_refused st release_key data namespace :
  py_ne (default JNull (_hash st !! namespace)) release_key = true ->
  writable (cache_file_name self namespace) (disk st) = false ->
  exists e, open_error (cache_file_name self namespace) (disk st) = Some e /\
            _update_local_cache self release_key data namespace st = (Raise e, st).
Proof.
  intros Hne Hopen. unfold _update_local_cache. munfold. rewrite Hne.
  unfold writable in Hopen.
  destruct (open_error (cache_file_name self namespace) (disk st)) as [e | ];
    [ | discriminate].
  now exists e.
Qed.

(** A name whose [open] is refused is no regular file of the directory. *)
Lemma not_writable_no_file name d : writable name d = false -> is_regular_file name d = false.
Proof.
  unfold writable, open_error, is_regular_file.
  now destruct (PyDict.get name d) as [[c | ] | ].
Qed.

(** C6, as the code has it. [_update_local_cache] is gated by the release
    key recorded in [self._hash] and idempotent: called with a release key
    equal to the one recorded for the namespace, which is the last one
    written since [__init__] last ran on the client, it changes nothing (no
    disk write); and after a call that
    returned, the same call again changes nothing, so that the two calls
    together open a file for writing exactly once when the key was new,
    and never when it was not. *)
Theorem update_local_cache_gated_idempotent
    (st : state) (release_key data : json) (namespace : string) :
  (py_eq (default JNull (_hash st !! namespace)) release_key = true ->
   _update_local_cache self release_key data namespace st = (Return tt, st)) /\
  (forall st1,
     _update_local_cache self release_key data namespace st = (Return tt, st1) ->
     _update_local_cache self release_key data namespace st1 = (Return tt, st1) /\
     disk_writes st1 =
       if py_ne (default JNull (_hash st !! namespace)) release_key
       then S (disk_writes st) else disk_writes st).
Proof.
  split; [apply update_local_cache_same_key | ].
  intros st1 Hfirst.
  destruct (py_ne (default JNull (_hash st !! namespace)) release_key) eqn:Hgate.
  - unfold _update_local_cache in Hfirst. munfold. rewrite Hgate in Hfirst.
    destruct (open_error (cache_file_name self namespace) (disk st));
      destruct data; try discriminate;
      injection Hfirst as <-; (split; [ | reflexivity]);
      apply update_local_cache_same_key; simpl;
      rewrite lookup_insert_eq; apply py_eq_refl.
  - unfold py_ne in Hgate. apply negb_false_iff in Hgate.
    rewrite update_local_cache_same_key in Hfirst by exact Hgate.
    injection Hfirst as <-. split; [ | reflexivity].
    now apply update_local_cache_same_key.
Qed.
End UpdateLocalCache.

(** ** Computations that keep a property of the state *)

Section Preserves.
Context (I : state -> Prop).

Lemma preserves_pure {A} (m : M A) : pure m -> preserves I m.
Proof. intros Hm st HI. now rewrite Hm. Qed.

Lemma preserves_bind {A B} (m : M A) (f : A -> M B) :
  preserves I m -> (forall a, preserves I (f a)) -> preserves I (bind m f).
Proof.
  intros Hm Hf st HI. unfold bind. specialize (Hm st HI).
  destruct (m st) as [[a | e] st1]; simpl in *; [now apply Hf | exact Hm].
Qed.

Lemma preserves_try_except {A} (body : M A) classes handler :
  preserves I body -> (forall e, preserves I (handler e)) ->
  preserves I (try_except body classes handler).
Proof.
  intros Hb Hh st HI. unfold try_except. specialize (Hb st HI).
  destruct (body st) as [[a | e] st1]; simpl in *; [exact Hb | ].
  destruct (classes e); [now apply Hh | exact Hb].
Qed.

Lemma preserves_for_each {A} (l : list A) (body : A -> M unit) :
  (forall x, x ∈ l -> preserves I (body x)) -> preserves I (for_each l body).
Proof.
  induction l as [ | x l IH]; intros Hbody; simpl.
  - now intros st HI.
  - apply preserves_bind.
    + apply Hbody. left.
    + intros _. apply IH. intros y Hy. apply Hbody. now right.
Qed.
End Preserves.

Lemma pure_ret {A} (a : A) : pure (ret a).
Proof. now intros st. Qed.

Lemma pure_raise {A} e : pure (@raise A e).
Proof. now intros st. Qed.

Lemma pure_lift {A} (r : result A) : pure (lift r).
Proof. now intros st. Qed.

Lemma pure_bind {A B} (m : M A) (f : A -> M B) :
  pure m -> (forall a, pure (f a)) -> pure (bind m f).
Proof.
  intros Hm Hf st. unfold bind. specialize (Hm st).
  destruct (m st) as [[a | e] st1]; simpl in *; subst; [apply Hf | reflexivity].
Qed.

Lemma pure_try_except {A} (body : M A) classes handler :
  pure body -> (forall e, pure (handler e)) -> pure (try_except body classes handler).
Proof.
  intros Hb Hh st. unfold try_except. specialize (Hb st).
  destruct (body st) as [[a | e] st1]; simpl in *; subst; [reflexivity | ].
  destruct (classes e); [apply Hh | reflexivity].
Qed.

Lemma pure_get_method j k d : pure (get_method j k d).
Proof. destruct j; now intros st. Qed.

Lemma pure_getitem j k : pure (getitem j k).
Proof. destruct j; try (now intros st). simpl. now destruct (PyDict.get k members). Qed.

Lemma pure_exn_str e : pure (exn_str e).
Proof. destruct e; now intros st. Qed.

Lemma pure_namespace_key j : pure (namespace_key j).
Proof. destruct j as [ | [ | ] | | | | ]; now intros st. Qed.

Lemma pure_iterate j : pure (iterate j).
Proof. destruct j; now intros st. Qed.

Lemma pure_isfile name : pure (isfile name).
Proof. now intros st. Qed.

Lemma pure_open_r name : pure (open_r name).
Proof. intros st. unfold open_r. now destruct (PyDict.get name (disk st)) as [[c | ] | ]. Qed.

Lemma pure_hash_get namespace : pure (hash_get namespace).
Proof. now intros st. Qed.

Lemma pure_cache_lookup namespace : pure (cache_lookup namespace).
Proof. now intros st. Qed.

Lemma pure_listdir : pure listdir.
Proof. now intros st. Qed.

Lemma pure_notification_map_keys : pure notification_map_keys.
Proof. now intros st. Qed.

Create HintDb pure_db discriminated.
#[local] Hint Resolve pure_ret pure_raise pure_lift pure_get_method pure_getitem
  pure_exn_str pure_namespace_key pure_iterate pure_isfile pure_open_r
  pure_hash_get pure_cache_lookup pure_listdir pure_notification_map_keys : pure_db.

(** A pure computation returns its result in the state it started from. *)
Lemma pure_run {A} (m : M A) st : pure m -> m st = (fst (m st), st).
Proof. intros Hm. specialize (Hm st). destruct (m st); simpl in *. now subst. Qed.

(** ** The client's methods *)

Section ClientFacts.
Variable json_loads : string -> option json.
Variable self : config.
Variable w : world.

Lemma pure_loads x : pure (loads json_loads x).
Proof.
  destruct x; try (now intros st). simpl. now destruct (json_loads s).
Qed.

Lemma http_get_outcome url st : _http_get self w url st = (http_outcome self w url, st).
Proof.
  unfold _http_get, http_outcome. munfold.
  destruct (requests_get w url (headers self) (timeout self / 2)) as [r | e];
    [reflexivity | ].
  destruct e; try reflexivity. simpl.
  destruct (Telnet w (host self) (port self) (timeout self / 2)) as [[] | e];
    [reflexivity | ].
  now destruct e.
Qed.

Lemma pure_http_get url : pure (_http_get self w url).
Proof. intros st. now rewrite http_get_outcome. Qed.

Lemma pure_namespaces_comprehension items acc :
  pure (namespaces_comprehension items acc).
Proof.
  revert acc. induction items as [ | item items IH]; intros acc; simpl.
  - apply pure_ret.
  - repeat (apply pure_bind; [auto with pure_db | intros ?]). apply IH.
Qed.

Lemma pure_get_namespaces : pure (_get_namespaces json_loads self w).
Proof.
  unfold _get_namespaces.
  apply pure_bind; [apply pure_http_get | intros r].
  destruct (status_code r =? 200)%Z; [ | apply pure_ret].
  apply pure_bind; [apply pure_loads | intros namespaces].
  apply pure_bind; [apply pure_iterate | intros items].
  apply pure_namespaces_comprehension.
Qed.

(** *** [_get_namespaces] *)

(** C3, as the code has it. For every non-success HTTP response
    [_get_namespaces] returns the sentinel holding exactly the default
    namespace [application]. A transport failure is not turned into the
    sentinel, it is raised to the caller: every exception of [requests.get]
    but a read timeout as it is, and after a read timeout what the probe of
    the host gives: [NameSpaceNotFoundException] when the probe connects,
    [ServerNotResponseException] when it is refused, and the probe's own
    exception otherwise. The state is not touched. *)
Theorem get_namespaces_sentinel_on_bad_status_only (st : state) :
  (forall r,
     requests_get w (namespaces_url self) (headers self) (timeout self / 2) = Return r ->
     status_code r <> 200 ->
     _get_namespaces json_loads self w st = (Return [("application", JNum (-1))], st)) /\
  (forall e,
     requests_get w (namespaces_url self) (headers self) (timeout self / 2) = Raise e ->
     is_ReadTimeout e = false ->
     _get_namespaces json_loads self w st = (Raise e, st)) /\
  (requests_get w (namespaces_url self) (headers self) (timeout self / 2)
   = Raise ReadTimeout ->
   _get_namespaces json_loads self w st =
   (Raise match Telnet w (host self) (port self) (timeout self / 2) with
          | Return _ => NameSpaceNotFoundException "namespace not found"
          | Raise e' =>
              if is_ConnectionRefusedError e'
              then ServerNotResponseException
                     ("server: " +:+ config_server_url self +:+ " not response")
              else e'
          end, st)).
Proof.
  unfold _get_namespaces, bind. rewrite http_get_outcome. unfold http_outcome.
  split; [ | split].
  - intros r Hr Hstatus. rewrite Hr.
    apply Z.eqb_neq in Hstatus. now rewrite Hstatus.
  - intros e He Hclass. rewrite He. now destruct e.
  - intros He. rewrite He.
    destruct (Telnet w (host self) (port self) (timeout self / 2)) as [[] | e'];
      [reflexivity | ].
    now destruct e'.
Qed.

(** *** [_get_local_cache_by_namespace] *)

Lemma get_local_cache_by_namespace_run namespace st :
  _get_local_cache_by_namespace json_loads self namespace st =
  (match local_snapshot json_loads self (disk st) namespace with
   | Some v => Return v
   | None => Raise (PyError "JSONDecodeError")
   end, st).
Proof.
  unfold _get_local_cache_by_namespace, local_snapshot.
  munfold. unfold is_regular_file.
  destruct (PyDict.get (cache_file_name self namespace) (disk st))
    as [[content | ] | ] eqn:E; simpl; rewrite ?E; try reflexivity.
  now destruct (json_loads (PyStr.first_line (PyStr.universal_newlines content))).
Qed.


(** *** [_get_config_by_namespace] *)

(** A failed release request: the entry of the namespace becomes what the
    local cache read returns, and the call raises when that read does. *)
Lemma get_config_by_namespace_failed namespace st :
  fetch_failed self w namespace ->
  _get_config_by_namespace json_loads self w namespace st =
  match local_snapshot json_loads self (disk st) namespace with
  | Some v => (Return tt, with_cache namespace v st)
  | None => (Raise (PyError "JSONDecodeError"), st)
  end.
Proof.
  unfold fetch_failed, _get_config_by_namespace, try_except, bind.
  rewrite http_get_outcome.
  destruct (http_outcome self w (release_url self namespace)) as [r | e].
  - intros Hstatus. apply Z.eqb_neq in Hstatus. rewrite Hstatus.
    rewrite get_local_cache_by_namespace_run.
    destruct (local_snapshot json_loads self (disk st) namespace) as [v | ] eqn:E;
      [reflexivity | ].
    simpl. now rewrite get_local_cache_by_namespace_run, E.
  - intros Hclass. simpl.
    assert (exists text, exn_str e st = (Return text, st)) as [text ->]
      by (destruct e; try discriminate; eexists; reflexivity).
    rewrite get_local_cache_by_namespace_run.
    now destruct (local_snapshot json_loads self (disk st) namespace).
Qed.

(** A served release: the entry of the namespace becomes the decoded
    configurations, and the configurations string is written through when
    the release key is new. When [open] refuses the cache file, the handler
    stores what the local cache read returns instead: the empty snapshot,
    since the name is no regular file then. *)
Lemma get_config_by_namespace_served namespace release_key s snapshot st :
  fetch_succeeds json_loads self w namespace release_key s snapshot ->
  _get_config_by_namespace json_loads self w namespace st =
  (Return tt,
   if py_ne (default JNull (_hash st !! namespace)) release_key
   then if writable (cache_file_name self namespace) (disk st)
        then with_hash namespace release_key
               (disk_set (cache_file_name self namespace) s
                  (count_write
                     (disk_set (cache_file_name self namespace) EmptyString
                        (with_cache namespace snapshot st))))
        else with_cache namespace (JObj []) st
   else with_cache namespace snapshot st).
Proof.
  intros (r & members & Hout & Hstatus & Hbody & Hconf & Hkey & Hsnap).
  unfold _get_config_by_namespace, try_except.
  unfold bind at 1. rewrite http_get_outcome, Hout, Hstatus. simpl.
  unfold bind at 1. unfold Response_json, loads. rewrite Hbody. simpl.
  unfold bind at 1. simpl. rewrite Hconf. simpl.
  unfold bind at 1. rewrite Hsnap. simpl.
  unfold bind at 1. simpl.
  unfold bind at 1. simpl. rewrite Hkey. simpl.
  unfold bind at 1. simpl.
  unfold bind at 1. simpl.
  destruct (py_ne (default JNull (_hash st !! namespace)) release_key) eqn:Hgate.
  - destruct (writable (cache_file_name self namespace) (disk st)) eqn:Hopen.
    + rewrite update_local_cache_new_key by assumption. reflexivity.
    + destruct (update_local_cache_refused self (with_cache namespace snapshot st)
                  release_key (JStr s) namespace Hgate Hopen) as (e & He & ->).
      assert (exists text, exn_str e (with_cache namespace snapshot st)
                           = (Return text, with_cache namespace snapshot st))
        as [text Htext].
      { unfold open_error, create_refused in He. simpl in He.
        repeat match type of He with
               | match ?x with _ => _ end = _ => destruct x
               | (if ?x then _ else _) = _ => destruct x
               end; try discriminate; injection He as <-; eexists; reflexivity. }
      unfold bind at 1. rewrite Htext.
      unfold bind. rewrite get_local_cache_by_namespace_run.
      unfold local_snapshot. simpl.
      apply not_writable_no_file in Hopen. unfold is_regular_file in Hopen.
      destruct (PyDict.get (cache_file_name self namespace) (disk st)) as [[c | ] | ];
        try discriminate; unfold cache_set, with_cache; simpl;
        now rewrite insert_insert_eq.
  - rewrite update_local_cache_same_key; [reflexivity | ].
    unfold py_ne in Hgate. now apply negb_false_iff in Hgate.
Qed.

Lemma get_config_by_namespace_succeeds namespace release_key s snapshot st :
  fetch_succeeds json_loads self w namespace release_key s snapshot ->
  writable (cache_file_name self namespace) (disk st) = true ->
  _get_config_by_namespace json_loads self w namespace st =
  (Return tt,
   if py_ne (default JNull (_hash st !! namespace)) release_key
   then with_hash namespace release_key
          (disk_set (cache_file_name self namespace) s
             (count_write
                (disk_set (cache_file_name self namespace) EmptyString
                   (with_cache namespace snapshot st))))
   else with_cache namespace snapshot st).
Proof.
  intros Hok Hopen. rewrite (get_config_by_namespace_served _ _ _ _ _ Hok).
  now rewrite Hopen.
Qed.

(** What a call for one namespace can change: its own cache entry, its own
    release key, its own cache file and the write counter. *)
Lemma preserves_get_config_by_namespace (I : state -> Prop) namespace :
  (forall v st, I st -> I (with_cache namespace v st)) ->
  (forall v st, I st -> I (with_hash namespace v st)) ->
  (forall c st, I st -> I (disk_set (cache_file_name self namespace) c st)) ->
  (forall st, I st -> I (count_write st)) ->
  preserves I (_get_config_by_namespace json_loads self w namespace).
Proof.
  intros Hcache Hhash Hdisk Hcount.
  assert (forall v, preserves I (cache_set namespace v)) as Hset
    by (intros v st HI; now apply Hcache).
  assert (preserves I (_get_local_cache_by_namespace json_loads self namespace)) as Hlocal.
  { apply preserves_pure. intros st. now rewrite get_local_cache_by_namespace_run. }
  assert (forall k d, preserves I (_update_local_cache self k d namespace)) as Hupdate.
  { intros k d. unfold _update_local_cache.
    apply preserves_bind; [apply preserves_pure, pure_hash_get | intros last_key].
    destruct (py_ne last_key k); [ | apply preserves_pure, pure_ret].
    apply preserves_bind; [ | intros _; apply preserves_bind; [ | intros _]].
    - intros st HI. unfold open_w.
      destruct (open_error (cache_file_name self namespace) (disk st));
        simpl; auto.
    - intros st HI. unfold f_write. destruct d; simpl; auto.
    - intros st HI. now apply Hhash. }
  unfold _get_config_by_namespace. apply preserves_try_except.
  - apply preserves_bind; [apply preserves_pure, pure_http_get | intros r].
    destruct (status_code r =? 200)%Z.
    + apply preserves_bind; [apply preserves_pure, pure_loads | intros data].
      apply preserves_bind; [apply preserves_pure, pure_get_method | intros c].
      apply preserves_bind; [apply preserves_pure, pure_loads | intros snapshot].
      apply preserves_bind; [apply Hset | intros _].
      apply preserves_bind; [apply preserves_pure, pure_getitem | intros _].
      apply preserves_bind; [apply preserves_pure, pure_get_method | intros k].
      apply preserves_bind; [apply preserves_pure, pure_get_method | intros raw].
      apply Hupdate.
    + apply preserves_bind; [exact Hlocal | intros data]. apply Hset.
  - intros e.
    apply preserves_bind; [apply preserves_pure, pure_exn_str | intros _].
    apply preserves_bind; [exact Hlocal | intros data]. apply Hset.
Qed.

(** The cache files of two namespaces are different files. *)
Lemma cache_file_name_inj namespace namespace' :
  cache_file_name self namespace = cache_file_name self namespace' ->
  namespace = namespace'.
Proof.
  unfold cache_file_name. intros H.
  apply string_app_inv_head in H. apply string_app_inv_head in H.
  now apply string_app_inv_tail in H.
Qed.

(** A call for another namespace leaves the cache entry and the cache file
    of a namespace alone. *)
Lemma get_config_by_namespace_other namespace other st :
  other <> namespace ->
  let st' := snd (_get_config_by_namespace json_loads self w other st) in
  _cache st' !! namespace = _cache st !! namespace /\
  PyDict.get (cache_file_name self namespace) (disk st') =
  PyDict.get (cache_file_name self namespace) (disk st).
Proof.
  intros Hne.
  apply (preserves_get_config_by_namespace
           (fun st' => _cache st' !! namespace = _cache st !! namespace /\
                       PyDict.get (cache_file_name self namespace) (disk st') =
                       PyDict.get (cache_file_name self namespace) (disk st))).
  - intros v st1 [Hc Hd]. split; [ | exact Hd]. simpl. now rewrite lookup_insert_ne.
  - now intros v st1.
  - intros c st1 [Hc Hd]. split; [exact Hc | ]. simpl.
    rewrite dict_get_set_ne; [exact Hd | ].
    intros Heq. now apply cache_file_name_inj in Heq.
  - now intros st1.
  - now split.
Qed.

(** *** [_read_from_local_cache_file] *)

Lemma replace_cache_same st : replace_cache (_cache st) st = st.
Proof. now destruct st. Qed.

Lemma replace_cache_twice c c' st :
  replace_cache c (replace_cache c' st) = replace_cache c st.
Proof. reflexivity. Qed.

(** One round of the scan: an entry that is no record is skipped, a record
    is decoded and stored under its namespace key. *)
Lemma load_cache_file_run file_name st :
  load_cache_file json_loads file_name st =
  match record_of (disk st) file_name with
  | None => (Return tt, st)
  | Some (namespace, content) =>
      match json_loads content with
      | Some v => (Return tt, with_cache namespace v st)
      | None => (Raise (PyError "JSONDecodeError"), st)
      end
  end.
Proof.
  unfold load_cache_file, record_of. munfold. unfold is_regular_file.
  destruct (PyDict.get file_name (disk st)) as [[content | ] | ] eqn:E;
    try reflexivity.
  destruct (PyStr.splitext file_name) as [stem ext]. simpl.
  destruct (String.eqb ext ".swp"); [reflexivity | ].
  rewrite E. simpl.
  now destruct (json_loads (PyStr.universal_newlines content)).
Qed.

Lemma load_records_cons r rs cache v :
  json_loads (snd r) = Some v ->
  load_records json_loads (r :: rs) cache =
  load_records json_loads rs (<[fst r := v]> cache).
Proof. intros H. unfold load_records. simpl. now rewrite H. Qed.

Lemma scan_decodable names st :
  Forall (decodable json_loads) (omap (record_of (disk st)) names) ->
  for_each names (load_cache_file json_loads) st =
  (Return tt,
   replace_cache
     (load_records json_loads (omap (record_of (disk st)) names) (_cache st)) st).
Proof.
  revert st. induction names as [ | n names IH]; intros st Hall; simpl.
  - now rewrite replace_cache_same.
  - unfold bind. rewrite load_cache_file_run. simpl in Hall.
    destruct (record_of (disk st) n) as [[k content] | ]; [ | now apply IH].
    apply Forall_cons in Hall as [[v Hv] Hall]. simpl in Hv. rewrite Hv.
    rewrite (load_records_cons (k, content) _ _ v Hv).
    now rewrite IH by exact Hall.
Qed.

Lemma scan_malformed names st good k bad rest :
  omap (record_of (disk st)) names = (good ++ (k, bad) :: rest)%list ->
  Forall (decodable json_loads) good ->
  json_loads bad = None ->
  for_each names (load_cache_file json_loads) st =
  (Raise (PyError "JSONDecodeError"),
   replace_cache (load_records json_loads good (_cache st)) st).
Proof.
  revert st good. induction names as [ | n names IH]; intros st good Hrs Hgood Hbad;
    simpl in *.
  - now destruct good.
  - unfold bind. rewrite load_cache_file_run.
    destruct (record_of (disk st) n) as [[k' content] | ]; [ | now apply IH].
    destruct good as [ | g good]; simpl in Hrs.
    + injection Hrs as -> -> Htail. rewrite Hbad.
      unfold load_records. simpl. now rewrite replace_cache_same.
    + injection Hrs as <- Htail.
      apply Forall_cons in Hgood as [[v Hv] Hgood]. simpl in Hv. rewrite Hv.
      rewrite (load_records_cons (k', content) _ _ v Hv).
      now rewrite (IH (with_cache k' v st) good Htail Hgood Hbad).
Qed.

(** C7, as the code has it. The cold-start scan skips the entries that are
    not regular files and the files with the extension [.swp], and nothing
    else: when every other file of the cache directory decodes, the scan
    returns [True] having loaded each of them, in listing order, under its
    namespace key; at the first file that does not decode it raises the
    decoder's error, having loaded only the records listed before it. *)
Theorem cold_start_scan_stops_at_malformed_record (st : state) :
  (Forall (decodable json_loads) (records (disk st)) ->
   _read_from_local_cache_file json_loads st =
   (Return true,
    replace_cache (load_records json_loads (records (disk st)) (_cache st)) st)) /\
  (forall good k bad rest,
     records (disk st) = (good ++ (k, bad) :: rest)%list ->
     Forall (decodable json_loads) good ->
     json_loads bad = None ->
     _read_from_local_cache_file json_loads st =
     (Raise (PyError "JSONDecodeError"),
      replace_cache (load_records json_loads good (_cache st)) st)).
Proof.
  unfold _read_from_local_cache_file, records. split.
  - intros Hall. unfold bind at 1. unfold listdir.
    unfold bind. now rewrite scan_decodable.
  - intros good k bad rest Hrs Hgood Hbad. unfold bind at 1. unfold listdir.
    unfold bind. now rewrite (scan_malformed _ _ good k bad rest).
Qed.

(** The entry of a namespace key after a scan that returned, when a single
    file of the listing is loaded under that key. *)
Lemma scan_single_record names st st' target k content :
  for_each names (load_cache_file json_loads) st = (Return tt, st') ->
  record_of (disk st) target = Some (k, content) ->
  (forall n r, n ∈ names -> n <> target -> record_of (disk st) n = Some r -> fst r <> k) ->
  disk st' = disk st /\
  (target ∈ names -> is_Some (json_loads content)) /\
  _cache st' !! k =
    if bool_decide (target ∈ names) then json_loads content else _cache st !! k.
Proof.
  revert st. induction names as [ | n names IH]; intros st Hrun Htarget Hothers;
    simpl in Hrun.
  - injection Hrun as <-. split; [reflexivity | ]. split; [ | reflexivity].
    intros Hin. now apply elem_of_nil in Hin.
  - unfold bind in Hrun. rewrite load_cache_file_run in Hrun.
    assert (forall n' r, n' ∈ names -> n' <> target ->
                         record_of (disk st) n' = Some r -> fst r <> k) as Hrest
      by (intros n' r Hin; apply Hothers; now right).
    destruct (decide (n = target)) as [-> | Hn].
    + rewrite Htarget in Hrun.
      destruct (json_loads content) as [v | ] eqn:Hv; [ | discriminate].
      destruct (IH (with_cache k v st) Hrun Htarget Hrest) as (Hdisk & _ & Hcache).
      split; [exact Hdisk | ]. split; [now eexists | ].
      rewrite Hcache. simpl. rewrite lookup_insert_eq.
      rewrite (bool_decide_eq_true_2 (target ∈ target :: names)) by left.
      now destruct (bool_decide (target ∈ names)).
    + assert (target ∈ n :: names <-> target ∈ names) as Hmem.
      { rewrite elem_of_cons.
        split; [intros [Heq | Hin]; [congruence | exact Hin] | intros Hin; now right]. }
      rewrite (bool_decide_ext _ _ Hmem), Hmem.
      destruct (record_of (disk st) n) as [[k' content'] | ] eqn:Hrec.
      * destruct (json_loads content') as [v | ]; [ | discriminate].
        destruct (IH (with_cache k' v st) Hrun Htarget Hrest) as (Hdisk & Hsome & Hcache).
        split; [exact Hdisk | ]. split; [exact Hsome | ]. rewrite Hcache. simpl.
        assert (k' <> k) as Hk by (apply (Hothers n (k', content')); [left | | ]; auto).
        now rewrite lookup_insert_ne.
      * now apply IH.
Qed.






(** *** [_read_from_server] *)




(** C5, as the code has it. Within the loop of a pass, a release request
    for [A] that fails by a response other than 200 or by an exception other
    than the timeout classifications is isolated when the local-cache read
    of [A] finds no file or a decodable one: the call returns, changes
    nothing but the entry of [A], and lets the loop go on, so that a
    namespace [B] served later in the same pass, whose cache file can be
    written, has its entry set to the decoded configurations, and the loop
    continues after [B]. When the cache file of [A] does not decode, the
    decoder's error leaves [_get_config_by_namespace] and ends the loop at
    [A]: no later namespace is fetched. *)
Theorem failed_fetch_does_not_stop_later_fetch
    (before between after : list string) (A B : string) (st st1 : state) :
  fetch_all json_loads self w before st = (Return tt, st1) ->
  fetch_failed self w A ->
  (forall local st3 release_key configurations snapshot,
     local_snapshot json_loads self (disk st1) A = Some local ->
     fetch_all json_loads self w between (with_cache A local st1) = (Return tt, st3) ->
     fetch_succeeds json_loads self w B release_key configurations snapshot ->
     writable (cache_file_name self B) (disk st3) = true ->
     _get_config_by_namespace json_loads self w A st1
     = (Return tt, with_cache A local st1) /\
     exists st4,
       fetch_all json_loads self w (before ++ A :: between ++ [B]) st = (Return tt, st4) /\
       _cache st4 !! B = Some snapshot /\
       fetch_all json_loads self w (before ++ A :: between ++ B :: after) st =
       fetch_all json_loads self w after st4) /\
  (local_snapshot json_loads self (disk st1) A = None ->
   _get_config_by_namespace json_loads self w A st1
   = (Raise (PyError "JSONDecodeError"), st1) /\
   fetch_all json_loads self w (before ++ A :: between ++ B :: after) st
   = (Raise (PyError "JSONDecodeError"), st1)).
Proof.
  intros Hbefore Hfail. split.
  - intros local st3 release_key configurations snapshot Hlocal Hbetween Hok Hopen.
    assert (_get_config_by_namespace json_loads self w A st1
            = (Return tt, with_cache A local st1)) as HA
      by (rewrite get_config_by_namespace_failed by exact Hfail; now rewrite Hlocal).
    split; [exact HA | ].
    pose proof (get_config_by_namespace_succeeds B _ _ _ st3 Hok Hopen) as HB.
    eexists. split; [ | split].
    + unfold fetch_all in *. rewrite for_each_app, Hbefore. simpl.
      unfold bind at 1. rewrite HA.
      rewrite for_each_app, Hbetween. simpl. unfold bind. now rewrite HB.
    + now destruct (py_ne (default JNull (_hash st3 !! B)) release_key);
        simpl; rewrite lookup_insert_eq.
    + unfold fetch_all in *. rewrite for_each_app, Hbefore. simpl.
      unfold bind at 1. rewrite HA.
      rewrite for_each_app, Hbetween. simpl. unfold bind at 1. now rewrite HB.
  - intros Hlocal.
    assert (_get_config_by_namespace json_loads self w A st1
            = (Raise (PyError "JSONDecodeError"), st1)) as HA
      by (rewrite get_config_by_namespace_failed by exact Hfail; now rewrite Hlocal).
    split; [exact HA | ].
    unfold fetch_all in *. rewrite for_each_app, Hbefore. simpl.
    unfold bind at 1. now rewrite HA.
Qed.

(** C9, as the code has it. For every namespace and every served release
    whose configurations string [s] is a single line: when the release key
    is new and the cache file can be written, or the release key is the
    recorded one and the file holds [s] as it was written under that key,
    then after [_get_config_by_namespace] the local cache read returns the
    decoding of [s], which is the snapshot the same call stored in the
    ConfigCache. *)
Theorem write_through_then_read_round_trip
    (st : state) (namespace : string) (release_key : json) (s : string)
    (snapshot : json) :
  fetch_succeeds json_loads self w namespace release_key s snapshot ->
  (if py_ne (default JNull (_hash st !! namespace)) release_key
   then writable (cache_file_name self namespace) (disk st) = true
   else PyDict.get (cache_file_name self namespace) (disk st) = Some (File s)) ->
  PyStr.contains PyStr.LF s = false ->
  PyStr.contains PyStr.CR s = false ->
  exists st',
    _get_config_by_namespace json_loads self w namespace st = (Return tt, st') /\
    _cache st' !! namespace = Some snapshot /\
    _get_local_cache_by_namespace json_loads self namespace st' = (Return snapshot, st').
Proof.
  intros Hok Hfile Hlf Hcr.
  rewrite (get_config_by_namespace_served _ _ _ _ _ Hok).
  assert (json_loads s = Some snapshot) as Hsnap
    by (destruct Hok as (r & members & _ & _ & _ & _ & _ & Hs); exact Hs).
  destruct (py_ne (default JNull (_hash st !! namespace)) release_key).
  - rewrite Hfile. eexists. split; [reflexivity | ]. split.
    + simpl. apply lookup_insert_eq.
    + rewrite get_local_cache_by_namespace_run. unfold local_snapshot. simpl.
      rewrite dict_get_set_eq.
      rewrite PyStrFacts.universal_newlines_id, PyStrFacts.first_line_id by assumption.
      now rewrite Hsnap.
  - eexists. split; [reflexivity | ]. split.
    + simpl. apply lookup_insert_eq.
    + rewrite get_local_cache_by_namespace_run. unfold local_snapshot. simpl.
      rewrite Hfile.
      rewrite PyStrFacts.universal_newlines_id, PyStrFacts.first_line_id by assumption.
      now rewrite Hsnap.
Qed.

(** An exception of [exceptions.py] raised by the discovery leaves the
    pass: [except Exception] does not catch it. *)
Lemma read_from_server_lets_basic_exception_through e st :
  http_outcome self w (namespaces_url self) = Raise e ->
  is_BasicException e = true ->
  _read_from_server json_loads self w st = (Raise e, st).
Proof.
  intros Hout Hclass.
  unfold _read_from_server, try_except, _get_namespaces, bind.
  rewrite http_get_outcome, Hout. unfold is_Exception. now rewrite Hclass.
Qed.
(** C2, as the code has it. For every failure of the namespace discovery
    that raises an exception of class [Exception], the pass falls back to
    the cold-start scan and ends as the scan ends: it returns when the scan
    returns, and raises the decoder's error when the scan meets a record
    that does not decode. A read timeout of the discovery request is such a
    failure whenever the probe of the host raises an exception of its own
    other than [ConnectionRefusedError], as it does when it cannot resolve
    a host that keeps the scheme of the URL. A pass that raises ends the
    polling loop in that round. *)
Theorem pass_ends_as_the_cold_start_scan_ends (st : state) :
  (forall e,
     _get_namespaces json_loads self w st = (Raise e, st) ->
     is_BasicException e = false ->
     _read_from_server json_loads self w st =
     (match fst (_read_from_local_cache_file json_loads st) with
      | Return _ => Return tt
      | Raise e' => Raise e'
      end, snd (_read_from_local_cache_file json_loads st))) /\
  (forall e',
     requests_get w (namespaces_url self) (headers self) (timeout self / 2)
     = Raise ReadTimeout ->
     Telnet w (host self) (port self) (timeout self / 2) = Raise e' ->
     is_ConnectionRefusedError e' = false ->
     _get_namespaces json_loads self w st = (Raise e', st)) /\
  (forall e' st' rest,
     _read_from_server json_loads self w st = (Raise e', st') ->
     _long_polling json_loads self (w :: rest) st = (Raise e', st')).
Proof.
  split; [ | split].
  - intros e Hdiscovery Hclass.
    unfold _read_from_server, try_except, bind.
    rewrite Hdiscovery. unfold is_Exception. rewrite Hclass. simpl.
    assert (exists text, exn_str e st = (Return text, st)) as [text ->]
      by (destruct e; try discriminate; eexists; reflexivity).
    now destruct (_read_from_local_cache_file json_loads st) as [[b | e'] st'].
  - intros e' Hget Hprobe Hclass.
    unfold _get_namespaces, bind. rewrite http_get_outcome. unfold http_outcome.
    rewrite Hget, Hprobe. now destruct e'.
  - intros e' st' rest Hpass. simpl. unfold bind at 1. now rewrite Hpass.
Qed.
End ClientFacts.

(** * The claims on concrete runs *)

Import Sample Sample2.

Example decode_flat_object :
  JsonText.decode (timeout_is "60") = Some (JObj [("timeout", JStr "60")]).
Proof. vm_compute. reflexivity. Qed.

Example namespace_of_file_name :
  record_of tidy (cache_file_name cfg "application")
  = Some ("application", timeout_is "60")
  /\ record_of tidy ".notes.txt.swp" = None
  /\ record_of tidy "archive" = None.
Proof. vm_compute. repeat split; reflexivity. Qed.

(** ** C4 *)

(** C4 fails as stated: the release of [application] carries configurations
    that decode to a list, the client stores the list, and [get_value]
    raises [AttributeError] instead of returning the default. *)
Lemma get_value_raises_on_a_list_entry :
  let st' := snd (_get_config_by_namespace JsonText.decode cfg (serving "[1, 2]")
                    "application" empty) in
  fst (_get_config_by_namespace JsonText.decode cfg (serving "[1, 2]")
         "application" empty) = Return tt
  /\ _cache st' !! "application" = Some (JArr [JNum 1; JNum 2])
  /\ get_value "timeout" (JStr "30") "application" st'
     = (Raise (PyError "AttributeError"), st')
  /\ fst (get_value "timeout" (JStr "30") "application" st') <> Return (JStr "30").
Proof. vm_compute. repeat split; try reflexivity. discriminate. Qed.

Lemma get_value_returns_stored_or_default_witness :
  (forall v, _cache warm !! "application" = Some v -> exists snapshot, v = JObj snapshot)
  /\ get_value "timeout" (JStr "30") "application" warm = (Return (JStr "60"), warm)
  /\ get_value "retries" (JStr "3") "application" warm = (Return (JStr "3"), warm)
  /\ get_value "timeout" (JStr "30") "db" warm = (Return (JStr "30"), warm).
Proof.
  assert (forall namespace v,
            _cache warm !! namespace = Some v -> exists snapshot, v = JObj snapshot)
    as Hsnapshots.
  { intros namespace v. unfold warm. simpl.
    destruct (decide (namespace = "application")) as [-> | Hne].
    - rewrite lookup_singleton_eq. intros [= <-]. now eexists.
    - rewrite lookup_singleton_ne by congruence. discriminate. }
  split; [apply Hsnapshots | ]. split; [ | split].
  - exact (get_value_returns_stored_or_default warm "timeout" (JStr "30")
             "application" (Hsnapshots _)).
  - exact (get_value_returns_stored_or_default warm "retries" (JStr "3")
             "application" (Hsnapshots _)).
  - exact (get_value_returns_stored_or_default warm "timeout" (JStr "30")
             "db" (Hsnapshots _)).
Defined.

(** ** C6 *)

(** C6 fails as stated: [ApolloClient("test")] called a second time gets
    the registered object and runs [__init__] on it again, which empties
    [self._hash]; the first pass of the second construction writes the
    release [r1] again, the last release key written for the namespace in
    this process. *)
Lemma second_construction_writes_the_release_again :
  let first_object := __new__ show_key ["test"] [] (mkClass None 0) in
  let second_object := __new__ show_key ["test"] [] (snd first_object) in
  let first := __init__ PyInt.parse JsonText.decode (serving (timeout_is "60"))
                 (default_args "test") (Dir []) in
  exists st1 st2,
    fst second_object = fst first_object
    /\ first = (Return tt, Some (cfg, st1))
    /\ _hash st1 !! "application" = Some (JStr "r1")
    /\ disk st1 = [(cache_file_name cfg "application", File (timeout_is "60"))]
    /\ disk_writes st1 = 1%nat
    /\ __init__ PyInt.parse JsonText.decode (serving (timeout_is "60"))
         (default_args "test") (Dir (disk st1)) = (Return tt, Some (cfg, st2))
    /\ disk_writes st2 = 1%nat
    /\ disk_writes st2 <> 0%nat.
Proof.
  intros first_object second_object first.
  exists (snd (_read_from_server JsonText.decode cfg (serving (timeout_is "60"))
                 (mkState ∅ ∅ [] [] 0))).
  eexists.
  split; [vm_compute; reflexivity | ].
  split; [vm_compute; reflexivity | ].
  split; [vm_compute; reflexivity | ].
  split; [vm_compute; reflexivity | ].
  split; [vm_compute; reflexivity | ].
  split; [vm_compute; reflexivity | ].
  split; [vm_compute; reflexivity | discriminate].
Qed.

Lemma update_local_cache_gated_idempotent_witness :
  let first := _update_local_cache cfg (JStr "r1") (JStr (timeout_is "60"))
                 "application" empty in
  fst first = Return tt
  /\ _update_local_cache cfg (JStr "r1") (JStr (timeout_is "60")) "application"
       (snd first) = (Return tt, snd first)
  /\ disk_writes (snd first) = 1%nat
  /\ disk (snd first) = [(cache_file_name cfg "application", File (timeout_is "60"))].
Proof.
  set (first := _update_local_cache cfg (JStr "r1") (JStr (timeout_is "60"))
                  "application" empty).
  assert (first = (Return tt, snd first)) as Hfirst by (vm_compute; reflexivity).
  destruct (update_local_cache_gated_idempotent cfg empty (JStr "r1")
              (JStr (timeout_is "60")) "application") as [_ Htwice].
  destruct (Htwice (snd first) Hfirst) as [Hsecond Hwrites].
  simpl. split; [vm_compute; reflexivity | ].
  split; [exact Hsecond | ]. split; [exact Hwrites | ].
  vm_compute. reflexivity.
Defined.

(** ** C2 *)

(** C2 fails as stated: no request gets through and the cache directory
    holds a file that does not decode; the pass falls back to the
    cold-start scan, the scan raises the decoder's error, the pass raises it
    to its caller and the polling loop ends in its first round. *)
Lemma pass_raises_on_garbled_cache_file :
  let st := on_disk garbled_then_good warm in
  _get_namespaces JsonText.decode cfg unreachable st
  = (Raise (PyError "ConnectionError"), st)
  /\ fst (_read_from_server JsonText.decode cfg unreachable st)
     = Raise (PyError "JSONDecodeError")
  /\ fst (_read_from_server JsonText.decode cfg unreachable st) <> Return tt
  /\ fst (_long_polling JsonText.decode cfg [unreachable; unreachable; unreachable] st)
     = Raise (PyError "JSONDecodeError").
Proof. vm_compute. repeat split; try reflexivity. discriminate. Qed.

Lemma pass_ends_as_the_cold_start_scan_ends_witness :
  let st := on_disk tidy warm in
  let scanned := snd (_read_from_local_cache_file JsonText.decode st) in
  requests_get read_timeouts (namespaces_url cfg) (headers cfg) (timeout cfg / 2)
  = Raise ReadTimeout
  /\ Telnet read_timeouts (host cfg) (port cfg) (timeout cfg / 2)
     = Raise (PyError "gaierror")
  /\ _get_namespaces JsonText.decode cfg read_timeouts st
     = (Raise (PyError "gaierror"), st)
  /\ _read_from_server JsonText.decode cfg read_timeouts st = (Return tt, scanned)
  /\ _cache scanned !! "application" = Some (JObj [("timeout", JStr "60")])
  /\ _read_from_server JsonText.decode cfg read_timeouts (on_disk garbled warm)
     = (Raise (PyError "JSONDecodeError"), on_disk garbled warm)
  /\ _long_polling JsonText.decode cfg [read_timeouts; read_timeouts]
       (on_disk garbled warm)
     = (Raise (PyError "JSONDecodeError"), on_disk garbled warm).
Proof.
  intros st scanned.
  assert (_get_namespaces JsonText.decode cfg read_timeouts st
          = (Raise (PyError "gaierror"), st)) as Hdiscovery
    by exact (proj1 (proj2 (pass_ends_as_the_cold_start_scan_ends JsonText.decode cfg
                              read_timeouts st))
                (PyError "gaierror") eq_refl eq_refl eq_refl).
  assert (_read_from_server JsonText.decode cfg read_timeouts (on_disk garbled warm)
          = (Raise (PyError "JSONDecodeError"), on_disk garbled warm)) as Hgarbled.
  { rewrite (proj1 (pass_ends_as_the_cold_start_scan_ends JsonText.decode cfg
                      read_timeouts (on_disk garbled warm))
               (PyError "gaierror") eq_refl eq_refl).
    vm_compute. reflexivity. }
  do 2 (split; [reflexivity | ]). split; [exact Hdiscovery | ].
  split.
  - rewrite (proj1 (pass_ends_as_the_cold_start_scan_ends JsonText.decode cfg
                      read_timeouts st) (PyError "gaierror") Hdiscovery eq_refl).
    vm_compute. reflexivity.
  - split; [vm_compute; reflexivity | ]. split; [exact Hgarbled | ].
    exact (proj2 (proj2 (pass_ends_as_the_cold_start_scan_ends JsonText.decode cfg
                           read_timeouts (on_disk garbled warm)))
             _ _ [read_timeouts] Hgarbled).
Defined.

(** ** C3 *)

(** C3 fails as stated: a refused connection is a transport failure, and
    [_get_namespaces] raises it instead of returning the sentinel. *)
Lemma get_namespaces_raises_on_transport_failure :
  requests_get unreachable (namespaces_url cfg) (headers cfg) (timeout cfg / 2)
  = Raise (PyError "ConnectionError")
  /\ _get_namespaces JsonText.decode cfg unreachable empty
     = (Raise (PyError "ConnectionError"), empty)
  /\ fst (_get_namespaces JsonText.decode cfg unreachable empty)
     <> Return [("application", JNum (-1))].
Proof. split; [reflexivity | ]. split; [reflexivity | discriminate]. Qed.

Lemma get_namespaces_sentinel_on_bad_status_only_witness :
  (requests_get discovery_down (namespaces_url cfg) (headers cfg) (timeout cfg / 2)
   = Return (mkResponse 500 "Internal Server Error")
   /\ status_code (mkResponse 500 "Internal Server Error") <> 200
   /\ _get_namespaces JsonText.decode cfg discovery_down empty
      = (Return [("application", JNum (-1))], empty))
  /\ (requests_get unreachable (namespaces_url cfg) (headers cfg) (timeout cfg / 2)
      = Raise (PyError "ConnectionError")
      /\ _get_namespaces JsonText.decode cfg unreachable empty
         = (Raise (PyError "ConnectionError"), empty))
  /\ (requests_get read_timeouts (namespaces_url cfg) (headers cfg) (timeout cfg / 2)
      = Raise ReadTimeout
      /\ _get_namespaces JsonText.decode cfg read_timeouts empty
         = (Raise (PyError "gaierror"), empty)).
Proof.
  split; [ | split].
  - split; [reflexivity | ]. split; [discriminate | ].
    apply (proj1 (get_namespaces_sentinel_on_bad_status_only JsonText.decode cfg
                    discovery_down empty)
             (mkResponse 500 "Internal Server Error")).
    + reflexivity.
    + discriminate.
  - split; [reflexivity | ].
    exact (proj1 (proj2 (get_namespaces_sentinel_on_bad_status_only JsonText.decode cfg
                           unreachable empty))
             (PyError "ConnectionError") eq_refl eq_refl).
  - split; [reflexivity | ].
    exact (proj2 (proj2 (get_namespaces_sentinel_on_bad_status_only JsonText.decode cfg
                           read_timeouts empty)) eq_refl).
Defined.

(** ** C8 *)



(** ** C7 *)

(** C7 fails as stated: with a file that does not decode listed first, the
    scan raises and the well-formed record after it is not loaded. *)
Lemma cold_start_scan_raises_on_garbled_file :
  records garbled_then_good = [("application", "oops"); ("db", timeout_is "15")]
  /\ JsonText.decode (timeout_is "15") = Some (JObj [("timeout", JStr "15")])
  /\ fst (_read_from_local_cache_file JsonText.decode (on_disk garbled_then_good empty))
     = Raise (PyError "JSONDecodeError")
  /\ fst (_read_from_local_cache_file JsonText.decode (on_disk garbled_then_good empty))
     <> Return true
  /\ _cache (snd (_read_from_local_cache_file JsonText.decode
                    (on_disk garbled_then_good empty))) !! "db" = None.
Proof. vm_compute. repeat split; try reflexivity. discriminate. Qed.

Lemma cold_start_scan_stops_at_malformed_record_witness :
  (Forall (decodable JsonText.decode) (records (disk (on_disk tidy empty)))
   /\ fst (_read_from_local_cache_file JsonText.decode (on_disk tidy empty)) = Return true
   /\ _cache (snd (_read_from_local_cache_file JsonText.decode (on_disk tidy empty)))
        !! "application" = Some (JObj [("timeout", JStr "60")]))
  /\ (records (disk (on_disk garbled_then_good empty))
      = ([] ++ ("application", "oops") :: [("db", timeout_is "15")])%list
      /\ _read_from_local_cache_file JsonText.decode (on_disk garbled_then_good empty)
         = (Raise (PyError "JSONDecodeError"), on_disk garbled_then_good empty)).
Proof.
  assert (Forall (decodable JsonText.decode) (records (disk (on_disk tidy empty))))
    as Hall.
  { change (records (disk (on_disk tidy empty)))
      with [("application", timeout_is "60")].
    constructor; [ | constructor]. eexists. vm_compute. reflexivity. }
  split.
  - split; [exact Hall | ].
    rewrite (proj1 (cold_start_scan_stops_at_malformed_record JsonText.decode
                      (on_disk tidy empty)) Hall).
    split; reflexivity.
  - split; [reflexivity | ].
    apply (proj2 (cold_start_scan_stops_at_malformed_record JsonText.decode
                    (on_disk garbled_then_good empty))
             [] "application" "oops" [("db", timeout_is "15")]).
    + reflexivity.
    + constructor.
    + reflexivity.
Defined.

(** ** C1 *)



(** ** C5 *)

(** C5 fails as stated: the release request of [application] fails and its
    cache file does not decode; the error leaves the loop, the release of
    [db], which the server would serve, is never requested, and the entry
    of [db] is not set. *)
Lemma failed_fetch_with_garbled_record_stops_the_loop :
  PyDict.keys [("application", JNum 1); ("db", JNum 1)] = ["application"; "db"]
  /\ fst (_get_namespaces JsonText.decode cfg one_down_one_up (on_disk garbled empty))
     = Return [("application", JNum 1); ("db", JNum 1)]
  /\ fetch_failed cfg one_down_one_up "application"
  /\ fetch_succeeds JsonText.decode cfg one_down_one_up "db" (JStr "r7")
       (timeout_is "15") (JObj [("timeout", JStr "15")])
  /\ fst (_read_from_server JsonText.decode cfg one_down_one_up (on_disk garbled empty))
     = Raise (PyError "JSONDecodeError")
  /\ _cache (snd (_read_from_server JsonText.decode cfg one_down_one_up
                    (on_disk garbled empty))) !! "db" = None
  /\ _cache (snd (_read_from_server JsonText.decode cfg one_down_one_up
                    (on_disk garbled empty))) !! "db"
     <> Some (JObj [("timeout", JStr "15")])
  /\ disk (snd (_read_from_server JsonText.decode cfg one_down_one_up
                  (on_disk garbled empty))) = garbled.
Proof.
  split; [reflexivity | ]. split; [vm_compute; reflexivity | ].
  split; [vm_compute; discriminate | ].
  split.
  - exists (mkResponse 200 (release "r7" (timeout_is "15"))),
      [("releaseKey", JStr "r7"); ("configurations", JStr (timeout_is "15"))].
    vm_compute. repeat split; reflexivity.
  - vm_compute. repeat split; try reflexivity. discriminate.
Qed.

Lemma failed_fetch_does_not_stop_later_fetch_witness :
  let st1 := with_cache "application" (JObj []) empty in
  fetch_all JsonText.decode cfg one_down_one_up [] empty = (Return tt, empty)
  /\ fetch_failed cfg one_down_one_up "application"
  /\ local_snapshot JsonText.decode cfg (disk empty) "application" = Some (JObj [])
  /\ fetch_all JsonText.decode cfg one_down_one_up [] st1 = (Return tt, st1)
  /\ fetch_succeeds JsonText.decode cfg one_down_one_up "db" (JStr "r7")
       (timeout_is "15") (JObj [("timeout", JStr "15")])
  /\ writable (cache_file_name cfg "db") (disk st1) = true
  /\ (exists st4,
        fetch_all JsonText.decode cfg one_down_one_up
          ([] ++ "application" :: [] ++ ["db"]) empty = (Return tt, st4)
        /\ _cache st4 !! "db" = Some (JObj [("timeout", JStr "15")]))
  /\ local_snapshot JsonText.decode cfg (disk (on_disk garbled empty)) "application"
     = None
  /\ fetch_all JsonText.decode cfg one_down_one_up
       ([] ++ "application" :: [] ++ "db" :: []) (on_disk garbled empty)
     = (Raise (PyError "JSONDecodeError"), on_disk garbled empty).
Proof.
  intros st1.
  assert (fetch_failed cfg one_down_one_up "application") as Hfail
    by (vm_compute; discriminate).
  assert (fetch_succeeds JsonText.decode cfg one_down_one_up "db" (JStr "r7")
            (timeout_is "15") (JObj [("timeout", JStr "15")])) as Hok.
  { exists (mkResponse 200 (release "r7" (timeout_is "15"))),
      [("releaseKey", JStr "r7"); ("configurations", JStr (timeout_is "15"))].
    vm_compute. repeat split; reflexivity. }
  assert (writable (cache_file_name cfg "db") (disk st1) = true) as Hopen
    by reflexivity.
  split; [reflexivity | ]. split; [exact Hfail | ]. split; [reflexivity | ].
  split; [reflexivity | ]. split; [exact Hok | ]. split; [exact Hopen | ].
  split.
  - destruct (proj1 (failed_fetch_does_not_stop_later_fetch JsonText.decode cfg
                       one_down_one_up [] [] [] "application" "db" empty empty
                       eq_refl Hfail)
                (JObj []) st1 (JStr "r7") (timeout_is "15")
                (JObj [("timeout", JStr "15")]) eq_refl eq_refl Hok Hopen)
      as (_ & st4 & Hloop & Hcache & _).
    exists st4. split; [exact Hloop | exact Hcache].
  - split; [vm_compute; reflexivity | ].
    exact (proj2 (proj2 (failed_fetch_does_not_stop_later_fetch JsonText.decode cfg
                           one_down_one_up [] [] [] "application" "db"
                           (on_disk garbled empty) (on_disk garbled empty)
                           eq_refl Hfail) eq_refl)).
Defined.

(** ** C9 *)

(** C9 fails as stated: the read takes the first line of the file only.
    Configurations on two lines are stored in the ConfigCache and written
    through, and the local cache read raises the decoder's error instead of
    returning the snapshot. *)
Lemma two_line_configurations_do_not_read_back :
  let st1 := snd (_get_config_by_namespace JsonText.decode cfg
                    (serving two_lines) "application" empty) in
  fetch_succeeds JsonText.decode cfg (serving two_lines) "application"
    (JStr "r1") two_lines (JObj [("timeout", JStr "60")])
  /\ fst (_get_config_by_namespace JsonText.decode cfg
            (serving two_lines) "application" empty) = Return tt
  /\ _cache st1 !! "application" = Some (JObj [("timeout", JStr "60")])
  /\ disk st1 = [(cache_file_name cfg "application", File two_lines)]
  /\ fst (_get_local_cache_by_namespace JsonText.decode cfg "application" st1)
     = Raise (PyError "JSONDecodeError")
  /\ fst (_get_local_cache_by_namespace JsonText.decode cfg "application" st1)
     <> Return (JObj [("timeout", JStr "60")]).
Proof.
  intros st1. split.
  - exists (mkResponse 200 (release "r1" two_lines)),
      [("releaseKey", JStr "r1"); ("configurations", JStr two_lines)].
    vm_compute. repeat split; reflexivity.
  - vm_compute. repeat split; try reflexivity. discriminate.
Qed.

(** The write is gated on the release key: a release whose key is [null]
    never passes the gate of a namespace without a recorded key, since
    [None != None] is false, and is not written. *)
Example null_release_key_is_never_written :
  let null_key :=
    serve [(release_url cfg "application",
            ok ("{" +:+ JsonText.q "releaseKey" +:+ ":null,"
                    +:+ JsonText.q "configurations" +:+ ":"
                    +:+ JsonText.lit (timeout_is "60") +:+ "}"))] in
  let st1 := snd (_get_config_by_namespace JsonText.decode cfg null_key
                    "application" empty) in
  _cache st1 !! "application" = Some (JObj [("timeout", JStr "60")])
  /\ disk st1 = []
  /\ _hash st1 = ∅.
Proof. vm_compute. repeat split; reflexivity. Qed.

Lemma write_through_then_read_round_trip_witness :
  let st1 := snd (_get_config_by_namespace JsonText.decode cfg
                    (serving (timeout_is "60")) "application" empty) in
  fetch_succeeds JsonText.decode cfg (serving (timeout_is "60")) "application"
    (JStr "r1") (timeout_is "60") (JObj [("timeout", JStr "60")])
  /\ py_ne (default JNull (_hash empty !! "application")) (JStr "r1") = true
  /\ writable (cache_file_name cfg "application") (disk empty) = true
  /\ PyStr.contains PyStr.LF (timeout_is "60") = false
  /\ PyStr.contains PyStr.CR (timeout_is "60") = false
  /\ (exists st',
        _get_config_by_namespace JsonText.decode cfg (serving (timeout_is "60"))
          "application" empty = (Return tt, st')
        /\ _cache st' !! "application" = Some (JObj [("timeout", JStr "60")])
        /\ _get_local_cache_by_namespace JsonText.decode cfg "application" st'
           = (Return (JObj [("timeout", JStr "60")]), st'))
  /\ py_ne (default JNull (_hash st1 !! "application")) (JStr "r1") = false
  /\ PyDict.get (cache_file_name cfg "application") (disk st1)
     = Some (File (timeout_is "60"))
  /\ (exists st',
        _get_config_by_namespace JsonText.decode cfg (serving (timeout_is "60"))
          "application" st1 = (Return tt, st')
        /\ _get_local_cache_by_namespace JsonText.decode cfg "application" st'
           = (Return (JObj [("timeout", JStr "60")]), st')).
Proof.
  intros st1.
  assert (fetch_succeeds JsonText.decode cfg (serving (timeout_is "60")) "application"
            (JStr "r1") (timeout_is "60") (JObj [("timeout", JStr "60")])) as Hok.
  { exists (mkResponse 200 (release "r1" (timeout_is "60"))),
      [("releaseKey", JStr "r1"); ("configurations", JStr (timeout_is "60"))].
    vm_compute. repeat split; reflexivity. }
  assert (PyDict.get (cache_file_name cfg "application") (disk st1)
          = Some (File (timeout_is "60"))) as Hfile by (vm_compute; reflexivity).
  split; [exact Hok | ]. do 4 (split; [reflexivity | ]).
  split.
  - exact (write_through_then_read_round_trip JsonText.decode cfg
             (serving (timeout_is "60")) empty "application" (JStr "r1")
             (timeout_is "60") (JObj [("timeout", JStr "60")])
             Hok eq_refl eq_refl eq_refl).
  - split; [vm_compute; reflexivity | ]. split; [exact Hfile | ].
    destruct (write_through_then_read_round_trip JsonText.decode cfg
                (serving (timeout_is "60")) st1 "application" (JStr "r1")
                (timeout_is "60") (JObj [("timeout", JStr "60")])
                Hok Hfile eq_refl eq_refl) as (st' & Hcall & _ & Hread).
    exists st'. split; [exact Hcall | exact Hread].
Defined.

(** ** C10 *)



(** A namespace with an underscore comes back under its last token. *)
Example underscore_namespace_restored_under_last_token :
  let st1 := snd (_update_local_cache cfg (JStr "r1") (JStr (timeout_is "60"))
                    "db_main" empty) in
  let st2 := snd (_read_from_local_cache_file JsonText.decode st1) in
  disk st1 = [("test_configuration_db_main.txt", File (timeout_is "60"))]
  /\ _cache st2 !! "main" = Some (JObj [("timeout", JStr "60")])
  /\ _cache st2 !! "db_main" = None.
Proof. vm_compute. repeat split; reflexivity. Qed.

(** * What the passes keep, and the rest of the client *)

Section PassFacts.
Variable json_loads : string -> option json.
Variable self : config.
Variable w : world.

(** ** How a property of the state goes through the methods *)

Lemma preserves_update_local_cache (I : state -> Prop) release_key data namespace :
  (forall v st, I st -> I (with_hash namespace v st)) ->
  (forall c st, I st -> I (disk_set (cache_file_name self namespace) c st)) ->
  (forall st, I st -> I (count_write st)) ->
  preserves I (_update_local_cache self release_key data namespace).
Proof.
  intros Hhash Hdisk Hcount. unfold _update_local_cache.
  apply preserves_bind; [apply preserves_pure, pure_hash_get | intros last_key].
  destruct (py_ne last_key release_key); [ | apply preserves_pure, pure_ret].
  apply preserves_bind; [ | intros _; apply preserves_bind; [ | intros _]].
  - intros st HI. unfold open_w.
    destruct (open_error (cache_file_name self namespace) (disk st)); simpl; auto.
  - intros st HI. unfold f_write. destruct data; simpl; auto.
  - intros st HI. now apply Hhash.
Qed.

Lemma preserves_get_config_by_namespace_gen (I : state -> Prop) namespace :
  (forall v st, I st -> I (with_cache namespace v st)) ->
  (forall k d, preserves I (_update_local_cache self k d namespace)) ->
  preserves I (_get_config_by_namespace json_loads self w namespace).
Proof.
  intros Hcache Hupdate.
  assert (forall v, preserves I (cache_set namespace v)) as Hset
    by (intros v st HI; now apply Hcache).
  assert (preserves I (_get_local_cache_by_namespace json_loads self namespace)) as Hlocal.
  { apply preserves_pure. intros st. now rewrite get_local_cache_by_namespace_run. }
  unfold _get_config_by_namespace. apply preserves_try_except.
  - apply preserves_bind; [apply preserves_pure, pure_http_get | intros r].
    destruct (status_code r =? 200)%Z.
    + apply preserves_bind; [apply preserves_pure, pure_loads | intros data].
      apply preserves_bind; [apply preserves_pure, pure_get_method | intros c].
      apply preserves_bind; [apply preserves_pure, pure_loads | intros snapshot].
      apply preserves_bind; [apply Hset | intros _].
      apply preserves_bind; [apply preserves_pure, pure_getitem | intros _].
      apply preserves_bind; [apply preserves_pure, pure_get_method | intros k].
      apply preserves_bind; [apply preserves_pure, pure_get_method | intros raw].
      apply Hupdate.
    + apply preserves_bind; [exact Hlocal | intros data]. apply Hset.
  - intros e.
    apply preserves_bind; [apply preserves_pure, pure_exn_str | intros _].
    apply preserves_bind; [exact Hlocal | intros data]. apply Hset.
Qed.

Lemma preserves_load_cache_file (I : state -> Prop) file_name :
  (forall namespace v st, I st -> I (with_cache namespace v st)) ->
  preserves I (load_cache_file json_loads file_name).
Proof.
  intros Hcache st HI. rewrite load_cache_file_run.
  destruct (record_of (disk st) file_name) as [[k content] | ]; [ | exact HI].
  destruct (json_loads content); simpl; auto.
Qed.

Lemma preserves_read_from_local_cache_file (I : state -> Prop) :
  (forall namespace v st, I st -> I (with_cache namespace v st)) ->
  preserves I (_read_from_local_cache_file json_loads).
Proof.
  intros Hcache. unfold _read_from_local_cache_file.
  apply preserves_bind; [apply preserves_pure, pure_listdir | intros names].
  apply preserves_bind; [ | intros _; apply preserves_pure, pure_ret].
  apply preserves_for_each. intros n _. now apply preserves_load_cache_file.
Qed.

Lemma preserves_fetch_all (I : state -> Prop) namespaces :
  (forall namespace v st, I st -> I (with_cache namespace v st)) ->
  (forall namespace k d, preserves I (_update_local_cache self k d namespace)) ->
  preserves I (fetch_all json_loads self w namespaces).
Proof.
  intros Hcache Hupdate. unfold fetch_all. apply preserves_for_each.
  intros namespace _. apply preserves_get_config_by_namespace_gen; auto.
Qed.

Lemma preserves_read_from_server (I : state -> Prop) :
  (forall namespace v st, I st -> I (with_cache namespace v st)) ->
  (forall namespace k d, preserves I (_update_local_cache self k d namespace)) ->
  (forall d st, I st -> I (with_notification_map d st)) ->
  preserves I (_read_from_server json_loads self w).
Proof.
  intros Hcache Hupdate Hmap. unfold _read_from_server.
  apply preserves_try_except.
  - apply preserves_bind; [apply preserves_pure, pure_get_namespaces | intros nss].
    apply preserves_bind; [intros st HI; now apply Hmap | intros _].
    apply preserves_bind; [apply preserves_pure, pure_notification_map_keys | intros keys].
    now apply preserves_fetch_all.
  - intros e.
    apply preserves_bind; [apply preserves_pure, pure_exn_str | intros _].
    apply preserves_bind; [ | intros _; apply preserves_pure, pure_ret].
    now apply preserves_read_from_local_cache_file.
Qed.

(** ** Nothing is removed *)

Lemma grows_refl st : grows st st.
Proof. unfold grows. auto. Qed.

Lemma is_regular_file_disk_set name name' c d :
  is_regular_file name d = true ->
  is_regular_file name (PyDict.set name' (File c) d) = true.
Proof.
  unfold is_regular_file. intros H.
  destruct (decide (name' = name)) as [-> | Hne].
  - now rewrite dict_get_set_eq.
  - now rewrite dict_get_set_ne.
Qed.

Lemma grows_with_cache st0 namespace v st :
  grows st0 st -> grows st0 (with_cache namespace v st).
Proof.
  intros (Hc & Hd & Hh & Hw). split; [ | now split].
  intros ns Hns. simpl. rewrite lookup_insert_is_Some.
  destruct (decide (namespace = ns)); [now left | right; split; auto].
Qed.

Lemma grows_update_local_cache st0 namespace k d :
  preserves (grows st0) (_update_local_cache self k d namespace).
Proof.
  apply preserves_update_local_cache.
  - intros v st (Hc & Hd & Hh & Hw). split; [exact Hc | ]. split; [exact Hd | ].
    split; [ | exact Hw]. intros ns Hns. simpl. rewrite lookup_insert_is_Some.
    destruct (decide (namespace = ns)); [now left | right; split; auto].
  - intros c st (Hc & Hd & Hh & Hw). split; [exact Hc | ]. split; [ | now split].
    intros name Hname. simpl. apply is_regular_file_disk_set. auto.
  - intros st (Hc & Hd & Hh & Hw). repeat split; auto. simpl. lia.
Qed.

Lemma grows_read_from_server st0 :
  preserves (grows st0) (_read_from_server json_loads self w).
Proof.
  apply preserves_read_from_server.
  - intros namespace v st1. apply grows_with_cache.
  - intros namespace k d. apply grows_update_local_cache.
  - now intros d st1.
Qed.

(** ** Release keys and cache files *)

Lemma keyed_files_update_local_cache namespace k d :
  preserves (keyed_files self) (_update_local_cache self k d namespace).
Proof.
  intros st HI. unfold _update_local_cache. munfold.
  destruct (py_ne (default JNull (_hash st !! namespace)) k); [ | exact HI].
  assert (keyed_files self (count_write (disk_set (cache_file_name self namespace)
                                           EmptyString st))) as Hopened.
  { intros ns Hns. simpl. apply is_regular_file_disk_set. now apply HI. }
  destruct (open_error (cache_file_name self namespace) (disk st));
    simpl; try exact HI; destruct d; simpl; try exact Hopened.
  all: intros ns Hns; simpl in *; rewrite lookup_insert_is_Some in Hns;
    destruct (decide (namespace = ns)) as [<- | Hne];
    [unfold is_regular_file; now rewrite dict_get_set_eq | ];
    apply is_regular_file_disk_set, is_regular_file_disk_set;
    destruct Hns as [Heq | [_ Hns]]; [congruence | now apply HI].
Qed.

Lemma keyed_files_read_from_server :
  preserves (keyed_files self) (_read_from_server json_loads self w).
Proof.
  apply preserves_read_from_server.
  - now intros namespace v st1.
  - intros namespace k d. apply keyed_files_update_local_cache.
  - now intros d st1.
Qed.

(** ** Passes that write nothing *)

Lemma same_storage_refl st : same_storage st st.
Proof. now unfold same_storage. Qed.

(** A call for a namespace whose release request is not answered with
    status 200 changes nothing but the ConfigCache. *)
Lemma preserves_get_config_by_namespace_unanswered (I : state -> Prop) namespace :
  ~ answered self w namespace ->
  (forall v st, I st -> I (with_cache namespace v st)) ->
  preserves I (_get_config_by_namespace json_loads self w namespace).
Proof.
  intros Hun Hcache.
  assert (forall v, preserves I (cache_set namespace v)) as Hset
    by (intros v st HI; now apply Hcache).
  assert (preserves I (_get_local_cache_by_namespace json_loads self namespace)) as Hlocal.
  { apply preserves_pure. intros st. now rewrite get_local_cache_by_namespace_run. }
  unfold _get_config_by_namespace. apply preserves_try_except.
  - intros st HI. unfold bind at 1. rewrite http_get_outcome.
    destruct (http_outcome self w (release_url self namespace)) as [r | e] eqn:Hout;
      [ | exact HI].
    destruct (status_code r =? 200)%Z eqn:Hstatus.
    + exfalso. apply Hun. exists r. split; [exact Hout | now apply Z.eqb_eq].
    + revert st HI. apply preserves_bind; [exact Hlocal | intros data]. apply Hset.
  - intros e.
    apply preserves_bind; [apply preserves_pure, pure_exn_str | intros _].
    apply preserves_bind; [exact Hlocal | intros data]. apply Hset.
Qed.

Lemma same_storage_read_from_server st :
  (forall namespace, ~ answered self w namespace) ->
  preserves (same_storage st) (_read_from_server json_loads self w).
Proof.
  intros Hun. unfold _read_from_server. apply preserves_try_except.
  - apply preserves_bind; [apply preserves_pure, pure_get_namespaces | intros nss].
    apply preserves_bind; [now intros st1 | intros _].
    apply preserves_bind; [apply preserves_pure, pure_notification_map_keys | intros keys].
    unfold fetch_all. apply preserves_for_each. intros namespace _.
    apply preserves_get_config_by_namespace_unanswered; [apply Hun | now intros v st1].
  - intros e.
    apply preserves_bind; [apply preserves_pure, pure_exn_str | intros _].
    apply preserves_bind; [ | intros _; apply preserves_pure, pure_ret].
    apply preserves_read_from_local_cache_file. now intros namespace v st1.
Qed.

(** ** The fall-back of a pass *)

(** X5. When discovery raises an exception of class [Exception] (a refused
    connection, a body that is no JSON, a listing of the wrong shape) and
    every record of the cache directory decodes, the pass returns, having
    loaded every record into the ConfigCache in listing order; the disk, the
    release keys and the map of discovered namespaces stay as they were. *)
Theorem discovery_failure_loads_all_records (st : state) (e : exn) :
  _get_namespaces json_loads self w st = (Raise e, st) ->
  is_BasicException e = false ->
  Forall (decodable json_loads) (records (disk st)) ->
  _read_from_server json_loads self w st =
  (Return tt,
   replace_cache (load_records json_loads (records (disk st)) (_cache st)) st).
Proof.
  intros Hdiscovery Hclass Hall.
  unfold _read_from_server, try_except. unfold bind at 1. rewrite Hdiscovery.
  unfold is_Exception. rewrite Hclass. simpl.
  assert (exists text, exn_str e st = (Return text, st)) as [text Htext]
    by (destruct e; try discriminate; eexists; reflexivity).
  unfold bind at 1. rewrite Htext.
  unfold bind at 1. unfold _read_from_local_cache_file, listdir.
  unfold bind at 1. unfold bind at 1. unfold records in *.
  now rewrite scan_decodable.
Qed.

(** ** What a call and a pass leave in the ConfigCache *)










(** Whether a file can be created does not depend on the other entries. *)
Lemma create_refused_any name d d' :
  create_refused name d = None -> create_refused name d' = None.
Proof.
  unfold create_refused.
  destruct (PyStr.contains PyStr.NUL name); [discriminate | ].
  destruct (PyStr.partition "/" name) as [[first rest] | ]; [ | auto].
  destruct (NAME_MAX <? String.length first)%nat; [discriminate | ].
  now destruct (PyDict.get first d) as [[c | ] | ].
Qed.

(** A file that can be written can still be written when its own entry is
    as it was. *)
Lemma writable_lookup name d d' :
  writable name d = true -> PyDict.get name d' = PyDict.get name d ->
  writable name d' = true.
Proof.
  unfold writable, open_error. intros Hopen ->.
  destruct (PyDict.get name d) as [[c | ] | ]; try exact Hopen.
  destruct (create_refused name d) eqn:E; [discriminate | ].
  now rewrite (create_refused_any _ _ d' E).
Qed.

(** Through a loop that runs to its end, a namespace whose release is
    served and whose cache file can be written has the decoded
    configurations as its entry from its turn on. *)
Lemma fetch_all_served namespace release_key s snapshot l st st' :
  fetch_succeeds json_loads self w namespace release_key s snapshot ->
  writable (cache_file_name self namespace) (disk st) = true ->
  fetch_all json_loads self w l st = (Return tt, st') ->
  writable (cache_file_name self namespace) (disk st') = true /\
  _cache st' !! namespace =
    if bool_decide (namespace ∈ l) then Some snapshot else _cache st !! namespace.
Proof.
  intros Hok. revert st. unfold fetch_all.
  induction l as [ | x l IH]; intros st Hopen Hrun; simpl in Hrun.
  - injection Hrun as <-. now split.
  - unfold bind in Hrun. destruct (decide (x = namespace)) as [-> | Hx].
    + rewrite (get_config_by_namespace_succeeds json_loads self w namespace release_key
                 s snapshot st Hok Hopen) in Hrun.
      match type of Hrun with for_each _ _ ?s = _ => set (st1 := s) in * end.
      assert (writable (cache_file_name self namespace) (disk st1) = true
              /\ _cache st1 !! namespace = Some snapshot) as [Hopen1 Hentry].
      { subst st1.
        destruct (py_ne (default JNull (_hash st !! namespace)) release_key); simpl.
        - unfold writable, open_error.
          rewrite dict_get_set_eq, lookup_insert_eq. now split.
        - rewrite lookup_insert_eq. now split. }
      destruct (IH st1 Hopen1 Hrun) as [Hopen' Hcache]. split; [exact Hopen' | ].
      rewrite Hcache, Hentry.
      rewrite (bool_decide_eq_true_2 (namespace ∈ namespace :: l)) by left.
      now destruct (bool_decide (namespace ∈ l)).
    + destruct (get_config_by_namespace_other json_loads self w namespace x st Hx)
        as [Hc Hd].
      destruct (_get_config_by_namespace json_loads self w x st)
        as [[[] | e] st1]; [ | discriminate].
      simpl in Hc, Hd. apply (writable_lookup _ _ _ Hopen) in Hd.
      destruct (IH st1 Hd Hrun) as [Hopen' Hcache]. split; [exact Hopen' | ].
      rewrite Hcache, Hc.
      assert (namespace ∈ x :: l <-> namespace ∈ l) as Hmem.
      { rewrite elem_of_cons.
        split; [intros [Heq | Hin]; [congruence | exact Hin] | intros Hin; now right]. }
      now rewrite (bool_decide_ext _ _ Hmem).
Qed.


Lemma read_from_server_loop st st' namespaces :
  _get_namespaces json_loads self w st = (Return namespaces, st) ->
  fetch_all json_loads self w (PyDict.keys namespaces)
    (with_notification_map namespaces st) = (Return tt, st') ->
  _read_from_server json_loads self w st = (Return tt, st').
Proof.
  intros Hdiscovery Hloop. unfold _read_from_server, try_except, bind.
  rewrite Hdiscovery. simpl. now rewrite Hloop.
Qed.

Lemma get_value_of_snapshot st key default_val namespace members :
  _cache st !! namespace = Some (JObj members) ->
  get_value key default_val namespace st =
  (Return (default default_val (PyDict.get key members)), st).
Proof. intros H. unfold get_value. munfold. now rewrite H. Qed.


(** ** Repeated and malformed releases *)

(** X7. A served release is idempotent: after [_get_config_by_namespace]
    has taken a release, taking the same release again returns and changes
    nothing at all (no second disk write, the same ConfigCache entry); the
    two calls together write the cache file at most once. *)
Theorem served_release_twice_changes_nothing
    (st : state) (namespace : string) (release_key : json) (s : string)
    (snapshot : json) :
  fetch_succeeds json_loads self w namespace release_key s snapshot ->
  PyDict.get (cache_file_name self namespace) (disk st) <> Some Directory ->
  exists st1,
    _get_config_by_namespace json_loads self w namespace st = (Return tt, st1) /\
    _get_config_by_namespace json_loads self w namespace st1 = (Return tt, st1) /\
    (disk_writes st1 <= S (disk_writes st))%nat.
Proof.
  intros Hok _.
  rewrite (get_config_by_namespace_served json_loads self w namespace release_key
             s snapshot st Hok).
  destruct (py_ne (default JNull (_hash st !! namespace)) release_key) eqn:Hgate;
    [destruct (writable (cache_file_name self namespace) (disk st)) eqn:Hopen | ];
    (eexists; split; [reflexivity | ]; split; [ | simpl; lia]);
    rewrite (get_config_by_namespace_served json_loads self w namespace release_key
               s snapshot _ Hok); simpl.
  - rewrite lookup_insert_eq. simpl. rewrite py_ne_refl.
    unfold with_cache, replace_cache. simpl. now rewrite insert_insert_eq.
  - rewrite Hgate, Hopen.
    unfold with_cache, replace_cache. simpl. now rewrite insert_insert_eq.
  - rewrite Hgate.
    unfold with_cache, replace_cache. simpl. now rewrite insert_insert_eq.
Qed.

Lemma get_value_of_non_mapping st key default_val namespace v :
  _cache st !! namespace = Some v ->
  (forall members, v <> JObj members) ->
  get_value key default_val namespace st = (Raise (PyError "AttributeError"), st).
Proof.
  intros Hentry Hshape. unfold get_value. munfold. rewrite Hentry.
  destruct v; try reflexivity. now contradiction (Hshape members).
Qed.

(** X8. [get_value] guards against [BasicException] only. When a served
    release carries configurations that decode to something other than an
    object (a list, a string, a number, [null]) and the cache file of the
    namespace can be written, [_get_config_by_namespace] stores that value,
    and every later [get_value] for the namespace raises [AttributeError]
    instead of returning the default; the state is not changed by the
    read. *)
Theorem non_object_configurations_make_get_value_raise
    (st : state) (namespace : string) (release_key : json) (s : string)
    (snapshot : json) (key : string) (default_val : json) :
  fetch_succeeds json_loads self w namespace release_key s snapshot ->
  (forall members, snapshot <> JObj members) ->
  writable (cache_file_name self namespace) (disk st) = true ->
  exists st',
    _get_config_by_namespace json_loads self w namespace st = (Return tt, st') /\
    _cache st' !! namespace = Some snapshot /\
    get_value key default_val namespace st' = (Raise (PyError "AttributeError"), st').
Proof.
  intros Hok Hshape Hdir.
  rewrite (get_config_by_namespace_succeeds json_loads self w namespace release_key
             s snapshot st Hok Hdir).
  eexists. split; [reflexivity | ].
  match goal with |- _ !! _ = _ /\ get_value _ _ _ ?s = _ =>
    assert (_cache s !! namespace = Some snapshot) as Hentry
  end.
  { destruct (py_ne (default JNull (_hash st !! namespace)) release_key);
      simpl; apply lookup_insert_eq. }
  split; [exact Hentry | ]. now apply (get_value_of_non_mapping _ _ _ _ snapshot).
Qed.

(** A write of something that is no [str]: the file is emptied, then
    [f.write] raises. *)
Lemma update_local_cache_not_str st release_key data namespace :
  py_ne (default JNull (_hash st !! namespace)) release_key = true ->
  writable (cache_file_name self namespace) (disk st) = true ->
  (forall s, data <> JStr s) ->
  _update_local_cache self release_key data namespace st =
  (Raise (PyError "TypeError"),
   count_write (disk_set (cache_file_name self namespace) EmptyString st)).
Proof.
  intros Hgate Hopen Hdata. unfold _update_local_cache. munfold. rewrite Hgate.
  unfold writable in Hopen.
  destruct (open_error (cache_file_name self namespace) (disk st)); [discriminate | ].
  destruct data; try reflexivity; now contradiction (Hdata s).
Qed.

(** X9. A response with status 200 whose object has a new release key and no
    [configurations] member destroys the persisted snapshot of a namespace
    whose cache file can be written: the default
    [{}] handed to [f.write] is no [str], the write raises after the file
    was emptied, the handler reads the emptied file and its decode error
    leaves [_get_config_by_namespace]. Afterwards the cache file is empty,
    the ConfigCache entry is the empty snapshot and the release key is not
    recorded. *)
Theorem release_without_configurations_empties_the_cache_file
    (st : state) (namespace : string) (r : Response) (members : list (string * json))
    (release_key : json) :
  json_loads "{}" = Some (JObj []) ->
  json_loads EmptyString = None ->
  http_outcome self w (release_url self namespace) = Return r ->
  status_code r = 200 ->
  json_loads (text r) = Some (JObj members) ->
  PyDict.get "configurations" members = None ->
  PyDict.get "releaseKey" members = Some release_key ->
  py_ne (default JNull (_hash st !! namespace)) release_key = true ->
  writable (cache_file_name self namespace) (disk st) = true ->
  exists st',
    _get_config_by_namespace json_loads self w namespace st
    = (Raise (PyError "JSONDecodeError"), st') /\
    PyDict.get (cache_file_name self namespace) (disk st') = Some (File EmptyString) /\
    _cache st' !! namespace = Some (JObj []) /\
    _hash st' = _hash st.
Proof.
  intros Hbraces Hempty Hout Hstatus Hbody Hconf Hkey Hgate Hdir.
  unfold _get_config_by_namespace, try_except.
  unfold bind at 1. rewrite http_get_outcome, Hout, Hstatus. simpl.
  unfold bind at 1. unfold Response_json, loads. rewrite Hbody. simpl.
  unfold bind at 1. simpl. rewrite Hconf. simpl.
  unfold bind at 1. rewrite Hbraces. simpl.
  unfold bind at 1. simpl.
  unfold bind at 1. simpl. rewrite Hkey. simpl.
  unfold bind at 1. simpl.
  unfold bind at 1. simpl.
  rewrite (update_local_cache_not_str (with_cache namespace (JObj []) st))
    by (try assumption; discriminate).
  simpl. unfold bind at 1. simpl.
  unfold bind at 1. rewrite get_local_cache_by_namespace_run.
  unfold local_snapshot. simpl. rewrite dict_get_set_eq. simpl. rewrite Hempty.
  eexists. split; [reflexivity | ]. simpl.
  rewrite dict_get_set_eq, lookup_insert_eq. auto.
Qed.


(** ** Discovery *)

Lemma dict_keys_set {V} (k : string) (v : V) (d : list (string * V)) :
  PyDict.keys (PyDict.set k v d) =
  if bool_decide (k ∈ PyDict.keys d) then PyDict.keys d else (PyDict.keys d ++ [k])%list.
Proof.
  induction d as [ | [k' v'] d IH]; simpl.
  - reflexivity.
  - destruct (String.eqb k k') eqn:E.
    + apply String.eqb_eq in E. subst k'.
      now rewrite (bool_decide_eq_true_2 (k ∈ k :: PyDict.keys d)) by left.
    + apply String.eqb_neq in E. simpl. rewrite IH.
      assert (k ∈ k' :: PyDict.keys d <-> k ∈ PyDict.keys d) as Hmem.
      { rewrite elem_of_cons.
        split; [intros [Heq | Hin]; [congruence | exact Hin] | intros Hin; now right]. }
      rewrite (bool_decide_ext _ _ Hmem).
      now destruct (bool_decide (k ∈ PyDict.keys d)).
Qed.

Lemma dict_set_NoDup {V} (k : string) (v : V) (d : list (string * V)) :
  NoDup (PyDict.keys d) -> NoDup (PyDict.keys (PyDict.set k v d)).
Proof.
  intros Hd. rewrite dict_keys_set. case_bool_decide as Hin; [exact Hd | ].
  apply NoDup_app. split; [exact Hd | ]. split; [ | apply NoDup_singleton].
  intros x Hx Hx'. apply list_elem_of_singleton in Hx'. now subst.
Qed.

Lemma dict_set_elem_of {V} (k : string) (v : V) (d : list (string * V)) n :
  n ∈ PyDict.keys (PyDict.set k v d) <-> n = k \/ n ∈ PyDict.keys d.
Proof.
  rewrite dict_keys_set. case_bool_decide as Hin.
  - split; [now right | intros [-> | H]; assumption].
  - rewrite elem_of_app, list_elem_of_singleton. tauto.
Qed.

Lemma namespaces_comprehension_NoDup items acc st r st' :
  namespaces_comprehension items acc st = (Return r, st') ->
  NoDup (PyDict.keys acc) -> NoDup (PyDict.keys r).
Proof.
  revert acc st. induction items as [ | item items IH]; intros acc st Hrun Hacc;
    simpl in Hrun.
  - injection Hrun as <- _. exact Hacc.
  - unfold bind in Hrun.
    destruct (get_method item "namespaceName" JNull st) as [[name | e] st1];
      [ | discriminate].
    destruct (get_method item "id" JNull st1) as [[id | e] st2]; [ | discriminate].
    destruct (namespace_key name st2) as [[key | e] st3]; [ | discriminate].
    apply (IH _ _ Hrun). now apply dict_set_NoDup.
Qed.

Lemma release_url_inj namespace namespace' :
  release_url self namespace = release_url self namespace' -> namespace = namespace'.
Proof.
  unfold release_url. intros H.
  apply string_app_inv_head in H. apply string_app_inv_head in H.
  now apply string_app_inv_tail in H.
Qed.

Lemma namespaces_comprehension_names items names acc st :
  Forall2 (fun item n => exists members,
             item = JObj members /\
             PyDict.get "namespaceName" members = Some (JStr n)) items names ->
  exists r,
    namespaces_comprehension items acc st = (Return r, st) /\
    forall n, n ∈ PyDict.keys r <-> n ∈ PyDict.keys acc \/ n ∈ names.
Proof.
  intros Hitems. revert acc.
  induction Hitems as [ | item n items names (members & -> & Hname) _ IH]; intros acc.
  - exists acc. split; [reflexivity | ]. intros n. rewrite elem_of_nil. tauto.
  - simpl. unfold bind. simpl. rewrite Hname. simpl.
    destruct (IH (PyDict.set n (default JNull (PyDict.get "id" members)) acc))
      as (r & Hrun & Hkeys).
    exists r. split; [exact Hrun | ].
    intros x. rewrite Hkeys, dict_set_elem_of, elem_of_cons. tauto.
Qed.

Lemma get_namespaces_of_listing (st : state) (names : list string) :
  lists json_loads self w names ->
  exists namespaces,
    _get_namespaces json_loads self w st = (Return namespaces, st) /\
    forall n, n ∈ PyDict.keys namespaces <-> n ∈ names.
Proof.
  intros (r & items & Hout & Hstatus & Hbody & Hitems).
  destruct (namespaces_comprehension_names items names [] st Hitems)
    as (nss & Hrun & Hkeys).
  exists nss. split.
  - unfold _get_namespaces. unfold bind at 1. rewrite http_get_outcome, Hout, Hstatus.
    simpl. unfold bind at 1. unfold Response_json, loads. rewrite Hbody. simpl.
    unfold bind at 1. simpl. exact Hrun.
  - intros n. rewrite Hkeys. simpl. rewrite elem_of_nil. tauto.
Qed.

(** X11. When the listing names its namespaces by strings, with or without
    repeats, [_get_namespaces] returns each listed namespace once: the
    namespaces it returns are pairwise distinct, and so are the URLs their
    releases are requested at, so that a pass requests every release
    once. *)
Theorem discovered_namespaces_are_distinct (st : state) (names : list string) :
  lists json_loads self w names ->
  exists namespaces,
    _get_namespaces json_loads self w st = (Return namespaces, st) /\
    (forall n, n ∈ PyDict.keys namespaces <-> n ∈ names) /\
    NoDup (PyDict.keys namespaces) /\
    NoDup (map (release_url self) (PyDict.keys namespaces)).
Proof.
  intros Hlists.
  destruct (get_namespaces_of_listing st names Hlists) as (namespaces & Hrun & Hnames).
  exists namespaces. split; [exact Hrun | ]. split; [exact Hnames | ].
  assert (NoDup (PyDict.keys namespaces)) as Hkeys.
  { unfold _get_namespaces in Hrun. unfold bind in Hrun.
    destruct (_http_get self w (namespaces_url self) st) as [[r | e] st1];
      [ | discriminate].
    destruct (status_code r =? 200)%Z.
    - destruct (Response_json json_loads r st1) as [[body | e] st2]; [ | discriminate].
      destruct (iterate body st2) as [[items | e] st3]; [ | discriminate].
      apply (namespaces_comprehension_NoDup _ _ _ _ _ Hrun). constructor.
    - injection Hrun as <-. apply NoDup_singleton. }
  split; [exact Hkeys | ].
  apply NoDup_fmap_2; [ | exact Hkeys].
  intros a b. apply release_url_inj.
Qed.

(** X12. When the listing is answered with status 200 and a JSON array of
    objects that each name a namespace, [_get_namespaces] returns, and the
    namespaces it returns are exactly the ones named: none is dropped, none
    is added (the sentinel [application] is not). *)
Theorem listed_namespaces_are_all_discovered
    (st : state) (r : Response) (items : list json) (names : list string) :
  http_outcome self w (namespaces_url self) = Return r ->
  status_code r = 200 ->
  json_loads (text r) = Some (JArr items) ->
  Forall2 (fun item n => exists members,
             item = JObj members /\
             PyDict.get "namespaceName" members = Some (JStr n)) items names ->
  exists namespaces,
    _get_namespaces json_loads self w st = (Return namespaces, st) /\
    forall n, n ∈ PyDict.keys namespaces <-> n ∈ names.
Proof.
  intros Hout Hstatus Hbody Hitems.
  destruct (namespaces_comprehension_names items names [] st Hitems)
    as (nss & Hrun & Hkeys).
  exists nss. split.
  - unfold _get_namespaces. unfold bind at 1. rewrite http_get_outcome, Hout, Hstatus.
    simpl. unfold bind at 1. unfold Response_json, loads. rewrite Hbody. simpl.
    unfold bind at 1. simpl. exact Hrun.
  - intros n. rewrite Hkeys. simpl. rewrite elem_of_nil. tauto.
Qed.

(** ** A served namespace after the pass *)

(** X3. When the listing names its namespaces by strings: for every
    namespace of the listing whose release is served with configurations
    that decode to an object and whose cache file can be written, after a
    pass whose loop ran to its end the ConfigCache holds that object for the
    namespace, whatever the other namespaces did, and [get_value] returns
    the fetched value for every key of it (the default for every other
    key). *)
Theorem served_namespace_is_read_after_the_pass
    (st st' : state) (names : list string) (namespaces : list (string * json))
    (namespace : string) (release_key : json) (s : string)
    (members : list (string * json)) :
  lists json_loads self w names ->
  _get_namespaces json_loads self w st = (Return namespaces, st) ->
  namespace ∈ names ->
  fetch_succeeds json_loads self w namespace release_key s (JObj members) ->
  writable (cache_file_name self namespace) (disk st) = true ->
  fetch_all json_loads self w (PyDict.keys namespaces)
    (with_notification_map namespaces st) = (Return tt, st') ->
  _read_from_server json_loads self w st = (Return tt, st') /\
  _cache st' !! namespace = Some (JObj members) /\
  forall key default_val,
    get_value key default_val namespace st' =
    (Return (default default_val (PyDict.get key members)), st').
Proof.
  intros Hlists Hdiscovery Hin Hok Hopen Hloop.
  assert (namespace ∈ PyDict.keys namespaces) as Hkey.
  { destruct (get_namespaces_of_listing st names Hlists) as (nss & Hrun & Hkeys).
    rewrite Hrun in Hdiscovery. injection Hdiscovery as <-. now apply Hkeys. }
  destruct (fetch_all_served namespace _ _ _ _
              (with_notification_map namespaces st) st' Hok Hopen Hloop)
    as [_ Hcache].
  rewrite (bool_decide_eq_true_2 _ Hkey) in Hcache.
  split; [now apply (read_from_server_loop st st' namespaces) | ].
  split; [exact Hcache | ].
  intros key default_val. now apply get_value_of_snapshot.
Qed.

(** ** [_get_clusters] *)

(** [_get_clusters] never touches the client's state. It returns the
    empty dict, not a sentinel, for every status other than 200, and it
    raises whatever [_http_get] raises. *)
Theorem get_clusters_reads_only (st : state) :
  snd (_get_clusters json_loads self w st) = st /\
  (forall r, http_outcome self w (clusters_url self) = Return r ->
             status_code r <> 200 ->
             _get_clusters json_loads self w st = (Return (JObj []), st)) /\
  (forall e, http_outcome self w (clusters_url self) = Raise e ->
             _get_clusters json_loads self w st = (Raise e, st)).
Proof.
  unfold _get_clusters, bind. rewrite http_get_outcome. split; [ | split].
  - destruct (http_outcome self w (clusters_url self)) as [r | e]; [ | reflexivity].
    destruct (status_code r =? 200)%Z; [ | reflexivity]. apply pure_loads.
  - intros r -> Hstatus. apply Z.eqb_neq in Hstatus. now rewrite Hstatus.
  - now intros e ->.
Qed.

End PassFacts.

(** ** The polling loop *)

Section PollingFacts.
Variable json_loads : string -> option json.
Variable self : config.

Lemma pure_sleep seconds : pure (sleep seconds).
Proof. unfold sleep. now destruct (seconds <? 0)%Z. Qed.

(** What every pass keeps, the loop keeps, through every round and whether
    it returns or raises. *)
Lemma preserves_long_polling (I : state -> Prop) rounds :
  (forall w, w ∈ rounds -> preserves I (_read_from_server json_loads self w)) ->
  preserves I (_long_polling json_loads self rounds).
Proof.
  induction rounds as [ | w rounds IH]; intros Hpass; simpl.
  - apply preserves_pure, pure_ret.
  - apply preserves_bind; [apply Hpass; left | intros _].
    apply preserves_bind; [apply preserves_pure, pure_sleep | intros _].
    apply IH. intros w' Hw'. apply Hpass. now right.
Qed.

(** X1. Whatever the environment answers, and whether the pass returns or
    raises, [_read_from_server] removes nothing: every namespace that had an
    entry in the ConfigCache still has one, every regular file of the cache
    directory is still a regular file, every namespace with a recorded
    release key still has one, and the count of disk writes has not gone
    down. The same holds over any number of rounds of [_long_polling], in
    whatever environments. What an entry, a file or a record holds may
    change. *)
Theorem passes_remove_nothing (st : state) (w : world) (rounds : list world) :
  grows st (snd (_read_from_server json_loads self w st)) /\
  grows st (snd (_long_polling json_loads self rounds st)).
Proof.
  split.
  - apply grows_read_from_server, grows_refl.
  - apply preserves_long_polling; [ | apply grows_refl].
    intros w' _. apply grows_read_from_server.
Qed.

(** X2. The release-key gate and the disk stay in step: when every namespace
    with a recorded release key has its cache file, this is still so after
    [_read_from_server], and after any number of rounds of [_long_polling],
    whether they return or raise. *)
Theorem recorded_release_keys_keep_their_files
    (st : state) (w : world) (rounds : list world) :
  keyed_files self st ->
  keyed_files self (snd (_read_from_server json_loads self w st)) /\
  keyed_files self (snd (_long_polling json_loads self rounds st)).
Proof.
  intros HI. split.
  - now apply keyed_files_read_from_server.
  - apply preserves_long_polling; [ | exact HI].
    intros w' _. apply keyed_files_read_from_server.
Qed.

(** X6. The client writes only what a release answered with status 200
    brings: in an environment where no release request is answered with
    200, a pass ([_read_from_server]) leaves the cache directory, the
    recorded release keys and the count of disk writes as they were, whether
    discovery answers or not and whether the pass returns or raises; the
    fall-back to the local cache only reads. So does any number of rounds of
    [_long_polling] through such environments. *)
Theorem nothing_is_written_unless_a_release_is_answered
    (st : state) (w : world) (rounds : list world) :
  ((forall namespace, ~ answered self w namespace) ->
   same_storage st (snd (_read_from_server json_loads self w st))) /\
  (Forall (fun w' => forall namespace, ~ answered self w' namespace) rounds ->
   same_storage st (snd (_long_polling json_loads self rounds st))).
Proof.
  split.
  - intros Hun. apply same_storage_read_from_server; [exact Hun | ].
    apply same_storage_refl.
  - intros Hun. apply preserves_long_polling; [ | apply same_storage_refl].
    intros w' Hw'. apply same_storage_read_from_server.
    rewrite Forall_forall in Hun. now apply Hun.
Qed.
End PollingFacts.

(** ** Construction *)

Module PyStrMoreFacts.
Import PyStr PyStrMore.

Lemma split_length c s : length (split c s) = S (count c s).
Proof.
  induction s as [ | a s IH]; simpl; [reflexivity | ].
  destruct (Ascii.eqb a c); simpl; [now rewrite IH | ].
  destruct (split c s) as [ | piece pieces]; simpl in *; [discriminate | exact IH].
Qed.

Lemma split_no_separator c s : contains c s = false -> split c s = [s].
Proof.
  induction s as [ | a s IH]; simpl; [reflexivity | ].
  intros H. apply orb_false_iff in H as [Ha Hs]. now rewrite Ha, (IH Hs).
Qed.

(** The first piece of a text is what stands before its first separator. *)
Lemma split_app c s t :
  contains c s = false -> split c (s +:+ String c t) = s :: split c t.
Proof.
  induction s as [ | a s IH]; ssimpl.
  - intros _. now rewrite Ascii.eqb_refl.
  - intros H. apply orb_false_iff in H as [Ha Hs]. now rewrite Ha, (IH Hs).
Qed.

Lemma rpartition_count c s :
  match rpartition c s with
  | Some _ => (0 < count c s)%nat
  | None => count c s = 0%nat
  end.
Proof.
  induction s as [ | a s IH]; simpl; [reflexivity | ].
  destruct (rpartition c s) as [[before after] | ].
  - lia.
  - destruct (Ascii.eqb a c); simpl; lia.
Qed.

(** [s.split(c)[-1]], as the cold-start scan computes it, is the last piece
    of the split. *)
Lemma split_last_is_last_piece c s :
  last (split c s) = Some (split_last c s).
Proof.
  unfold split_last. induction s as [ | a s IH]; simpl; [reflexivity | ].
  pose proof (rpartition_count c s) as Hcount.
  pose proof (split_length c s) as Hlen.
  destruct (rpartition c s) as [[before after] | ];
    destruct (Ascii.eqb a c);
    destruct (split c s) as [ | piece [ | piece' pieces]];
    simpl in *; try discriminate; try lia; try exact IH.
  now injection IH as ->.
Qed.
End PyStrMoreFacts.

Lemma string_app_nil_r (s : string) : s +:+ EmptyString = s.
Proof. induction s as [ | a s IH]; ssimpl; [reflexivity | now rewrite IH]. Qed.

Section ConstructionFacts.
Variable py_int : string -> option Z.
Variable json_loads : string -> option json.
Variable w : world.

(** X16. The port is not optional: for every [config_server_url] with fewer
    than two colons the constructor raises [IndexError] while it computes
    [self.host] and [self.port], before it looks at the cache directory or
    sends a request. The branch that would set the default port 8090 is
    never reached. *)
Theorem constructor_raises_without_two_colons (args : init_args) (path : path_state) :
  (PyStrMore.count ":" (arg_config_server_url args) < 2)%nat ->
  init_config py_int args = Raise (PyError "IndexError") /\
  __init__ py_int json_loads w args path = (Raise (PyError "IndexError"), None).
Proof.
  intros Hcount.
  assert (init_config py_int args = Raise (PyError "IndexError")) as Hconfig.
  { unfold init_config.
    pose proof (PyStrMoreFacts.split_length ":" (arg_config_server_url args)) as Hlen.
    destruct (PyStrMore.split ":" (arg_config_server_url args))
      as [ | r0 [ | r1 [ | r2 rest]]]; simpl in *; try reflexivity; lia. }
  split; [exact Hconfig | ]. unfold __init__. now rewrite Hconfig.
Qed.

Lemma split_url a b c tail :
  PyStr.contains ":" a = false ->
  PyStr.contains ":" b = false ->
  PyStr.contains ":" c = false ->
  tail = EmptyString \/ (exists t, tail = String ":" t) ->
  exists rest,
    PyStrMore.split ":" (a +:+ ":" +:+ b +:+ ":" +:+ c +:+ tail) = a :: b :: c :: rest.
Proof.
  intros Ha Hb Hc Htail.
  change (a +:+ ":" +:+ b +:+ ":" +:+ c +:+ tail)
    with (a +:+ String ":" (b +:+ String ":" (c +:+ tail))).
  rewrite !PyStrMoreFacts.split_app by assumption.
  destruct Htail as [-> | [t ->]].
  - rewrite string_app_nil_r, PyStrMoreFacts.split_no_separator by assumption.
    now exists [].
  - rewrite PyStrMoreFacts.split_app by assumption. now eexists.
Qed.

(** X17. For every [config_server_url] of the form [a:b:c], or [a:b:c:...],
    with no colon inside [a], [b] and [c], the constructor takes [a:b] as
    the host and [int(c)] as the port, whatever follows a third colon, and
    raises [ValueError] when [c] is no integer (a URL with a path after the
    port). When the URL is [a:b:c] and [c] is the decimal text of the port,
    every request goes to the configured URL: the listing is asked at
    [config_server_url + "/apps/<app>/clusters/<cluster>/namespaces"]. *)
Theorem constructor_reads_host_and_port
    (args : init_args) (a b c tail : string) :
  arg_config_server_url args = a +:+ ":" +:+ b +:+ ":" +:+ c +:+ tail ->
  PyStr.contains ":" a = false ->
  PyStr.contains ":" b = false ->
  PyStr.contains ":" c = false ->
  tail = EmptyString \/ (exists t, tail = String ":" t) ->
  init_config py_int args =
    match py_int c with
    | Some p =>
        Return (mkConfig (arg_config_server_url args) (arg_app_id args)
                         (arg_cluster args) (a +:+ ":" +:+ b) p (arg_timeout args)
                         (arg_authorization args) (arg_sync_time args))
    | None => Raise (PyError "ValueError")
    end /\
  (forall p self,
     tail = EmptyString -> py_int c = Some p -> str_of_int p = c ->
     init_config py_int args = Return self ->
     namespaces_url self =
     arg_config_server_url args +:+ "/apps/" +:+ arg_app_id args
       +:+ "/clusters/" +:+ arg_cluster args +:+ "/namespaces").
Proof.
  intros Hurl Ha Hb Hc Htail.
  destruct (split_url a b c tail Ha Hb Hc Htail) as [rest Hsplit].
  assert (init_config py_int args =
          match py_int c with
          | Some p =>
              Return (mkConfig (arg_config_server_url args) (arg_app_id args)
                               (arg_cluster args) (a +:+ ":" +:+ b) p (arg_timeout args)
                               (arg_authorization args) (arg_sync_time args))
          | None => Raise (PyError "ValueError")
          end) as Hconfig.
  { unfold init_config. rewrite <- Hurl in Hsplit. rewrite Hsplit. simpl.
    now destruct (py_int c). }
  split; [exact Hconfig | ].
  intros p self -> Hp Hstr Hself. rewrite Hconfig, Hp in Hself.
  injection Hself as <-. unfold namespaces_url. simpl.
  rewrite Hstr, Hurl, string_app_nil_r. now rewrite !string_app_assoc.
Qed.

(** X18. Construction keeps what the cache directory holds and starts from
    nothing in memory: whenever the constructor gets as far as its first
    pass, the directory was there or was created empty, every regular file
    it held is still a regular file afterwards, every namespace with a
    recorded release key has its cache file, and this stays so through any
    number of rounds of the polling loop, in whatever environments. A
    regular file in the place of the
    directory, or a missing parent, makes the constructor raise before any
    request. *)
Theorem construction_keeps_the_cache_directory
    (args : init_args) (path : path_state) :
  (forall r self st,
     __init__ py_int json_loads w args path = (r, Some (self, st)) ->
     init_config py_int args = Return self /\
     exists entries,
       (path = Dir entries \/ (path = Missing /\ entries = [])) /\
       (r, st) = _read_from_server json_loads self w (mkState ∅ ∅ [] entries 0) /\
       (forall name, is_regular_file name entries = true ->
                     is_regular_file name (disk st) = true) /\
       keyed_files self st /\
       forall rounds,
         keyed_files self (snd (_long_polling json_loads self rounds st))) /\
  (forall self, init_config py_int args = Return self ->
     (path = NotADirectory ->
      __init__ py_int json_loads w args path = (Raise (PyError "FileExistsError"), None)) /\
     (path = NoParent ->
      __init__ py_int json_loads w args path
      = (Raise (PyError "FileNotFoundError"), None))).
Proof.
  split.
  - intros r self st Hinit. unfold __init__ in Hinit.
    destruct (init_config py_int args) as [self' | e]; [ | discriminate].
    destruct (_path_checker path) as [entries | e] eqn:Hpath; [ | discriminate].
    destruct (_read_from_server json_loads self' w (mkState ∅ ∅ [] entries 0))
      as [r' st'] eqn:Hpass.
    injection Hinit as <- <- <-. split; [reflexivity | ].
    assert (keyed_files self' (mkState ∅ ∅ [] entries 0)) as Hstart.
    { intros ns [v Hv]. simpl in Hv. now rewrite lookup_empty in Hv. }
    exists entries. split; [ | split; [ | split; [ | split]]].
    + destruct path; try discriminate; injection Hpath as <-; auto.
    + now rewrite Hpass.
    + pose proof (grows_read_from_server json_loads self' w
                    (mkState ∅ ∅ [] entries 0) _ (grows_refl _)) as (_ & Hfiles & _).
      rewrite Hpass in Hfiles. exact Hfiles.
    + pose proof (keyed_files_read_from_server json_loads self' w _ Hstart) as Hkeyed.
      now rewrite Hpass in Hkeyed.
    + intros rounds.
      pose proof (keyed_files_read_from_server json_loads self' w _ Hstart) as Hkeyed.
      rewrite Hpass in Hkeyed. simpl in Hkeyed.
      apply preserves_long_polling; [ | exact Hkeyed].
      intros w' _. apply keyed_files_read_from_server.
  - intros self Hself. unfold __init__. rewrite Hself. split; now intros ->.
Qed.
End ConstructionFacts.

(** ** The registry of instances *)

Section RegistryFacts.
Context {A : Type}.
Variable repr : list A -> list string -> string.

Lemma sorted_permutation (l l' : list string) : l ≡ₚ l' -> sorted l = sorted l'.
Proof.
  intros Hperm. unfold sorted.
  apply (Sorted_unique String.le).
  - apply Sorted_merge_sort. apply _.
  - apply Sorted_merge_sort. apply _.
  - now rewrite !merge_sort_Permutation.
Qed.

Lemma sorted_idempotent (l : list string) : sorted (sorted l) = sorted l.
Proof. apply sorted_permutation. unfold sorted. apply merge_sort_Permutation. Qed.

Lemma dict_get_is_Some {V} (d : list (string * V)) k :
  k ∈ PyDict.keys d -> is_Some (PyDict.get k d).
Proof.
  induction d as [ | [k' v] d IH]; simpl; intros Hin.
  - now apply elem_of_nil in Hin.
  - destruct (String.eqb k k') eqn:E; [now eexists | ].
    apply String.eqb_neq in E. apply elem_of_cons in Hin as [Heq | Hin];
      [congruence | now apply IH].
Qed.

Lemma keys_of_sorted_comprehension (kwargs : list (string * A)) (l : list string) :
  (forall x, x ∈ l -> x ∈ PyDict.keys kwargs) ->
  PyDict.keys (omap (fun x => match PyDict.get x kwargs with
                              | Some v => Some (x, v)
                              | None => None
                              end) l) = l.
Proof.
  induction l as [ | x l IH]; intros Hall; simpl; [reflexivity | ].
  destruct (dict_get_is_Some kwargs x (Hall x ltac:(left))) as [v ->]. simpl.
  f_equal. apply IH. intros y Hy. apply Hall. now right.
Qed.

(** The key of a construction: the positional arguments and the sorted
    names of the keyword arguments. *)
Lemma new_key (args : list A) (kwargs : list (string * A)) (cls : class_state) :
  __new__ repr args kwargs cls =
  let key := repr args (sorted (PyDict.keys kwargs)) in
  match _instance cls with
  | Some instances =>
      match instances !! key with
      | Some object => (object, cls)
      | None =>
          (allocated cls,
           mkClass (Some (<[key := allocated cls]> instances)) (S (allocated cls)))
      end
  | None =>
      (allocated cls, mkClass (Some {[key := allocated cls]}) (S (allocated cls)))
  end.
Proof.
  unfold __new__. rewrite keys_of_sorted_comprehension.
  - now rewrite sorted_idempotent.
  - intros x Hx. unfold sorted in Hx. now rewrite merge_sort_Permutation in Hx.
Qed.

(** X19. The key of the singleton holds the positional arguments and the
    names of the keyword arguments, not their values: a second construction
    with the same positional arguments and the same keyword names, in any
    order and with any values, gets the object of the first and leaves the
    registry as it is. *)
Theorem same_keyword_names_same_instance
    (args : list A) (kwargs kwargs' : list (string * A)) (cls : class_state) :
  PyDict.keys kwargs ≡ₚ PyDict.keys kwargs' ->
  __new__ repr args kwargs' (snd (__new__ repr args kwargs cls))
  = (fst (__new__ repr args kwargs cls), snd (__new__ repr args kwargs cls)).
Proof.
  intros Hperm. rewrite !new_key. rewrite <- (sorted_permutation _ _ Hperm).
  destruct cls as [[instances | ] next]; simpl.
  - destruct (instances !! repr args (sorted (PyDict.keys kwargs))) as [o | ] eqn:E;
      simpl; rewrite ?E, ?lookup_insert_eq; reflexivity.
  - now rewrite lookup_singleton_eq.
Qed.

Lemma registry_ok_new (args : list A) (kwargs : list (string * A)) cls :
  registry_ok cls -> registry_ok (snd (__new__ repr args kwargs cls)).
Proof.
  intros Hok. rewrite new_key. simpl.
  destruct (_instance cls) as [instances | ] eqn:Hinst; simpl.
  - destruct (Hok instances Hinst) as [Hbound Hinj].
    destruct (instances !! repr args (sorted (PyDict.keys kwargs))) as [o | ] eqn:E;
      simpl.
    + intros instances' Hinst'. rewrite Hinst in Hinst'. injection Hinst' as <-.
      now split.
    + intros instances' [= <-]. simpl. split.
      * intros k o Hk. apply lookup_insert_Some in Hk as [[_ <-] | [_ Hk]]; [lia | ].
        specialize (Hbound k o Hk). lia.
      * intros k k' o Hk Hk'.
        apply lookup_insert_Some in Hk as [[<- <-] | [Hne Hk]];
          apply lookup_insert_Some in Hk' as [[<- Heq] | [Hne' Hk']]; subst;
          try reflexivity.
        -- specialize (Hbound k' _ Hk'). lia.
        -- specialize (Hbound k _ Hk). lia.
        -- exact (Hinj k k' o Hk Hk').
  - intros instances' [= <-]. simpl. split.
    + intros k o Hk. apply lookup_singleton_Some in Hk as [_ <-]. lia.
    + intros k k' o Hk Hk'. apply lookup_singleton_Some in Hk as [<- _].
      now apply lookup_singleton_Some in Hk' as [<- _].
Qed.

Lemma new_registers (args : list A) (kwargs : list (string * A)) cls :
  exists instances,
    _instance (snd (__new__ repr args kwargs cls)) = Some instances /\
    instances !! repr args (sorted (PyDict.keys kwargs))
    = Some (fst (__new__ repr args kwargs cls)).
Proof.
  rewrite new_key. simpl. destruct (_instance cls) as [instances | ] eqn:Hinst; simpl.
  - destruct (instances !! repr args (sorted (PyDict.keys kwargs))) as [o | ] eqn:E;
      simpl.
    + exists instances. now split.
    + eexists. split; [reflexivity | apply lookup_insert_eq].
  - eexists. split; [reflexivity | apply lookup_singleton_eq].
Qed.

(** X20. One object per key: from a registry that names each object once,
    two constructions whose keys differ get two different objects, the
    registry keeps naming each object once, and the first construction,
    repeated after the second, still gets its own object. *)
Theorem different_keys_different_instances
    (args1 args2 : list A) (kwargs1 kwargs2 : list (string * A)) (cls : class_state) :
  registry_ok cls ->
  repr args1 (sorted (PyDict.keys kwargs1)) <> repr args2 (sorted (PyDict.keys kwargs2)) ->
  let first := __new__ repr args1 kwargs1 cls in
  let second := __new__ repr args2 kwargs2 (snd first) in
  fst first <> fst second /\
  registry_ok (snd second) /\
  __new__ repr args1 kwargs1 (snd second) = (fst first, snd second).
Proof.
  intros Hok Hkeys first second.
  pose proof (registry_ok_new args1 kwargs1 cls Hok) as Hok1. fold first in Hok1.
  pose proof (registry_ok_new args2 kwargs2 (snd first) Hok1) as Hok2.
  fold second in Hok2.
  destruct (new_registers args1 kwargs1 cls) as (i1 & Hi1 & Hl1). fold first in Hi1, Hl1.
  destruct (new_registers args2 kwargs2 (snd first)) as (i2 & Hi2 & Hl2).
  fold second in Hi2, Hl2.
  assert (i2 !! repr args1 (sorted (PyDict.keys kwargs1)) = Some (fst first)) as Hkept.
  { subst second. rewrite new_key in Hi2. cbv zeta in Hi2. rewrite Hi1 in Hi2.
    destruct (i1 !! repr args2 (sorted (PyDict.keys kwargs2))) as [o | ];
      simpl in Hi2.
    - assert (i2 = i1) as -> by congruence. exact Hl1.
    - injection Hi2 as <-. rewrite lookup_insert_ne by congruence. exact Hl1. }
  split; [ | split; [exact Hok2 | ]].
  - intros Heq. destruct (Hok2 i2 Hi2) as [_ Hinj].
    apply Hkeys. apply (Hinj _ _ (fst first)); [exact Hkept | now rewrite Heq].
  - rewrite new_key. simpl. rewrite Hi2, Hkept. reflexivity.
Qed.
End RegistryFacts.

(** ** Calls are confined to their namespace, and the scan to the cache *)

Section MoreClientFacts.
Variable json_loads : string -> option json.
Variable self : config.
Variable w : world.

(** X21. A call for one namespace is confined to it: whatever the
    environment answers and whether the call returns or raises,
    [_get_config_by_namespace] leaves the ConfigCache entry, the recorded
    release key and the cache file of every other namespace exactly as they
    were. *)
Theorem call_is_confined_to_its_namespace
    (st : state) (namespace other : string) :
  other <> namespace ->
  let st' := snd (_get_config_by_namespace json_loads self w other st) in
  _cache st' !! namespace = _cache st !! namespace /\
  _hash st' !! namespace = _hash st !! namespace /\
  PyDict.get (cache_file_name self namespace) (disk st') =
  PyDict.get (cache_file_name self namespace) (disk st).
Proof.
  intros Hne.
  apply (preserves_get_config_by_namespace json_loads self w
           (fun st' => _cache st' !! namespace = _cache st !! namespace /\
                       _hash st' !! namespace = _hash st !! namespace /\
                       PyDict.get (cache_file_name self namespace) (disk st') =
                       PyDict.get (cache_file_name self namespace) (disk st))).
  - intros v st1 (Hc & Hh & Hd). split; [ | now split].
    simpl. now rewrite lookup_insert_ne.
  - intros v st1 (Hc & Hh & Hd). split; [exact Hc | ]. split; [ | exact Hd].
    simpl. now rewrite lookup_insert_ne.
  - intros c st1 (Hc & Hh & Hd). split; [exact Hc | ]. split; [exact Hh | ]. simpl.
    rewrite dict_get_set_ne; [exact Hd | ].
    intros Heq. now apply cache_file_name_inj in Heq.
  - now intros st1.
  - now split.
Qed.

Lemma first_malformed (rs : list (string * string)) :
  Forall (decodable json_loads) rs \/
  exists good k bad rest,
    rs = (good ++ (k, bad) :: rest)%list /\
    Forall (decodable json_loads) good /\ json_loads bad = None.
Proof.
  induction rs as [ | [k content] rs IH]; [left; constructor | ].
  destruct (json_loads content) as [v | ] eqn:Hv.
  - destruct IH as [Hall | (good & k' & bad & rest & -> & Hgood & Hbad)].
    + left. constructor; [now exists v | exact Hall].
    + right. exists ((k, content) :: good), k', bad, rest.
      split; [reflexivity | ]. split; [ | exact Hbad].
      constructor; [now exists v | exact Hgood].
  - right. exists [], k, content, rs. split; [reflexivity | ].
    split; [constructor | exact Hv].
Qed.

(** The entry of a key after loading decodable records: the decoding of
    the last record under that key, or what was there. *)
Lemma load_records_lookup rs cache k :
  Forall (decodable json_loads) rs ->
  load_records json_loads rs cache !! k =
  foldl (fun acc r => if decide (fst r = k) then json_loads (snd r) else acc)
        (cache !! k) rs.
Proof.
  intros Hall. revert cache.
  induction Hall as [ | [k' content] rs [v Hv] _ IH]; intros cache; [reflexivity | ].
  simpl in Hv. rewrite (load_records_cons json_loads (k', content) rs cache v Hv).
  rewrite IH. simpl. f_equal.
  destruct (decide (k' = k)) as [-> | Hne].
  - now rewrite lookup_insert_eq.
  - now rewrite lookup_insert_ne.
Qed.

Lemma last_record_twice (rs : list (string * string)) k (x : option json) :
  let step := fun acc (r : string * string) =>
                if decide (fst r = k) then json_loads (snd r) else acc in
  foldl step (foldl step x rs) rs = foldl step x rs.
Proof.
  intros step.
  assert (forall y z, foldl step y rs = foldl step z rs \/
                      (foldl step y rs = y /\ foldl step z rs = z)) as Hcases.
  { induction rs as [ | r rs IH]; intros y z; [now right | ].
    simpl. destruct (decide (fst r = k)) as [Hk | Hk].
    - left. assert (step y r = step z r) as ->; [ | reflexivity].
      unfold step. now destruct (decide (fst r = k)).
    - assert (step y r = y /\ step z r = z) as [-> ->]; [ | apply IH].
      unfold step. now destruct (decide (fst r = k)). }
  destruct (Hcases (foldl step x rs) x) as [Heq | [Heq _]]; exact Heq.
Qed.

(** X22. The cold-start scan only reads the disk and is idempotent: when
    [_read_from_local_cache_file] returns, the cache directory, the
    recorded release keys and the count of writes are as before, every
    record of the directory decoded, and a second scan returns without
    changing anything. *)
Theorem cold_start_scan_is_idempotent (st st1 : state) :
  _read_from_local_cache_file json_loads st = (Return true, st1) ->
  same_storage st st1 /\
  Forall (decodable json_loads) (records (disk st)) /\
  _read_from_local_cache_file json_loads st1 = (Return true, st1).
Proof.
  intros Hscan.
  assert (forall s, Forall (decodable json_loads) (records (disk s)) ->
            _read_from_local_cache_file json_loads s =
            (Return true,
             replace_cache (load_records json_loads (records (disk s)) (_cache s)) s))
    as Hgood.
  { intros s Hall. unfold _read_from_local_cache_file, records, listdir in *.
    unfold bind. now rewrite scan_decodable. }
  assert (Forall (decodable json_loads) (records (disk st))) as Hall.
  { destruct (first_malformed (records (disk st)))
      as [Hall | (good & k & bad & rest & Hrs & Hgood' & Hbad)]; [exact Hall | ].
    exfalso. unfold _read_from_local_cache_file, records, listdir in *.
    unfold bind in Hscan.
    rewrite (scan_malformed json_loads _ _ good k bad rest Hrs Hgood' Hbad) in Hscan.
    discriminate. }
  rewrite (Hgood st Hall) in Hscan. injection Hscan as <-.
  split; [now unfold same_storage | ]. split; [exact Hall | ].
  rewrite Hgood by exact Hall. simpl. f_equal.
  unfold replace_cache. simpl. f_equal. apply map_eq. intros k.
  rewrite !load_records_lookup by exact Hall. apply last_record_twice.
Qed.

(** X23. Editor swap files are ignored whatever they hold: for every file
    name [stem.swp] of the cache directory, with a stem that holds no path
    separator and is not made of dots only, the round of the scan for that
    file returns and changes nothing. *)
Theorem swap_files_are_skipped (st : state) (stem : string) :
  PyStr.contains "/" stem = false ->
  PyStr.all_dots stem = false ->
  record_of (disk st) (stem +:+ ".swp") = None /\
  load_cache_file json_loads (stem +:+ ".swp") st = (Return tt, st).
Proof.
  intros Hsep Hdots.
  assert (PyStr.splitext (stem +:+ ".swp") = (stem, ".swp")) as Hsplit.
  { unfold PyStr.splitext.
    rewrite PyStrFacts.rpartition_None
      by (rewrite PyStrFacts.contains_app, Hsep; reflexivity).
    change (stem +:+ ".swp") with (stem +:+ String "." "swp").
    rewrite PyStrFacts.rpartition_last by reflexivity. now rewrite Hdots. }
  assert (record_of (disk st) (stem +:+ ".swp") = None) as Hrecord.
  { unfold record_of. rewrite Hsplit. simpl.
    now destruct (PyDict.get (stem +:+ ".swp") (disk st)) as [[c | ] | ]. }
  split; [exact Hrecord | ]. now rewrite load_cache_file_run, Hrecord.
Qed.

End MoreClientFacts.

(** * The further properties on concrete runs *)

Import Sample2.

Lemma recorded_release_keys_keep_their_files_witness :
  keyed_files cfg empty
  /\ keyed_files cfg (snd (_read_from_server JsonText.decode cfg one_down_one_up empty))
  /\ keyed_files cfg (snd (_long_polling JsonText.decode cfg
                             [one_down_one_up; unreachable] empty)).
Proof.
  assert (keyed_files cfg empty) as Hstart.
  { intros ns [v Hv]. simpl in Hv. now rewrite lookup_empty in Hv. }
  split; [exact Hstart | ].
  exact (recorded_release_keys_keep_their_files JsonText.decode cfg empty
           one_down_one_up [one_down_one_up; unreachable] Hstart).
Defined.

Lemma db_is_served :
  fetch_succeeds JsonText.decode cfg one_down_one_up "db" (JStr "r7")
    (timeout_is "15") (JObj [("timeout", JStr "15")]).
Proof.
  exists (mkResponse 200 (release "r7" (timeout_is "15"))),
    [("releaseKey", JStr "r7"); ("configurations", JStr (timeout_is "15"))].
  vm_compute. repeat split; reflexivity.
Defined.

Lemma two_namespaces_are_listed :
  lists JsonText.decode cfg one_down_one_up ["application"; "db"].
Proof.
  exists (mkResponse 200 (listing ["application"; "db"])),
    [JObj [("namespaceName", JStr "application"); ("id", JNum 1)];
     JObj [("namespaceName", JStr "db"); ("id", JNum 1)]].
  split; [vm_compute; reflexivity | ]. split; [reflexivity | ].
  split; [vm_compute; reflexivity | ].
  repeat constructor; eexists; (split; [reflexivity | reflexivity]).
Defined.

Lemma served_namespace_is_read_after_the_pass_witness :
  let st' := snd (fetch_all JsonText.decode cfg one_down_one_up
                    (PyDict.keys two_namespaces)
                    (with_notification_map two_namespaces empty)) in
  lists JsonText.decode cfg one_down_one_up ["application"; "db"]
  /\ _get_namespaces JsonText.decode cfg one_down_one_up empty
     = (Return two_namespaces, empty)
  /\ "db" ∈ ["application"; "db"]
  /\ writable (cache_file_name cfg "db") (disk empty) = true
  /\ fetch_all JsonText.decode cfg one_down_one_up (PyDict.keys two_namespaces)
       (with_notification_map two_namespaces empty) = (Return tt, st')
  /\ _cache st' !! "db" = Some (JObj [("timeout", JStr "15")])
  /\ get_value "timeout" (JStr "30") "db" st' = (Return (JStr "15"), st').
Proof.
  intros st'.
  assert (_get_namespaces JsonText.decode cfg one_down_one_up empty
          = (Return two_namespaces, empty)) as Hdiscovery by (vm_compute; reflexivity).
  assert ("db" ∈ ["application"; "db"]) as Hin by (right; left).
  assert (writable (cache_file_name cfg "db") (disk empty) = true) as Hopen
    by reflexivity.
  assert (fetch_all JsonText.decode cfg one_down_one_up (PyDict.keys two_namespaces)
            (with_notification_map two_namespaces empty) = (Return tt, st')) as Hloop
    by (vm_compute; reflexivity).
  split; [exact two_namespaces_are_listed | ]. do 4 (split; [assumption | ]).
  destruct (served_namespace_is_read_after_the_pass JsonText.decode cfg one_down_one_up
              empty st' ["application"; "db"] two_namespaces "db" (JStr "r7")
              (timeout_is "15") [("timeout", JStr "15")]
              two_namespaces_are_listed Hdiscovery Hin db_is_served Hopen Hloop)
    as (_ & Hcache & Hget).
  split; [exact Hcache | exact (Hget "timeout" (JStr "30"))].
Defined.


Lemma tidy_records_decode :
  Forall (decodable JsonText.decode) (records (disk (on_disk tidy empty))).
Proof.
  change (records (disk (on_disk tidy empty))) with [("application", timeout_is "60")].
  constructor; [ | constructor]. eexists. vm_compute. reflexivity.
Defined.

Lemma discovery_failure_loads_all_records_witness :
  _get_namespaces JsonText.decode cfg unreachable (on_disk tidy empty)
  = (Raise (PyError "ConnectionError"), on_disk tidy empty)
  /\ is_BasicException (PyError "ConnectionError") = false
  /\ Forall (decodable JsonText.decode) (records (disk (on_disk tidy empty)))
  /\ fst (_read_from_server JsonText.decode cfg unreachable (on_disk tidy empty))
     = Return tt
  /\ _cache (snd (_read_from_server JsonText.decode cfg unreachable (on_disk tidy empty)))
       !! "application" = Some (JObj [("timeout", JStr "60")]).
Proof.
  do 2 (split; [reflexivity | ]). split; [exact tidy_records_decode | ].
  rewrite (discovery_failure_loads_all_records JsonText.decode cfg unreachable
             (on_disk tidy empty) (PyError "ConnectionError")
             eq_refl eq_refl tidy_records_decode).
  split; reflexivity.
Defined.

Lemma nothing_is_answered_when_unreachable :
  forall namespace, ~ answered cfg unreachable namespace.
Proof. intros namespace (r & Hout & _). discriminate Hout. Defined.

Lemma nothing_is_written_unless_a_release_is_answered_witness :
  (forall namespace, ~ answered cfg unreachable namespace)
  /\ same_storage (on_disk tidy warm)
       (snd (_read_from_server JsonText.decode cfg unreachable (on_disk tidy warm)))
  /\ Forall (fun w' => forall namespace, ~ answered cfg w' namespace)
       [unreachable; unreachable; unreachable]
  /\ same_storage (on_disk tidy warm)
       (snd (_long_polling JsonText.decode cfg [unreachable; unreachable; unreachable]
               (on_disk tidy warm))).
Proof.
  assert (Forall (fun w' => forall namespace, ~ answered cfg w' namespace)
            [unreachable; unreachable; unreachable]) as Hrounds
    by (repeat constructor; exact nothing_is_answered_when_unreachable).
  destruct (nothing_is_written_unless_a_release_is_answered JsonText.decode cfg
              (on_disk tidy warm) unreachable [unreachable; unreachable; unreachable])
    as [Hpass Hloop].
  split; [exact nothing_is_answered_when_unreachable | ].
  split; [exact (Hpass nothing_is_answered_when_unreachable) | ].
  split; [exact Hrounds | exact (Hloop Hrounds)].
Defined.

Lemma application_is_served (configurations : string) (snapshot : json) :
  JsonText.decode configurations = Some snapshot ->
  JsonText.decode (release "r1" configurations)
  = Some (JObj [("releaseKey", JStr "r1"); ("configurations", JStr configurations)]) ->
  fetch_succeeds JsonText.decode cfg (serving configurations) "application"
    (JStr "r1") configurations snapshot.
Proof.
  intros Hsnapshot Hbody.
  exists (mkResponse 200 (release "r1" configurations)),
    [("releaseKey", JStr "r1"); ("configurations", JStr configurations)].
  split; [reflexivity | ]. split; [reflexivity | ]. split; [exact Hbody | ].
  split; [reflexivity | ]. split; [reflexivity | exact Hsnapshot].
Defined.

Lemma served_release_twice_changes_nothing_witness :
  fetch_succeeds JsonText.decode cfg (serving (timeout_is "60")) "application"
    (JStr "r1") (timeout_is "60") (JObj [("timeout", JStr "60")])
  /\ PyDict.get (cache_file_name cfg "application") (disk empty) <> Some Directory
  /\ exists st1,
       _get_config_by_namespace JsonText.decode cfg (serving (timeout_is "60"))
         "application" empty = (Return tt, st1)
       /\ _get_config_by_namespace JsonText.decode cfg (serving (timeout_is "60"))
            "application" st1 = (Return tt, st1)
       /\ (disk_writes st1 <= 1)%nat.
Proof.
  assert (fetch_succeeds JsonText.decode cfg (serving (timeout_is "60")) "application"
            (JStr "r1") (timeout_is "60") (JObj [("timeout", JStr "60")])) as Hok
    by (apply application_is_served; vm_compute; reflexivity).
  assert (PyDict.get (cache_file_name cfg "application") (disk empty)
          <> Some Directory) as Hdir by discriminate.
  split; [exact Hok | ]. split; [exact Hdir | ].
  exact (served_release_twice_changes_nothing JsonText.decode cfg
           (serving (timeout_is "60")) empty "application" (JStr "r1")
           (timeout_is "60") (JObj [("timeout", JStr "60")]) Hok Hdir).
Defined.

Lemma non_object_configurations_make_get_value_raise_witness :
  fetch_succeeds JsonText.decode cfg (serving "[1, 2]") "application"
    (JStr "r1") "[1, 2]" (JArr [JNum 1; JNum 2])
  /\ (forall members, JArr [JNum 1; JNum 2] <> JObj members)
  /\ writable (cache_file_name cfg "application") (disk empty) = true
  /\ exists st',
       _get_config_by_namespace JsonText.decode cfg (serving "[1, 2]")
         "application" empty = (Return tt, st')
       /\ _cache st' !! "application" = Some (JArr [JNum 1; JNum 2])
       /\ get_value "timeout" (JStr "30") "application" st'
          = (Raise (PyError "AttributeError"), st').
Proof.
  assert (fetch_succeeds JsonText.decode cfg (serving "[1, 2]") "application"
            (JStr "r1") "[1, 2]" (JArr [JNum 1; JNum 2])) as Hok
    by (apply application_is_served; vm_compute; reflexivity).
  assert (forall members, JArr [JNum 1; JNum 2] <> JObj members) as Hshape
    by discriminate.
  assert (writable (cache_file_name cfg "application") (disk empty) = true) as Hdir
    by reflexivity.
  do 3 (split; [assumption | ]).
  exact (non_object_configurations_make_get_value_raise JsonText.decode cfg
           (serving "[1, 2]") empty "application" (JStr "r1") "[1, 2]"
           (JArr [JNum 1; JNum 2]) "timeout" (JStr "30") Hok Hshape Hdir).
Defined.

Lemma release_without_configurations_empties_the_cache_file_witness :
  let st := on_disk one_record warm in
  JsonText.decode "{}" = Some (JObj [])
  /\ JsonText.decode EmptyString = None
  /\ PyDict.get (cache_file_name cfg "application") (disk st)
     = Some (File (timeout_is "60"))
  /\ writable (cache_file_name cfg "application") (disk st) = true
  /\ exists st',
       _get_config_by_namespace JsonText.decode cfg without_configurations
         "application" st = (Raise (PyError "JSONDecodeError"), st')
       /\ PyDict.get (cache_file_name cfg "application") (disk st')
          = Some (File EmptyString)
       /\ _cache st' !! "application" = Some (JObj [])
       /\ _hash st' = _hash st.
Proof.
  intros st. do 4 (split; [vm_compute; reflexivity | ]).
  apply (release_without_configurations_empties_the_cache_file JsonText.decode cfg
           without_configurations st "application"
           (mkResponse 200 ("{" +:+ JsonText.q "releaseKey" +:+ ":"
                                +:+ JsonText.q "r2" +:+ "}"))
           [("releaseKey", JStr "r2")] (JStr "r2")).
  all: vm_compute; reflexivity.
Defined.


Lemma discovered_namespaces_are_distinct_witness :
  lists JsonText.decode cfg listing_with_repeat ["application"; "db"; "application"]
  /\ exists namespaces,
       _get_namespaces JsonText.decode cfg listing_with_repeat warm
       = (Return namespaces, warm)
       /\ (forall n, n ∈ PyDict.keys namespaces
                     <-> n ∈ ["application"; "db"; "application"])
       /\ NoDup (PyDict.keys namespaces)
       /\ NoDup (map (release_url cfg) (PyDict.keys namespaces)).
Proof.
  assert (lists JsonText.decode cfg listing_with_repeat
            ["application"; "db"; "application"]) as Hlists.
  { exists (mkResponse 200 (listing ["application"; "db"; "application"])),
      [JObj [("namespaceName", JStr "application"); ("id", JNum 1)];
       JObj [("namespaceName", JStr "db"); ("id", JNum 1)];
       JObj [("namespaceName", JStr "application"); ("id", JNum 1)]].
    split; [vm_compute; reflexivity | ]. split; [reflexivity | ].
    split; [vm_compute; reflexivity | ].
    repeat constructor; eexists; (split; [reflexivity | reflexivity]). }
  split; [exact Hlists | ].
  exact (discovered_namespaces_are_distinct JsonText.decode cfg listing_with_repeat
           warm ["application"; "db"; "application"] Hlists).
Defined.

Lemma listed_namespaces_are_all_discovered_witness :
  let r := mkResponse 200 (listing ["application"; "db"]) in
  let items := [JObj [("namespaceName", JStr "application"); ("id", JNum 1)];
                JObj [("namespaceName", JStr "db"); ("id", JNum 1)]] in
  http_outcome cfg one_down_one_up (namespaces_url cfg) = Return r
  /\ JsonText.decode (text r) = Some (JArr items)
  /\ exists namespaces,
       _get_namespaces JsonText.decode cfg one_down_one_up empty
       = (Return namespaces, empty)
       /\ forall n, n ∈ PyDict.keys namespaces <-> n ∈ ["application"; "db"].
Proof.
  intros r items. do 2 (split; [vm_compute; reflexivity | ]).
  apply (listed_namespaces_are_all_discovered JsonText.decode cfg one_down_one_up
           empty r items ["application"; "db"]).
  - vm_compute; reflexivity.
  - reflexivity.
  - vm_compute; reflexivity.
  - repeat constructor; eexists; (split; [reflexivity | reflexivity]).
Defined.

Lemma get_clusters_reads_only_witness :
  (http_outcome cfg clusters_down (clusters_url cfg)
   = Return (mkResponse 500 "Internal Server Error")
   /\ _get_clusters JsonText.decode cfg clusters_down warm = (Return (JObj []), warm))
  /\ (http_outcome cfg unreachable (clusters_url cfg) = Raise (PyError "ConnectionError")
      /\ _get_clusters JsonText.decode cfg unreachable warm
         = (Raise (PyError "ConnectionError"), warm)).
Proof.
  destruct (get_clusters_reads_only JsonText.decode cfg clusters_down warm)
    as (_ & Hstatus & _).
  destruct (get_clusters_reads_only JsonText.decode cfg unreachable warm)
    as (_ & _ & Hraise).
  split; (split; [reflexivity | ]).
  - apply (Hstatus (mkResponse 500 "Internal Server Error")); [reflexivity | discriminate].
  - apply Hraise. reflexivity.
Defined.


Lemma constructor_raises_without_two_colons_witness :
  (PyStrMore.count ":" (arg_config_server_url args_without_port) < 2)%nat
  /\ init_config PyInt.parse args_without_port = Raise (PyError "IndexError")
  /\ __init__ PyInt.parse JsonText.decode one_down_one_up args_without_port (Dir tidy)
     = (Raise (PyError "IndexError"), None).
Proof.
  assert (PyStrMore.count ":" (arg_config_server_url args_without_port) < 2)%nat
    as Hcount by (vm_compute; lia).
  split; [exact Hcount | ].
  exact (constructor_raises_without_two_colons PyInt.parse JsonText.decode
           one_down_one_up args_without_port (Dir tidy) Hcount).
Defined.

Lemma constructor_reads_host_and_port_witness :
  arg_config_server_url (default_args "test")
  = "http" +:+ ":" +:+ "//localhost" +:+ ":" +:+ "8090" +:+ EmptyString
  /\ PyInt.parse "8090" = Some 8090
  /\ str_of_int 8090 = "8090"
  /\ init_config PyInt.parse (default_args "test") = Return cfg
  /\ namespaces_url cfg
     = "http://localhost:8090" +:+ "/apps/" +:+ "test" +:+ "/clusters/" +:+ "default"
         +:+ "/namespaces".
Proof.
  destruct (constructor_reads_host_and_port PyInt.parse (default_args "test")
              "http" "//localhost" "8090" EmptyString
              eq_refl eq_refl eq_refl eq_refl (or_introl eq_refl))
    as [Hconfig Hurl].
  assert (init_config PyInt.parse (default_args "test") = Return cfg) as Hcfg
    by (rewrite Hconfig; vm_compute; reflexivity).
  do 3 (split; [vm_compute; reflexivity | ]). split; [exact Hcfg | ].
  exact (Hurl 8090 cfg eq_refl eq_refl eq_refl Hcfg).
Defined.

Lemma construction_keeps_the_cache_directory_witness :
  let first_pass := _read_from_server JsonText.decode cfg release_down
                      (mkState ∅ ∅ [] tidy 0) in
  __init__ PyInt.parse JsonText.decode release_down (default_args "test") (Dir tidy)
  = (fst first_pass, Some (cfg, snd first_pass))
  /\ is_regular_file (cache_file_name cfg "application") tidy = true
  /\ is_regular_file (cache_file_name cfg "application") (disk (snd first_pass)) = true
  /\ keyed_files cfg (snd first_pass)
  /\ __init__ PyInt.parse JsonText.decode release_down (default_args "test") NotADirectory
     = (Raise (PyError "FileExistsError"), None).
Proof.
  intros first_pass.
  assert (__init__ PyInt.parse JsonText.decode release_down (default_args "test")
            (Dir tidy) = (fst first_pass, Some (cfg, snd first_pass))) as Hinit
    by (vm_compute; reflexivity).
  destruct (construction_keeps_the_cache_directory PyInt.parse JsonText.decode
              release_down (default_args "test") (Dir tidy)) as [Hdone _].
  destruct (Hdone _ _ _ Hinit) as (_ & entries & Hpath & _ & Hfiles & Hkeyed & _).
  assert (entries = tidy) as -> by (destruct Hpath as [[= <-] | [[=] _]]; reflexivity).
  split; [exact Hinit | ]. split; [reflexivity | ].
  split; [apply Hfiles; reflexivity | ]. split; [exact Hkeyed | ].
  destruct (construction_keeps_the_cache_directory PyInt.parse JsonText.decode
              release_down (default_args "test") NotADirectory) as [_ Hraise].
  apply (Hraise cfg); [vm_compute; reflexivity | reflexivity].
Defined.

Lemma same_keyword_names_same_instance_witness :
  let first_call := __new__ show_key [] [("app_id", "orders"); ("cluster", "eu")]
                      (mkClass None 0) in
  PyDict.keys [("app_id", "orders"); ("cluster", "eu")]
    ≡ₚ PyDict.keys [("cluster", "us"); ("app_id", "billing")]
  /\ __new__ show_key [] [("cluster", "us"); ("app_id", "billing")] (snd first_call)
     = (fst first_call, snd first_call).
Proof.
  intros first_call.
  assert (PyDict.keys [("app_id", "orders"); ("cluster", "eu")]
            ≡ₚ PyDict.keys [("cluster", "us"); ("app_id", "billing")]) as Hperm
    by apply perm_swap.
  split; [exact Hperm | ].
  exact (same_keyword_names_same_instance show_key []
           [("app_id", "orders"); ("cluster", "eu")]
           [("cluster", "us"); ("app_id", "billing")] (mkClass None 0) Hperm).
Defined.

Lemma different_keys_different_instances_witness :
  let first_call := __new__ show_key ["orders"] [] (mkClass None 0) in
  let second_call := __new__ show_key ["billing"] [] (snd first_call) in
  registry_ok (mkClass None 0)
  /\ show_key ["orders"] (sorted (PyDict.keys (@nil (string * string))))
     <> show_key ["billing"] (sorted (PyDict.keys (@nil (string * string))))
  /\ fst first_call <> fst second_call
  /\ registry_ok (snd second_call)
  /\ __new__ show_key ["orders"] [] (snd second_call) = (fst first_call, snd second_call).
Proof.
  intros first_call second_call.
  assert (registry_ok (mkClass None 0)) as Hok by (intros instances [=]).
  assert (show_key ["orders"] (sorted (PyDict.keys (@nil (string * string))))
          <> show_key ["billing"] (sorted (PyDict.keys (@nil (string * string)))))
    as Hkeys by (vm_compute; discriminate).
  split; [exact Hok | ]. split; [exact Hkeys | ].
  exact (different_keys_different_instances show_key ["orders"] ["billing"] [] []
           (mkClass None 0) Hok Hkeys).
Defined.

Lemma call_is_confined_to_its_namespace_witness :
  let st := on_disk one_record warm in
  let st' := snd (_get_config_by_namespace JsonText.decode cfg one_down_one_up "db" st) in
  "db" <> "application"
  /\ _cache st' !! "application" = _cache st !! "application"
  /\ _hash st' !! "application" = _hash st !! "application"
  /\ PyDict.get (cache_file_name cfg "application") (disk st')
     = PyDict.get (cache_file_name cfg "application") (disk st)
  /\ _cache st' !! "db" = Some (JObj [("timeout", JStr "15")]).
Proof.
  intros st st'.
  assert ("db" <> "application") as Hne by discriminate.
  split; [exact Hne | ].
  destruct (call_is_confined_to_its_namespace JsonText.decode cfg one_down_one_up
              st "application" "db" Hne) as (Hc & Hh & Hd).
  split; [exact Hc | ]. split; [exact Hh | ]. split; [exact Hd | ].
  vm_compute. reflexivity.
Defined.

Lemma cold_start_scan_is_idempotent_witness :
  let st1 := snd (_read_from_local_cache_file JsonText.decode (on_disk tidy empty)) in
  _read_from_local_cache_file JsonText.decode (on_disk tidy empty) = (Return true, st1)
  /\ same_storage (on_disk tidy empty) st1
  /\ _cache st1 !! "application" = Some (JObj [("timeout", JStr "60")])
  /\ _read_from_local_cache_file JsonText.decode st1 = (Return true, st1).
Proof.
  intros st1.
  assert (_read_from_local_cache_file JsonText.decode (on_disk tidy empty)
          = (Return true, st1)) as Hscan by (vm_compute; reflexivity).
  destruct (cold_start_scan_is_idempotent JsonText.decode (on_disk tidy empty) st1 Hscan)
    as (Hsame & _ & Hagain).
  split; [exact Hscan | ]. split; [exact Hsame | ].
  split; [vm_compute; reflexivity | exact Hagain].
Defined.

Lemma swap_files_are_skipped_witness :
  PyStr.contains "/" ".notes.txt" = false
  /\ PyStr.all_dots ".notes.txt" = false
  /\ PyDict.get (".notes.txt" +:+ ".swp") (disk (on_disk tidy empty))
     = Some (File "scratch")
  /\ record_of (disk (on_disk tidy empty)) (".notes.txt" +:+ ".swp") = None
  /\ load_cache_file JsonText.decode (".notes.txt" +:+ ".swp") (on_disk tidy empty)
     = (Return tt, on_disk tidy empty).
Proof.
  do 3 (split; [reflexivity | ]).
  exact (swap_files_are_skipped JsonText.decode (on_disk tidy empty) ".notes.txt"
           eq_refl eq_refl).
Defined.

